(** * buildbot-nix, Gitea backend: project discovery, cache and webhooks

    A shallow embedding of [buildbot_nix/gitea_projects.py]:
    [refresh_projects], [create_project_hook],
    [ReloadGiteaProjects.reload_projects], [ReloadGiteaProjects.run],
    [GiteaBackend.__init__] and [GiteaBackend.load_projects].

    Repository records stay what they are in the source, JSON-shaped
    dictionaries.  The code talks to a Gitea server, to the secret
    directory, to the file system and to its own process; all of that is
    one explicit [world], threaded through a state-and-exception monad in
    which a raised exception keeps the effects performed so far. *)

From Stdlib Require Import String Ascii List Bool ZArith Lia.
From Stdlib Require Import Sorting.Sorted Sorting.Permutation.
Import ListNotations.

Local Open Scope string_scope.
Local Open Scope list_scope.

Set Warnings "-register-all".

(** ** JSON values, as [json.loads] produces them

    Objects are association lists in insertion order, as Python dicts
    are; a well-formed object has no duplicate key and lookups take the
    first binding.  Numbers are the integers. *)

Inductive json : Type :=
| JNull
| JBool (b : bool)
| JNum (n : Z)
| JStr (s : string)
| JArr (items : list json)
| JObj (fields : list (string * json)).

Fixpoint json_eqb (a b : json) {struct a} : bool :=
  match a, b with
  | JNull, JNull => true
  | JBool x, JBool y => Bool.eqb x y
  | JNum x, JNum y => Z.eqb x y
  | JStr x, JStr y => String.eqb x y
  | JArr xs, JArr ys =>
      (fix items_eqb (xs ys : list json) {struct xs} : bool :=
         match xs, ys with
         | [], [] => true
         | x :: xs', y :: ys' => json_eqb x y && items_eqb xs' ys'
         | _, _ => false
         end) xs ys
  | JObj xs, JObj ys =>
      (fix fields_eqb (xs ys : list (string * json)) {struct xs} : bool :=
         match xs, ys with
         | [], [] => true
         | (k, x) :: xs', (l, y) :: ys' =>
             String.eqb k l && json_eqb x y && fields_eqb xs' ys'
         | _, _ => false
         end) xs ys
  | _, _ => false
  end.

(** ** Exceptions

    What this code can observe of an exception is whether [except OSError]
    catches it and the text of its traceback.  [OSError] stands for that
    class and its subclasses, [OtherError] for every class outside them. *)

Inductive exn_class : Type := OSError | KeyError | TypeError | OtherError.

Record exn : Type := mkExn { exn_kind : exn_class; exn_text : string }.

Definition is_OSError (e : exn) : bool :=
  match exn_kind e with OSError => true | _ => false end.

Inductive result (A : Type) : Type :=
| Ok (a : A)
| Raise (e : exn).
Arguments Ok {A} a.
Arguments Raise {A} e.

Definition bindR {A B : Type} (r : result A) (k : A -> result B) : result B :=
  match r with
  | Ok a => k a
  | Raise e => Raise e
  end.

Notation "x <~ r ;; k" := (bindR r (fun x => k))
  (at level 61, r at next level, right associativity).

Fixpoint mapR {A B : Type} (f : A -> result B) (xs : list A) : result (list B) :=
  match xs with
  | [] => Ok []
  | x :: xs' => y <~ f x ;; ys <~ mapR f xs' ;; Ok (y :: ys)
  end.

(** ** Python operations on JSON values *)

Fixpoint dict_get (fields : list (string * json)) (key : string) : option json :=
  match fields with
  | [] => None
  | (k, v) :: rest => if String.eqb k key then Some v else dict_get rest key
  end.

(** [d[key] = v]: an existing key keeps its position, a new one goes last. *)
Fixpoint dict_set (fields : list (string * json)) (key : string) (v : json)
  : list (string * json) :=
  match fields with
  | [] => [(key, v)]
  | (k, old) :: rest =>
      if String.eqb k key then (k, v) :: rest
      else (k, old) :: dict_set rest key v
  end.

(** [x[key]] with a string key: [KeyError] on a dict without the key,
    [TypeError] on anything that is not a dict. *)
Definition subscript (x : json) (key : string) : result json :=
  match x with
  | JObj fields =>
      match dict_get fields key with
      | Some v => Ok v
      | None => Raise (mkExn KeyError key)
      end
  | _ => Raise (mkExn TypeError "indices must be integers or slices, not str")
  end.

(** [x[key] = v] on a record of the enumeration. *)
Definition assign (x : json) (key : string) (v : json) : result json :=
  match x with
  | JObj fields => Ok (JObj (dict_set fields key v))
  | _ => Raise (mkExn TypeError "object does not support item assignment")
  end.

(** Truth value, as [not x] and [if x] take it. *)
Definition truthy (x : json) : bool :=
  match x with
  | JNull => false
  | JBool b => b
  | JNum n => negb (Z.eqb n 0)
  | JStr s => negb (String.eqb s EmptyString)
  | JArr items => match items with [] => false | _ => true end
  | JObj fields => match fields with [] => false | _ => true end
  end.

(** [x == s] for a Python [str] [s]. *)
Definition eq_str (x : json) (s : string) : bool :=
  match x with
  | JStr t => String.eqb t s
  | _ => false
  end.

Fixpoint is_substring (needle hay : string) : bool :=
  String.prefix needle hay
  || match hay with
     | EmptyString => false
     | String _ rest => is_substring needle rest
     end.

(** [s in x] for a Python [str] [s]. *)
Definition contains (x : json) (s : string) : result bool :=
  match x with
  | JArr items => Ok (existsb (fun y => eq_str y s) items)
  | JObj fields => Ok (existsb (fun kv => String.eqb (fst kv) s) fields)
  | JStr t => Ok (is_substring s t)
  | _ => Raise (mkExn TypeError "argument is not iterable")
  end.

(** What a [for] loop, or [sorted], iterates over. *)
Definition iterate (x : json) : result (list json) :=
  match x with
  | JArr items => Ok items
  | JObj fields => Ok (map (fun kv => JStr (fst kv)) fields)
  | JStr s => Ok (map (fun c => JStr (String c EmptyString)) (list_ascii_of_string s))
  | _ => Raise (mkExn TypeError "object is not iterable")
  end.

(** [a < b] on sort keys.  Strings order by code point, integers and
    booleans as numbers; every other pairing raises [TypeError].  (A key
    that is itself a list, which Python orders lexicographically, is
    outside this model and treated as unorderable.) *)
Definition as_number (x : json) : option Z :=
  match x with
  | JNum n => Some n
  | JBool b => Some (if b then 1%Z else 0%Z)
  | _ => None
  end.

Definition py_lt (a b : json) : result bool :=
  match a, b with
  | JStr s, JStr t => Ok (String.ltb s t)
  | _, _ =>
      match as_number a, as_number b with
      | Some m, Some n => Ok (Z.ltb m n)
      | _, _ => Raise (mkExn TypeError "'<' not supported between instances")
      end
  end.

(** ** [sorted(xs, key=f)]

    The keys are computed first, in order; the sort is stable and uses
    only [<] on keys.  With a key order that is total the result of a
    stable sort does not depend on the algorithm, so insertion stands for
    Timsort here; on keys that cannot be ordered both raise [TypeError]
    as soon as two of them meet. *)

Fixpoint insert_by_key (kx : json * json) (sorted : list (json * json))
  : result (list (json * json)) :=
  match sorted with
  | [] => Ok [kx]
  | ky :: rest =>
      lt <~ py_lt (fst ky) (fst kx) ;;
      if lt then (rest' <~ insert_by_key kx rest ;; Ok (ky :: rest'))
      else Ok (kx :: ky :: rest)
  end.

Fixpoint sort_decorated (xs : list (json * json)) : result (list (json * json)) :=
  match xs with
  | [] => Ok []
  | kx :: rest => sorted <~ sort_decorated rest ;; insert_by_key kx sorted
  end.

Definition sorted (key : json -> result json) (xs : list json) : result (list json) :=
  decorated <~ mapR (fun x => k <~ key x ;; Ok (k, x)) xs ;;
  ordered <~ sort_decorated decorated ;;
  Ok (map snd ordered).

(** ** Configuration *)

Record GiteaConfig : Type := mkGiteaConfig {
  instance_url : string;
  oauth_id : option string;
  oauth_secret_name : string;
  token_secret_name : string;
  webhook_secret_name : string;
  project_cache_file : string;
  topic : option string
}.

(** The dataclass defaults. *)
Definition default_config (url : string) (oauth : option string) : GiteaConfig :=
  {| instance_url := url;
     oauth_id := oauth;
     oauth_secret_name := "gitea-oauth-secret";
     token_secret_name := "gitea-token";
     webhook_secret_name := "gitea-webhook-secret";
     project_cache_file := "gitea-project-cache.json";
     topic := Some "build-with-buildbot" |}.

(** ** The world

    Everything observable is an [event], appended to the world's trace
    (most recent first). *)

Inductive event : Type :=
| ListRepos (instance : string) (token : string)
    (* GET {instance}/api/v1/user/repos?limit=100 *)
| GetTopics (instance : string) (owner name : json) (token : string)
    (* GET {instance}/api/v1/repos/{owner}/{name}/topics *)
| ListHooks (instance : string) (repo_name : json) (token : string)
    (* GET {instance}/api/v1/repos/{repo_name}/hooks?limit=100 *)
| CreateHook (instance : string) (repo_name : json)
    (headers : list (string * string)) (data : json)
    (* POST {instance}/api/v1/repos/{repo_name}/hooks *)
| WriteFile (path : string) (document : json)
    (* atomic_write_file(path, json.dumps(document)) *)
| LogSkipping (name : json)
    (* log.msg: skipping {name} because we do not have admin privileges *)
| LogHookExists (repo_name : json)
    (* log.msg: hook for {repo_name} already exists *)
| Sighup
    (* os.kill(os.getpid(), signal.SIGHUP) *)
| AddLog (name : string)
    (* self.addLog(name) *)
| AddStderr (log : string) (text : string).
    (* log.addStderr(text) on the log stream of that name *)

(** The first six fields are the surroundings, fixed during a run: the
    helpers imported from [.common] and [.secrets] are not part of this
    module, so what they answer is a parameter of the world.  A paginated
    enumeration yields records and may then raise; a request answers or
    raises.  The last three fields are the state the code changes. *)
Record world : Type := mkWorld {
  (** [read_secret_file(name)]: the secret, or the exception raised. *)
  secret_files : string -> result string;
  (** Records yielded by the enumeration of [/user/repos], then the
      exception that ends it, if any. *)
  user_repos : list json * option exn;
  (** Parsed body of the topics response for [owner], [name], or the
      exception raised by the request or by [.json()]. *)
  topics_of : json -> json -> result json;
  (** The enumeration of a repository's hooks raises this exception
      after yielding that many hooks. *)
  hooks_error : json -> option (nat * exn);
  (** The exception raised by the hook-creation request, if any. *)
  create_hook_error : json -> option exn;
  (** The exception raised by [atomic_write_file] on that path, if any. *)
  write_error : string -> option exn;
  (** Hooks registered on the server: repository name and hook. *)
  hooks : list (json * json);
  (** Files: absent, or what [json.loads(read_text())] gives. *)
  files : string -> option (result json);
  trace : list event
}.

Definition with_trace (w : world) (t : list event) : world :=
  mkWorld (secret_files w) (user_repos w) (topics_of w) (hooks_error w)
          (create_hook_error w) (write_error w) (hooks w) (files w) t.

Definition with_hooks (w : world) (h : list (json * json)) : world :=
  mkWorld (secret_files w) (user_repos w) (topics_of w) (hooks_error w)
          (create_hook_error w) (write_error w) h (files w) (trace w).

Definition with_files (w : world) (f : string -> option (result json)) : world :=
  mkWorld (secret_files w) (user_repos w) (topics_of w) (hooks_error w)
          (create_hook_error w) (write_error w) (hooks w) f (trace w).

(** ** The monad of the embedding: state and exceptions *)

Definition M (A : Type) : Type := world -> result A * world.

Definition ret {A : Type} (a : A) : M A := fun w => (Ok a, w).

Definition raise {A : Type} (e : exn) : M A := fun w => (Raise e, w).

Definition bind {A B : Type} (m : M A) (k : A -> M B) : M B :=
  fun w =>
    match m w with
    | (Ok a, w') => k a w'
    | (Raise e, w') => (Raise e, w')
    end.

Notation "x <- m ;; k" := (bind m (fun x => k))
  (at level 61, m at next level, right associativity).
Notation "m ;;; k" := (bind m (fun _ => k))
  (at level 61, right associativity).

Definition lift {A : Type} (r : result A) : M A := fun w => (r, w).

Definition emit (ev : event) : M unit :=
  fun w => (Ok tt, with_trace w (ev :: trace w)).

(** [try: body except OSError: handler] *)
Definition try_except_OSError {A : Type} (body : M A) (handler : M A) : M A :=
  fun w =>
    match body w with
    | (Ok a, w') => (Ok a, w')
    | (Raise e, w') => if is_OSError e then handler w' else (Raise e, w')
    end.

(** A [for] loop whose body updates a local variable. *)
Fixpoint for_fold {A S : Type} (body : S -> A -> M S) (xs : list A) (s : S) : M S :=
  match xs with
  | [] => ret s
  | x :: xs' => s' <- body s x ;; for_fold body xs' s'
  end.

(** A [for] loop run for its effects. *)
Fixpoint for_each {A : Type} (body : A -> M unit) (xs : list A) : M unit :=
  match xs with
  | [] => ret tt
  | x :: xs' => body x ;;; for_each body xs'
  end.

(** ** The helpers imported by the module *)

(** [read_secret_file(name)], from [.secrets]. *)
Definition read_secret_file (name : string) : M string :=
  fun w => (secret_files w name, w).

(** [GiteaConfig.token] *)
Definition token (config : GiteaConfig) : M string :=
  read_secret_file (token_secret_name config).

(** [GiteaConfig.oauth_secret] *)
Definition oauth_secret (config : GiteaConfig) : M string :=
  read_secret_file (oauth_secret_name config).

(** Hooks the server lists for a repository. *)
Definition hooks_on (w : world) (repo_name : json) : list json :=
  map snd (filter (fun rh => json_eqb (fst rh) repo_name) (hooks w)).

(** Modelled from the spec: [atomic_write_file], from [.common], which
    writes a temporary file in the same directory, flushes, then renames
    it over the target; a write that fails does so before the rename and
    leaves the target as it was. *)
Definition atomic_write_file (path : string) (document : json) : M unit :=
  emit (WriteFile path document) ;;;
  fun w =>
    match write_error w path with
    | Some e => (Raise e, w)
    | None =>
        (Ok tt,
         with_files w (fun p => if String.eqb p path then Some (Ok document)
                                else files w p))
    end.

(** ** [refresh_projects] *)

(** The body of the loop over the enumeration; [repos] is the list being
    collected. *)
Definition refresh_step (config : GiteaConfig) (repos : list json) (repo : json)
  : M (list json) :=
  permissions <- lift (subscript repo "permissions") ;;
  admin <- lift (subscript permissions "admin") ;;
  if negb (truthy admin) then
    name <- lift (subscript repo "full_name") ;;
    emit (LogSkipping name) ;;;
    ret repos
  else
    try_except_OSError
      (owner <- lift (subscript repo "owner") ;;
       login <- lift (subscript owner "login") ;;
       name <- lift (subscript repo "name") ;;
       tok <- token config ;;
       emit (GetTopics (instance_url config) login name tok) ;;;
       body <- (fun w => (topics_of w login name, w)) ;;
       topics <- lift (subscript body "topics") ;;
       repo' <- lift (assign repo "topics" topics) ;;
       ret (repos ++ [repo']))
      (ret repos).

Definition refresh_projects (config : GiteaConfig) : M (list json) :=
  tok <- token config ;;
  emit (ListRepos (instance_url config) tok) ;;;
  listing <- (fun w => (Ok (user_repos w), w)) ;;
  repos <- for_fold (refresh_step config) (fst listing) [] ;;
  match snd listing with
  | Some e => raise e
  | None => ret repos
  end.

(** ** [create_project_hook] *)

Definition hook_config (webhook_url webhook_secret : string) : json :=
  JObj [("url", JStr (webhook_url ++ "change_hook/gitea")%string);
        ("content_type", JStr "json");
        ("insecure_ssl", JStr "0");
        ("secret", JStr webhook_secret)].

Definition hook_data (webhook_url webhook_secret : string) : json :=
  JObj [("name", JStr "web");
        ("active", JBool true);
        ("events", JArr [JStr "push"; JStr "pull_request"]);
        ("config", hook_config webhook_url webhook_secret);
        ("type", JStr "gitea")].

Definition hook_headers (tok : string) : list (string * string) :=
  [("Authorization", ("token " ++ tok)%string);
   ("Accept", "application/json");
   ("Content-Type", "application/json")].

(** The loop over the existing hooks: [true] when it returned from the
    function on a hook with the wanted URL. *)
Fixpoint hook_exists (webhook_url : string) (existing : list json) : result bool :=
  match existing with
  | [] => Ok false
  | hook :: rest =>
      config <~ subscript hook "config" ;;
      url <~ subscript config "url" ;;
      if eq_str url (webhook_url ++ "change_hook/gitea")%string then Ok true
      else hook_exists webhook_url rest
  end.

(** The enumeration of the hooks of a repository: what it yields, and the
    exception that ends it, if any. *)
Definition hooks_listing (w : world) (repo_name : json) : list json * option exn :=
  match hooks_error w repo_name with
  | Some (n, e) => (firstn n (hooks_on w repo_name), Some e)
  | None => (hooks_on w repo_name, None)
  end.

Definition list_hooks (instance : string) (repo_name : json) (tok : string)
  : M (list json * option exn) :=
  emit (ListHooks instance repo_name tok) ;;;
  fun w => (Ok (hooks_listing w repo_name), w).

(** The creation request; a server that accepts it lists the hook, as
    posted, from then on. *)
Definition post_hook (instance : string) (repo_name : json)
  (headers : list (string * string)) (data : json) : M unit :=
  emit (CreateHook instance repo_name headers data) ;;;
  fun w =>
    match create_hook_error w repo_name with
    | Some e => (Raise e, w)
    | None => (Ok tt, with_hooks w (hooks w ++ [(repo_name, data)]))
    end.

Definition create_project_hook (instance : string) (repo_name : json)
  (tok webhook_url webhook_secret : string) : M unit :=
  listing <- list_hooks instance repo_name tok ;;
  let data := hook_data webhook_url webhook_secret in
  let headers := hook_headers tok in
  found <- lift (hook_exists webhook_url (fst listing)) ;;
  if found then emit (LogHookExists repo_name)
  else
    match snd listing with
    | Some e => raise e
    | None => post_hook instance repo_name headers data
    end.

(** ** [ReloadGiteaProjects] *)

Record ReloadGiteaProjects : Type := mkReloadGiteaProjects {
  step_config : GiteaConfig;
  step_project_cache_file : string;
  step_webhook_url : string;
  step_webhook_secret : string
}.

Definition reconcile_hook (self : ReloadGiteaProjects) (repo : json) : M unit :=
  name <- lift (subscript repo "full_name") ;;
  tok <- token (step_config self) ;;
  create_project_hook (instance_url (step_config self)) name tok
    (step_webhook_url self) (step_webhook_secret self).

Definition reload_projects (self : ReloadGiteaProjects) : M unit :=
  repos <- refresh_projects (step_config self) ;;
  for_each (reconcile_hook self) repos ;;;
  atomic_write_file (step_project_cache_file self) (JArr repos).

Inductive step_result : Type := SUCCESS | FAILURE.

(** [run]: the refresh runs on a worker thread and the step waits for it;
    the callbacks turn its outcome into a result code. *)
Definition run (self : ReloadGiteaProjects) : M step_result :=
  fun w =>
    match reload_projects self w with
    | (Ok _, w') => (emit Sighup ;;; ret SUCCESS) w'
    | (Raise failure, w') =>
        let error_msg := (EmptyString ++ exn_text failure)%string in
        (emit (AddLog "log") ;;;
         emit (AddStderr "log" ("Failed to reload project list: " ++ error_msg)%string) ;;;
         ret FAILURE) w'
    end.

(** ** [GiteaBackend] *)

Record GiteaBackend : Type := mkGiteaBackend {
  backend_config : GiteaConfig;
  backend_webhook_secret : string
}.

(** [GiteaBackend.__init__] *)
Definition new_backend (config : GiteaConfig) : M GiteaBackend :=
  secret <- read_secret_file (webhook_secret_name config) ;;
  ret (mkGiteaBackend config secret).

(** [GiteaBackend.create_reload_builder], down to the step it adds. *)
Definition create_reload_builder (self : GiteaBackend) (base_url : string)
  : ReloadGiteaProjects :=
  mkReloadGiteaProjects (backend_config self)
    (project_cache_file (backend_config self)) base_url
    (backend_webhook_secret self).

Record GiteaProject : Type := mkGiteaProject {
  project_config : GiteaConfig;
  data : json
}.

(** [GiteaProject.name] and [GiteaProject.topics] *)
Definition project_name (p : GiteaProject) : result json := subscript (data p) "full_name".
Definition project_topics (p : GiteaProject) : result json := subscript (data p) "topics".

(** The predicate given to [filter] in [load_projects]. *)
Definition has_topic (config : GiteaConfig) (project : GiteaProject) : result bool :=
  match topic config with
  | None => Ok false
  | Some t => topics <~ project_topics project ;; contains topics t
  end.

Fixpoint filterR {A : Type} (p : A -> result bool) (xs : list A) : result (list A) :=
  match xs with
  | [] => Ok []
  | x :: xs' =>
      keep <~ p x ;;
      rest <~ filterR p xs' ;;
      Ok (if keep then x :: rest else rest)
  end.

(** [GiteaBackend.load_projects] *)
Definition load_projects (self : GiteaBackend) : M (list GiteaProject) :=
  let config := backend_config self in
  fun w =>
    match files w (project_cache_file config) with
    | None => (Ok [], w)
    | Some text =>
        (document <~ text ;;
         records <~ iterate document ;;
         repos <~ sorted (fun x => subscript x "full_name") records ;;
         filterR (has_topic config) (map (mkGiteaProject config) repos),
         w)
    end.

(** [GiteaBackend.are_projects_cached] *)
Definition are_projects_cached (self : GiteaBackend) (w : world) : bool :=
  match files w (project_cache_file (backend_config self)) with
  | None => false
  | Some _ => true
  end.

(** [GiteaBackend.create_change_hook] *)
Definition create_change_hook (self : GiteaBackend) : json :=
  JObj [("secret", JStr (backend_webhook_secret self));
        ("onlyMergeablePullRequest", JBool false)].

(** [GiteaBackend.change_hook_name] *)
Definition change_hook_name (self : GiteaBackend) : string := "gitea".

(** [GiteaBackend.reload_builder_name] *)
Definition reload_builder_name (self : GiteaBackend) : string := "reload-gitea-projects".

(** * Vocabulary of the properties *)

(** [m] leaves [R] between the world it starts in and the one it ends in,
    whether it returns or raises. *)
Definition preserves (R : world -> world -> Prop) {A : Type} (m : M A) : Prop :=
  forall w, R w (snd (m w)).

Definition same_files (w w' : world) : Prop := files w' = files w.

(** The trace grew by events that all satisfy [Q]. *)
Definition extends (Q : event -> Prop) (w w' : world) : Prop :=
  exists t, trace w' = t ++ trace w /\ Forall Q t.

(** Requests to the server and diagnostics: everything but a write of the
    cache file, the reload signal and the step's own log. *)
Definition network_event (ev : event) : Prop :=
  match ev with
  | WriteFile _ _ | Sighup | AddLog _ | AddStderr _ _ => False
  | _ => True
  end.

(** Number of hook-creation requests among some events. *)
Fixpoint creations (t : list event) : nat :=
  match t with
  | [] => 0
  | CreateHook _ _ _ _ :: t' => S (creations t')
  | _ :: t' => creations t'
  end.

(** The fields of the world that describe its surroundings are the same. *)
Definition same_surroundings (w w' : world) : Prop :=
  secret_files w' = secret_files w
  /\ user_repos w' = user_repos w
  /\ topics_of w' = topics_of w
  /\ hooks_error w' = hooks_error w
  /\ create_hook_error w' = create_hook_error w
  /\ write_error w' = write_error w.

(** Neither the enumeration nor the reconciliation of hooks touches a
    file or the surroundings, and they emit network events only. *)
Definition quiet (w w' : world) : Prop :=
  same_files w w' /\ same_surroundings w w' /\ extends network_event w w'.

(** The events of the build step itself: the reload signal and its log. *)
Definition step_event (ev : event) : bool :=
  match ev with
  | Sighup | AddLog _ | AddStderr _ _ => true
  | _ => false
  end.

(** [hook["config"]["url"]] *)
Definition hook_url (hook : json) : result json :=
  config <~ subscript hook "config" ;; subscript config "url".

(** [repo["permissions"]["admin"]] *)
Definition admin_of (repo : json) : result json :=
  permissions <~ subscript repo "permissions" ;; subscript permissions "admin".

(** [repo["owner"]["login"]] *)
Definition login_of (repo : json) : result json :=
  owner <~ subscript repo "owner" ;; subscript owner "login".

(** [added] is what the loop of [refresh_projects] collects from [items]:
    records are dropped or kept, in order, and a kept record is one the
    identity administers, with the topics of its topics response
    assigned. *)
Inductive collected_from (w : world) : list json -> list json -> Prop :=
| collected_nil : collected_from w [] []
| collected_skip (repo : json) (items added : list json) :
    collected_from w items added ->
    collected_from w (repo :: items) added
| collected_keep (repo repo' admin login name body topics : json)
    (items added : list json) :
    admin_of repo = Ok admin ->
    truthy admin = true ->
    login_of repo = Ok login ->
    subscript repo "name" = Ok name ->
    topics_of w login name = Ok body ->
    subscript body "topics" = Ok topics ->
    assign repo "topics" topics = Ok repo' ->
    collected_from w items added ->
    collected_from w (repo :: items) (repo' :: added).

(** An event that, if it is a hook-creation request, is one for the full
    name of a repository of [items] that the identity administers. *)
Definition hooks_only_for (items : list json) (ev : event) : Prop :=
  forall instance repo_name headers payload,
    ev = CreateHook instance repo_name headers payload ->
    exists repo admin,
      In repo items
      /\ admin_of repo = Ok admin /\ truthy admin = true
      /\ subscript repo "full_name" = Ok repo_name.

(** Two worlds that may differ in their traces, in the enumeration of
    repositories and in the secrets other than [name], and in nothing
    else. *)
Definition agree (name : string) (w1 w2 : world) : Prop :=
  secret_files w1 name = secret_files w2 name
  /\ topics_of w1 = topics_of w2
  /\ hooks_error w1 = hooks_error w2
  /\ create_hook_error w1 = create_hook_error w2
  /\ write_error w1 = write_error w2
  /\ hooks w1 = hooks w2
  /\ files w1 = files w2.

(** [m] does the same from worlds that agree: same outcome, and worlds
    that agree again. *)
Definition respects (name : string) {A : Type} (m : M A) : Prop :=
  forall w1 w2,
    agree name w1 w2 ->
    fst (m w1) = fst (m w2) /\ agree name (snd (m w1)) (snd (m w2)).

(** Order of two records by their [full_name], both strings. *)
Definition name_le (a b : json) : Prop :=
  exists s t,
    subscript a "full_name" = Ok (JStr s)
    /\ subscript b "full_name" = Ok (JStr t)
    /\ String.leb s t = true.

Definition key_le (kx ky : json * json) : Prop := name_le (snd kx) (snd ky).

(** A decorated record: its key is its [full_name], a string. *)
Definition keyed_by_name (kx : json * json) : Prop :=
  exists s, fst kx = JStr s /\ subscript (snd kx) "full_name" = Ok (JStr s).

(** [topics] is a list that holds the string [t]. *)
Definition tagged_with (t : string) (repo : json) : bool :=
  match subscript repo "topics" with
  | Ok (JArr topics) => existsb (fun y => eq_str y t) topics
  | _ => false
  end.

(** A record as the snapshot holds them: a string [full_name] and a list
    of [topics]. *)
Definition snapshot_record (repo : json) : Prop :=
  (exists s, subscript repo "full_name" = Ok (JStr s))
  /\ (exists topics, subscript repo "topics" = Ok (JArr topics)).

(** The server's answer to the enumeration of the hooks of [repo_name]
    holds a hook with the wanted URL, found by the loop of
    [create_project_hook]. *)
Definition has_hook (webhook_url : string) (w : world) (repo_name : json) : Prop :=
  hook_exists webhook_url (fst (hooks_listing w repo_name)) = Ok true.

(** The server's hooks only grew, and the enumeration of hooks fails
    where it failed. *)
Definition hooks_grow (w w' : world) : Prop :=
  hooks_error w' = hooks_error w /\ exists added, hooks w' = hooks w ++ added.

(** The events of [refresh_projects]. *)
Definition refresh_event (ev : event) : Prop :=
  match ev with
  | ListRepos _ _ | GetTopics _ _ _ _ | LogSkipping _ => True
  | _ => False
  end.

(** Nothing changed but the trace, which grew by events of
    [refresh_projects]. *)
Definition read_only (w w' : world) : Prop :=
  hooks w' = hooks w
  /\ files w' = files w
  /\ same_surroundings w w'
  /\ extends refresh_event w w'.

(** An event that, if it is a request for topics, is one for the owner
    and name of a record of [items] that the identity administers, sent
    to the configured instance with the API token of [w]. *)
Definition topics_request_for (config : GiteaConfig) (w : world) (items : list json)
  (ev : event) : Prop :=
  forall instance owner name tok,
    ev = GetTopics instance owner name tok ->
    instance = instance_url config
    /\ secret_files w (token_secret_name config) = Ok tok
    /\ exists repo admin,
        In repo items
        /\ admin_of repo = Ok admin /\ truthy admin = true
        /\ login_of repo = Ok owner /\ subscript repo "name" = Ok name.

(** What the loop of [refresh_projects] reads of a record without
    raising: the admin flag, then the full name of a record it skips, or
    the owner's login and the name of a record it keeps. *)
Definition readable_record (repo : json) : Prop :=
  exists admin,
    admin_of repo = Ok admin
    /\ if truthy admin
       then (exists login name,
                login_of repo = Ok login /\ subscript repo "name" = Ok name)
       else exists name, subscript repo "full_name" = Ok name.

(** A record the loop of [refresh_projects] passes over: one the
    identity does not administer, with a full name to log, or one it
    administers whose topics request raises an [OSError]. *)
Definition passed_over (w : world) (repo : json) : Prop :=
  exists admin,
    admin_of repo = Ok admin
    /\ if truthy admin
       then (exists login name e,
                login_of repo = Ok login /\ subscript repo "name" = Ok name
                /\ topics_of w login name = Raise e /\ is_OSError e = true)
       else exists name, subscript repo "full_name" = Ok name.

(** [repo["full_name"]], a string. *)
Definition has_string_name (repo : json) : Prop :=
  exists s, subscript repo "full_name" = Ok (JStr s).

(** The same world with another enumeration of repositories. *)
Definition with_user_repos (w : world) (l : list json * option exn) : world :=
  mkWorld (secret_files w) l (topics_of w) (hooks_error w)
          (create_hook_error w) (write_error w) (hooks w) (files w) (trace w).

(** The same world with another secret directory. *)
Definition with_secret_files (w : world) (s : string -> result string) : world :=
  mkWorld s (user_repos w) (topics_of w) (hooks_error w)
          (create_hook_error w) (write_error w) (hooks w) (files w) (trace w).

(** ** Sample data *)

Definition repo_record (owner name : string) (admin : bool) : json :=
  JObj [("name", JStr name);
        ("full_name", JStr (owner ++ "/" ++ name)%string);
        ("owner", JObj [("login", JStr owner)]);
        ("permissions", JObj [("admin", JBool admin)])].

Definition tagged (repo : json) (topics : list string) : json :=
  match repo with
  | JObj fields => JObj (dict_set fields "topics" (JArr (map JStr topics)))
  | other => other
  end.

(** A server on which nothing fails: it lists [repos], every repository
    carries the topic [build-with-buildbot] and has no hook yet; both
    secrets are there and no cache file exists. *)
Definition calm (repos : list json) : world :=
  {| secret_files := fun name => Ok ("secret of " ++ name)%string;
     user_repos := (repos, None);
     topics_of := fun _ _ => Ok (JObj [("topics", JArr [JStr "build-with-buildbot"])]);
     hooks_error := fun _ => None;
     create_hook_error := fun _ => None;
     write_error := fun _ => None;
     hooks := [];
     files := fun _ => None;
     trace := [] |}.

Definition sample_config : GiteaConfig :=
  default_config "https://gitea.example.org" None.

Definition sample_step : ReloadGiteaProjects :=
  mkReloadGiteaProjects sample_config (project_cache_file sample_config)
    "https://buildbot.example.org/" "s3cret".

Definition sample_backend : GiteaBackend :=
  mkGiteaBackend sample_config "s3cret".

(** The sample world with a snapshot already on disk. *)
Definition with_snapshot (w : world) (path : string) (document : json) : world :=
  with_files w (fun p => if String.eqb p path then Some (Ok document) else files w p).

Definition old_snapshot : json :=
  JArr [tagged (repo_record "old" "repo" true) ["build-with-buildbot"]].

(** The server lists one repository and then the enumeration breaks off. *)
Definition broken_listing : world :=
  with_user_repos
    (with_snapshot (calm []) (project_cache_file sample_config) old_snapshot)
    ([repo_record "a" "repo" true], Some (mkExn OtherError "HTTP 502")).

(** The server lists [b/repo], [a/repo], [c/repo], in that order. *)
Definition unsorted_listing : world :=
  calm [repo_record "b" "repo" true; repo_record "a" "repo" true;
        repo_record "c" "repo" true].

(** The server lists [a/repo] then [b/repo], and refuses the creation of
    a hook on [a/repo]. *)
Definition refused_hook : world :=
  mkWorld (secret_files (calm []))
    ([repo_record "a" "repo" true; repo_record "b" "repo" true], None)
    (topics_of (calm [])) (hooks_error (calm []))
    (fun repo_name =>
       if json_eqb repo_name (JStr "a/repo")
       then Some (mkExn OSError "connection reset") else None)
    (write_error (calm [])) [] (files (calm [])) [].

(** The server lists [a/repo], which the identity administers, and
    [z/repo], which it does not. *)
Definition mixed_listing : world :=
  calm [repo_record "a" "repo" true; repo_record "z" "repo" false].

(** The server lists five repositories the identity administers; the
    topics request for the third one, [o/three], gets [answer]. *)
Definition five_repos : list json :=
  [repo_record "o" "one" true; repo_record "o" "two" true;
   repo_record "o" "three" true; repo_record "o" "four" true;
   repo_record "o" "five" true].

Definition five_listing (answer : result json) : world :=
  mkWorld (secret_files (calm [])) (five_repos, None)
    (fun login name =>
       if eq_str name "three" then answer else topics_of (calm []) login name)
    (hooks_error (calm [])) (create_hook_error (calm [])) (write_error (calm []))
    [] (files (calm [])) [].

(** The webhook signing secret is there, the API token is not. *)
Definition no_token : world :=
  with_secret_files (calm [repo_record "a" "repo" true])
    (fun name =>
       if String.eqb name "gitea-token"
       then Raise (mkExn OSError "gitea-token: no such secret")
       else Ok ("secret of " ++ name)%string).

(** Neither secret is there. *)
Definition no_secrets : world :=
  with_secret_files (calm [repo_record "a" "repo" true])
    (fun name => Raise (mkExn OSError (name ++ ": no such secret")%string)).

(** A cache file with three records: [b/repo] and [a/repo] carry the
    topic [build-with-buildbot], [c/repo] does not. *)
Definition three_cached : world :=
  with_snapshot (calm []) (project_cache_file sample_config)
    (JArr [tagged (repo_record "b" "repo" true) ["build-with-buildbot"];
           tagged (repo_record "c" "repo" true) ["other"];
           tagged (repo_record "a" "repo" true) ["nix"; "build-with-buildbot"]]).

(** The default configuration with no required topic. *)
Definition config_without_topic : GiteaConfig :=
  mkGiteaConfig "https://gitea.example.org" None "gitea-oauth-secret"
    "gitea-token" "gitea-webhook-secret" "gitea-project-cache.json" None.

(** The server lists two repositories the identity administers and one
    it does not; every topics request times out.  An older snapshot is on
    disk. *)
Definition topics_outage : world :=
  mkWorld (secret_files (calm []))
    ([repo_record "a" "repo" true; repo_record "z" "repo" false;
      repo_record "b" "repo" true], None)
    (fun _ _ => Raise (mkExn OSError "timed out"))
    (hooks_error (calm [])) (create_hook_error (calm [])) (write_error (calm []))
    []
    (fun p => if String.eqb p (project_cache_file sample_config)
              then Some (Ok old_snapshot) else None)
    [].

(** The server already lists two hooks on [a/repo]: one without any
    [config], then the wanted one. *)
Definition unreadable_hook : world :=
  with_hooks (calm [])
    [(JStr "a/repo", JObj [("id", JNum 7)]);
     (JStr "a/repo", hook_data "https://buildbot.example.org/" "s3cret")].

(** The server already lists, on [a/repo], the hook registered for the
    base URL with a trailing slash. *)
Definition slash_hook : world :=
  with_hooks (calm [])
    [(JStr "a/repo", hook_data "https://buildbot.example.org/" "s3cret")].

(** * Properties *)

(** ** Running a computation *)

Lemma bind_ok {A B : Type} (m : M A) (k : A -> M B) (w w' : world) (a : A) :
  m w = (Ok a, w') -> bind m k w = k a w'.
Proof. intros H. unfold bind. rewrite H. reflexivity. Qed.

Lemma bind_raise {A B : Type} (m : M A) (k : A -> M B) (w w' : world) (e : exn) :
  m w = (Raise e, w') -> bind m k w = (Raise e, w').
Proof. intros H. unfold bind. rewrite H. reflexivity. Qed.

Lemma bind_inv {A B : Type} (m : M A) (k : A -> M B) (w w' : world) (r : result B) :
  bind m k w = (r, w') ->
  (exists a w1, m w = (Ok a, w1) /\ k a w1 = (r, w'))
  \/ (exists e, m w = (Raise e, w') /\ r = Raise e).
Proof.
  unfold bind. destruct (m w) as [[a | e] w1]; intros H.
  - left. exists a, w1. split; [reflexivity | exact H].
  - right. exists e. inversion H; subst. split; reflexivity.
Qed.

Lemma for_fold_app {A S : Type} (body : S -> A -> M S) (xs ys : list A) (s : S) (w : world) :
  for_fold body (xs ++ ys) s w =
  match for_fold body xs s w with
  | (Ok s', w') => for_fold body ys s' w'
  | (Raise e, w') => (Raise e, w')
  end.
Proof.
  revert s w. induction xs as [| x xs IH]; intros s w; simpl.
  - reflexivity.
  - unfold bind. destruct (body s x w) as [[s' | e] w']; [apply IH | reflexivity].
Qed.

Lemma for_each_app {A : Type} (body : A -> M unit) (xs ys : list A) (w : world) :
  for_each body (xs ++ ys) w =
  match for_each body xs w with
  | (Ok _, w') => for_each body ys w'
  | (Raise e, w') => (Raise e, w')
  end.
Proof.
  revert w. induction xs as [| x xs IH]; intros w; simpl.
  - reflexivity.
  - unfold bind. destruct (body x w) as [[u | e] w']; [apply IH | reflexivity].
Qed.

(** ** What a computation leaves alone

    A relation between the world before and the world after that is
    reflexive and transitive passes through the combinators. *)

Section Frame.
Variable R : world -> world -> Prop.
Hypothesis R_refl : forall w, R w w.
Hypothesis R_trans : forall w1 w2 w3, R w1 w2 -> R w2 w3 -> R w1 w3.

Local Abbreviation preserves := (preserves R).

Lemma preserves_ret {A : Type} (a : A) : preserves (ret a).
Proof. intros w. apply R_refl. Qed.

Lemma preserves_raise {A : Type} (e : exn) : preserves (@raise A e).
Proof. intros w. apply R_refl. Qed.

Lemma preserves_lift {A : Type} (r : result A) : preserves (lift r).
Proof. intros w. apply R_refl. Qed.

Lemma preserves_ask {A : Type} (f : world -> result A) :
  preserves (fun w => (f w, w)).
Proof. intros w. apply R_refl. Qed.

Lemma preserves_bind {A B : Type} (m : M A) (k : A -> M B) :
  preserves m -> (forall a, preserves (k a)) -> preserves (bind m k).
Proof.
  intros Hm Hk w. unfold bind. specialize (Hm w).
  destruct (m w) as [[a | e] w1]; simpl in *.
  - eapply R_trans; [exact Hm | apply Hk].
  - exact Hm.
Qed.

Lemma preserves_try {A : Type} (body handler : M A) :
  preserves body -> preserves handler ->
  preserves (try_except_OSError body handler).
Proof.
  intros Hb Hh w. unfold try_except_OSError. specialize (Hb w).
  destruct (body w) as [[a | e] w1]; simpl in *.
  - exact Hb.
  - destruct (is_OSError e); simpl.
    + eapply R_trans; [exact Hb | apply Hh].
    + exact Hb.
Qed.

Lemma preserves_for_fold {A S : Type} (body : S -> A -> M S) (xs : list A) :
  (forall s x, In x xs -> preserves (body s x)) ->
  forall s, preserves (for_fold body xs s).
Proof.
  induction xs as [| x xs IH]; intros Hbody s; simpl.
  - apply preserves_ret.
  - apply preserves_bind.
    + apply Hbody. left. reflexivity.
    + intros s'. apply IH. intros s0 y Hy. apply Hbody. right. exact Hy.
Qed.

Lemma preserves_for_each {A : Type} (body : A -> M unit) (xs : list A) :
  (forall x, In x xs -> preserves (body x)) ->
  preserves (for_each body xs).
Proof.
  induction xs as [| x xs IH]; intros Hbody; simpl.
  - apply preserves_ret.
  - apply preserves_bind.
    + apply Hbody. left. reflexivity.
    + intros _. apply IH. intros y Hy. apply Hbody. right. exact Hy.
Qed.

(** The relation tolerates the events in [P] and any change of the
    server's hooks: then it holds across the network half of a reload. *)
Variable P : event -> Prop.
Hypothesis R_emit : forall ev w, P ev -> R w (with_trace w (ev :: trace w)).
Hypothesis R_hooks : forall w h, R w (with_hooks w h).

Lemma preserves_emit (ev : event) : P ev -> preserves (emit ev).
Proof. intros Hev w. simpl. apply R_emit. exact Hev. Qed.

Lemma preserves_read_secret_file (name : string) : preserves (read_secret_file name).
Proof. intros w. apply R_refl. Qed.

Lemma preserves_refresh_step (config : GiteaConfig) (repos : list json) (repo : json) :
  (forall name, P (LogSkipping name)) ->
  (forall owner name tok, P (GetTopics (instance_url config) owner name tok)) ->
  preserves (refresh_step config repos repo).
Proof.
  intros Hlog Hget. unfold refresh_step.
  apply preserves_bind; [apply preserves_lift | intros permissions].
  apply preserves_bind; [apply preserves_lift | intros admin].
  destruct (negb (truthy admin)).
  - apply preserves_bind; [apply preserves_lift | intros name].
    apply preserves_bind; [apply preserves_emit, Hlog | intros _].
    apply preserves_ret.
  - apply preserves_try; [| apply preserves_ret].
    apply preserves_bind; [apply preserves_lift | intros owner].
    apply preserves_bind; [apply preserves_lift | intros login].
    apply preserves_bind; [apply preserves_lift | intros name].
    apply preserves_bind; [apply preserves_read_secret_file | intros tok].
    apply preserves_bind; [apply preserves_emit, Hget | intros _].
    apply preserves_bind; [apply preserves_ask | intros body].
    apply preserves_bind; [apply preserves_lift | intros topics].
    apply preserves_bind; [apply preserves_lift | intros repo'].
    apply preserves_ret.
Qed.

Lemma preserves_refresh_projects (config : GiteaConfig) :
  (forall tok, P (ListRepos (instance_url config) tok)) ->
  (forall name, P (LogSkipping name)) ->
  (forall owner name tok, P (GetTopics (instance_url config) owner name tok)) ->
  preserves (refresh_projects config).
Proof.
  intros Hlist Hlog Hget. unfold refresh_projects.
  apply preserves_bind; [apply preserves_read_secret_file | intros tok].
  apply preserves_bind; [apply preserves_emit, Hlist | intros _].
  apply preserves_bind; [apply preserves_ask | intros listing].
  apply preserves_bind.
  - apply preserves_for_fold. intros s x _.
    apply preserves_refresh_step; assumption.
  - intros repos. destruct (snd listing); [apply preserves_raise | apply preserves_ret].
Qed.

Lemma preserves_create_project_hook (instance : string) (repo_name : json)
  (tok webhook_url webhook_secret : string) :
  P (ListHooks instance repo_name tok) ->
  P (LogHookExists repo_name) ->
  P (CreateHook instance repo_name (hook_headers tok)
       (hook_data webhook_url webhook_secret)) ->
  preserves (create_project_hook instance repo_name tok webhook_url webhook_secret).
Proof.
  intros Hlist Hlog Hpost. unfold create_project_hook, list_hooks, post_hook.
  apply preserves_bind.
  - apply preserves_bind; [apply preserves_emit, Hlist | intros _].
    apply preserves_ask.
  - intros listing. cbv zeta.
    apply preserves_bind; [apply preserves_lift | intros found].
    destruct found; [apply preserves_emit, Hlog |].
    destruct (snd listing); [apply preserves_raise |].
    apply preserves_bind; [apply preserves_emit, Hpost | intros _].
    intros w. destruct (create_hook_error w repo_name); simpl;
      [apply R_refl | apply R_hooks].
Qed.

Lemma preserves_bind_lift {A B : Type} (r : result A) (k : A -> M B) :
  (forall a, r = Ok a -> preserves (k a)) -> preserves (bind (lift r) k).
Proof.
  intros Hk w. unfold bind, lift. destruct r as [a | e]; simpl.
  - apply Hk. reflexivity.
  - apply R_refl.
Qed.

Lemma preserves_reconcile_hook (self : ReloadGiteaProjects) (repo : json) :
  (forall name tok,
      subscript repo "full_name" = Ok name ->
      P (ListHooks (instance_url (step_config self)) name tok)
      /\ P (LogHookExists name)
      /\ P (CreateHook (instance_url (step_config self)) name (hook_headers tok)
              (hook_data (step_webhook_url self) (step_webhook_secret self)))) ->
  preserves (reconcile_hook self repo).
Proof.
  intros HP. unfold reconcile_hook.
  apply preserves_bind_lift. intros name Hname.
  apply preserves_bind; [apply preserves_read_secret_file | intros tok].
  destruct (HP name tok Hname) as (H1 & H2 & H3).
  apply preserves_create_project_hook; assumption.
Qed.

Lemma preserves_reconcile_all (self : ReloadGiteaProjects) (repos : list json) :
  (forall repo name tok,
      In repo repos ->
      subscript repo "full_name" = Ok name ->
      P (ListHooks (instance_url (step_config self)) name tok)
      /\ P (LogHookExists name)
      /\ P (CreateHook (instance_url (step_config self)) name (hook_headers tok)
              (hook_data (step_webhook_url self) (step_webhook_secret self)))) ->
  preserves (for_each (reconcile_hook self) repos).
Proof.
  intros HP. apply preserves_for_each. intros repo Hin.
  apply preserves_reconcile_hook. intros name tok Hname.
  apply (HP repo name tok Hin Hname).
Qed.
(** With the cache file as well allowed to change, it holds across a
    whole reload. *)
Hypothesis R_files : forall w f, R w (with_files w f).

Lemma preserves_atomic_write_file (path : string) (document : json) :
  P (WriteFile path document) -> preserves (atomic_write_file path document).
Proof.
  intros HP. unfold atomic_write_file.
  apply preserves_bind; [apply preserves_emit, HP | intros _].
  intros w. destruct (write_error w path); simpl; [apply R_refl | apply R_files].
Qed.

Lemma preserves_reload_projects (self : ReloadGiteaProjects) :
  (forall ev, network_event ev -> P ev) ->
  (forall path document, P (WriteFile path document)) ->
  preserves (reload_projects self).
Proof.
  intros Hnet Hwrite. unfold reload_projects.
  apply preserves_bind.
  - apply preserves_refresh_projects; intros; apply Hnet; exact I.
  - intros repos. apply preserves_bind.
    + apply preserves_reconcile_all. intros repo name tok _ _.
      repeat split; apply Hnet; exact I.
    + intros _. apply preserves_atomic_write_file, Hwrite.
Qed.
End Frame.


(** ** The two relations used below *)

Lemma extends_refl (Q : event -> Prop) (w : world) : extends Q w w.
Proof. exists []. split; [reflexivity | constructor]. Qed.

Lemma extends_trans (Q : event -> Prop) (w1 w2 w3 : world) :
  extends Q w1 w2 -> extends Q w2 w3 -> extends Q w1 w3.
Proof.
  intros [t1 [H1 F1]] [t2 [H2 F2]]. exists (t2 ++ t1). split.
  - rewrite H2, H1. apply app_assoc.
  - apply Forall_app. split; assumption.
Qed.

Lemma extends_emit (Q : event -> Prop) (ev : event) (w : world) :
  Q ev -> extends Q w (with_trace w (ev :: trace w)).
Proof.
  intros Hev. exists [ev]. split; [reflexivity |].
  constructor; [exact Hev | constructor].
Qed.

Lemma extends_hooks (Q : event -> Prop) (w : world) (h : list (json * json)) :
  extends Q w (with_hooks w h).
Proof. exists []. split; [reflexivity | constructor]. Qed.

Lemma same_files_refl (w : world) : same_files w w.
Proof. reflexivity. Qed.

Lemma same_files_trans (w1 w2 w3 : world) :
  same_files w1 w2 -> same_files w2 w3 -> same_files w1 w3.
Proof. unfold same_files. intros H1 H2. rewrite H2. exact H1. Qed.

(** ** Hooks *)

Lemma json_eqb_refl : forall x : json, json_eqb x x = true.
Proof.
  fix IH 1. intros x. destruct x as [| b | n | s | items | fields]; simpl.
  - reflexivity.
  - apply Bool.eqb_reflx.
  - apply Z.eqb_refl.
  - apply String.eqb_refl.
  - induction items as [| y ys IHys]; [reflexivity |].
    rewrite IH, IHys. reflexivity.
  - induction fields as [| [k y] ys IHys]; [reflexivity |].
    rewrite String.eqb_refl, IH, IHys. reflexivity.
Qed.

Lemma hooks_on_registered (w : world) (repo_name hook : json) :
  hooks_on (with_hooks w (hooks w ++ [(repo_name, hook)])) repo_name
  = hooks_on w repo_name ++ [hook].
Proof.
  unfold hooks_on. simpl. rewrite filter_app, map_app. simpl.
  rewrite json_eqb_refl. reflexivity.
Qed.

Lemma hook_exists_app (webhook_url : string) (xs ys : list json) :
  hook_exists webhook_url xs = Ok false ->
  hook_exists webhook_url (xs ++ ys) = hook_exists webhook_url ys.
Proof.
  induction xs as [| x xs IH]; simpl; intros H; [reflexivity |].
  destruct (subscript x "config") as [config | e]; simpl in *; [| discriminate].
  destruct (subscript config "url") as [url | e]; simpl in *; [| discriminate].
  destruct (eq_str url (webhook_url ++ "change_hook/gitea")%string);
    [discriminate | apply IH, H].
Qed.

Lemma hook_exists_posted (webhook_url webhook_secret : string) (rest : list json) :
  hook_exists webhook_url (hook_data webhook_url webhook_secret :: rest) = Ok true.
Proof. simpl. rewrite String.eqb_refl. reflexivity. Qed.

Lemma hook_exists_found (webhook_url : string) (before after : list json) (hook : json) :
  Forall (fun h => exists url, hook_url h = Ok url) before ->
  hook_url hook = Ok (JStr (webhook_url ++ "change_hook/gitea")%string) ->
  hook_exists webhook_url (before ++ hook :: after) = Ok true.
Proof.
  intros Hbefore Hhook. induction Hbefore as [| h hs [url Hurl] _ IH]; simpl.
  - unfold hook_url in Hhook.
    destruct (subscript hook "config") as [config | e]; simpl in *; [| discriminate].
    rewrite Hhook. simpl. rewrite String.eqb_refl. reflexivity.
  - unfold hook_url in Hurl.
    destruct (subscript h "config") as [config | e]; simpl in *; [| discriminate].
    rewrite Hurl. simpl.
    destruct (eq_str url (webhook_url ++ "change_hook/gitea")%string);
      [reflexivity | exact IH].
Qed.

Lemma hook_exists_none (webhook_url : string) (existing : list json) :
  Forall (fun h => exists url,
              hook_url h = Ok url
              /\ url <> JStr (webhook_url ++ "change_hook/gitea")%string) existing ->
  hook_exists webhook_url existing = Ok false.
Proof.
  induction 1 as [| h hs [url [Hurl Hneq]] _ IH]; simpl; [reflexivity |].
  unfold hook_url in Hurl.
  destruct (subscript h "config") as [config | e]; simpl in *; [| discriminate].
  rewrite Hurl. simpl.
  destruct (eq_str url (webhook_url ++ "change_hook/gitea")%string) eqn:Heq;
    [| exact IH].
  destruct url; simpl in Heq; try discriminate.
  apply String.eqb_eq in Heq. subst. contradiction.
Qed.

Lemma create_project_hook_found (instance : string) (repo_name : json)
  (tok webhook_url webhook_secret : string) (w : world)
  (before after : list json) (hook : json) :
  fst (hooks_listing w repo_name) = before ++ hook :: after ->
  Forall (fun h => exists url, hook_url h = Ok url) before ->
  hook_url hook = Ok (JStr (webhook_url ++ "change_hook/gitea")%string) ->
  create_project_hook instance repo_name tok webhook_url webhook_secret w
  = (Ok tt,
     with_trace w (LogHookExists repo_name
                   :: ListHooks instance repo_name tok :: trace w)).
Proof.
  intros Hlisting Hbefore Hhook.
  unfold create_project_hook, list_hooks, bind, emit, lift. simpl.
  change (hooks_listing (with_trace w (ListHooks instance repo_name tok :: trace w))
            repo_name) with (hooks_listing w repo_name).
  rewrite Hlisting, (hook_exists_found _ _ _ _ Hbefore Hhook). reflexivity.
Qed.

(** The three ways an invocation ends: on an existing hook, on an
    exception, or on a hook created. *)
Lemma create_project_hook_cases (instance : string) (repo_name : json)
  (tok webhook_url webhook_secret : string) (w : world) :
  let call := create_project_hook instance repo_name tok webhook_url webhook_secret in
  (call w = (Ok tt,
             with_trace w (LogHookExists repo_name
                           :: ListHooks instance repo_name tok :: trace w))
   /\ hook_exists webhook_url (fst (hooks_listing w repo_name)) = Ok true)
  \/ (exists e, fst (call w) = Raise e /\ hooks (snd (call w)) = hooks w)
  \/ (call w
      = (Ok tt,
         with_hooks
           (with_trace w (CreateHook instance repo_name (hook_headers tok)
                            (hook_data webhook_url webhook_secret)
                          :: ListHooks instance repo_name tok :: trace w))
           (hooks w ++ [(repo_name, hook_data webhook_url webhook_secret)]))
      /\ hooks_error w repo_name = None
      /\ hook_exists webhook_url (hooks_on w repo_name) = Ok false).
Proof.
  cbv zeta. unfold create_project_hook, list_hooks, post_hook, bind, emit, lift.
  simpl.
  change (hooks_listing (with_trace w (ListHooks instance repo_name tok :: trace w))
            repo_name) with (hooks_listing w repo_name).
  destruct (hook_exists webhook_url (fst (hooks_listing w repo_name)))
    as [[|] | e] eqn:Hfound; simpl.
  - left. split; reflexivity.
  - unfold hooks_listing in *.
    destruct (hooks_error w repo_name) as [[n e] |] eqn:Herr; simpl in *.
    + right. left. exists e. split; reflexivity.
    + destruct (create_hook_error w repo_name) as [e |]; simpl.
      * right. left. exists e. split; reflexivity.
      * right. right. repeat split. exact Hfound.
  - right. left. exists e. split; reflexivity.
Qed.

Lemma create_project_hook_again (instance : string) (repo_name : json)
  (tok webhook_url webhook_secret : string) (w w1 : world) :
  create_project_hook instance repo_name tok webhook_url webhook_secret w
  = (Ok tt, w1) ->
  create_project_hook instance repo_name tok webhook_url webhook_secret w1
  = (Ok tt,
     with_trace w1 (LogHookExists repo_name
                    :: ListHooks instance repo_name tok :: trace w1))
  /\ exists t, trace w1 = t ++ trace w /\ creations t <= 1.
Proof.
  intros H.
  destruct (create_project_hook_cases instance repo_name tok webhook_url
              webhook_secret w) as [[H1 Hfound] | [(e & H1 & _) | (H1 & Herr & Hfound)]];
    cbv zeta in *; rewrite H in H1; try discriminate; inversion H1; subst w1; clear H1.
  - split.
    + unfold create_project_hook, list_hooks, bind, emit, lift. simpl.
      change (hooks_listing _ repo_name) with (hooks_listing w repo_name).
      rewrite Hfound. reflexivity.
    + exists [LogHookExists repo_name; ListHooks instance repo_name tok].
      split; [reflexivity | simpl; lia].
  - split.
    + unfold create_project_hook, list_hooks, bind, emit, lift, hooks_listing. simpl.
      rewrite Herr. simpl.
      match goal with
      | |- context [hooks_on ?w' repo_name] =>
          replace (hooks_on w' repo_name)
            with (hooks_on w repo_name ++ [hook_data webhook_url webhook_secret])
      end.
      2:{ symmetry.
          apply (hooks_on_registered
                   (with_trace w (CreateHook instance repo_name (hook_headers tok)
                                    (hook_data webhook_url webhook_secret)
                                  :: ListHooks instance repo_name tok :: trace w))). }
      rewrite (hook_exists_app _ _ _ Hfound), hook_exists_posted. reflexivity.
    + exists [CreateHook instance repo_name (hook_headers tok)
                (hook_data webhook_url webhook_secret);
              ListHooks instance repo_name tok].
      split; [reflexivity | simpl; lia].
Qed.

(** C4, as stated, fails.  On the server that refuses the creation of a
    hook on [a/repo], the first invocation issues the creation request
    and raises, and the second issues it again: two invocations in
    succession, two hook-creation requests.  And on the server whose
    listing holds a hook without [config] before the wanted one, the
    invocation does not return: it raises the [KeyError] of the lookup
    (without a creation request). *)
Lemma refused_creation_is_requested_again :
  (fst (create_project_hook "https://gitea.example.org" (JStr "a/repo") "tok"
          "https://buildbot.example.org/" "s3cret" refused_hook)
   = Raise (mkExn OSError "connection reset")
   /\ creations
        (trace (snd (create_project_hook "https://gitea.example.org" (JStr "a/repo")
                       "tok" "https://buildbot.example.org/" "s3cret"
                       (snd (create_project_hook "https://gitea.example.org"
                               (JStr "a/repo") "tok"
                               "https://buildbot.example.org/" "s3cret"
                               refused_hook)))))
      = 2)
  /\ (In (hook_data "https://buildbot.example.org/" "s3cret")
        (hooks_on unreadable_hook (JStr "a/repo"))
      /\ create_project_hook "https://gitea.example.org" (JStr "a/repo") "tok"
           "https://buildbot.example.org/" "s3cret" unreadable_hook
         = (Raise (mkExn KeyError "config"),
            with_trace unreadable_hook
              [ListHooks "https://gitea.example.org" (JStr "a/repo") "tok"])).
Proof.
  split; split; try (vm_compute; reflexivity).
  right. left. reflexivity.
Qed.

(** C4, amended.  For every repository, callback URL and world: (1) when
    the hooks enumerated for the repository hold a hook whose configured
    URL equals the wanted one, the hooks before it having a configured
    URL at all, [create_project_hook] returns after the enumeration and
    one diagnostic, with no creation request and the server's hooks as
    they were; (2) when a first invocation returns, a second one in
    succession is such a no-op, and the two together issue at most one
    hook-creation request; (3) however the two invocations end, at most
    one hook has been created on the server. *)
Theorem create_project_hook_idempotent :
  forall (instance : string) (repo_name : json)
         (tok webhook_url webhook_secret : string) (w : world),
    let call := create_project_hook instance repo_name tok webhook_url webhook_secret in
    (forall before hook after,
        fst (hooks_listing w repo_name) = before ++ hook :: after ->
        Forall (fun h => exists url, hook_url h = Ok url) before ->
        hook_url hook = Ok (JStr (webhook_url ++ "change_hook/gitea")%string) ->
        call w
        = (Ok tt,
           with_trace w (LogHookExists repo_name
                         :: ListHooks instance repo_name tok :: trace w)))
    /\ (forall w1,
           call w = (Ok tt, w1) ->
           call w1
           = (Ok tt,
              with_trace w1 (LogHookExists repo_name
                             :: ListHooks instance repo_name tok :: trace w1))
           /\ exists t, trace w1 = t ++ trace w /\ creations t <= 1)
    /\ length (hooks (snd (call (snd (call w))))) <= S (length (hooks w)).
Proof.
  intros instance repo_name tok webhook_url webhook_secret w call.
  split; [| split].
  - intros before hook after. apply create_project_hook_found.
  - intros w1. apply create_project_hook_again.
  - subst call.
    destruct (create_project_hook_cases instance repo_name tok webhook_url
                webhook_secret w) as [[H1 _] | [(e & _ & H1) | (H1 & _ & _)]];
      cbv zeta in H1.
    + rewrite H1. simpl.
      destruct (create_project_hook_cases instance repo_name tok webhook_url
                  webhook_secret
                  (with_trace w (LogHookExists repo_name
                                 :: ListHooks instance repo_name tok :: trace w)))
        as [[H2 _] | [(e & _ & H2) | (H2 & _ & _)]]; cbv zeta in H2;
        rewrite H2; simpl; rewrite ?length_app; simpl; lia.
    + destruct (create_project_hook_cases instance repo_name tok webhook_url
                  webhook_secret
                  (snd (create_project_hook instance repo_name tok webhook_url
                          webhook_secret w)))
        as [[H2 _] | [(e' & _ & H2) | (H2 & _ & _)]]; cbv zeta in H2;
        rewrite H2; simpl; rewrite ?length_app, ?H1; simpl; lia.
    + destruct (create_project_hook_again _ _ _ _ _ _ _ H1) as [H2 _].
      rewrite H1. cbn [snd]. rewrite H2. simpl. rewrite length_app. simpl. lia.
Qed.

(** On a server without hooks: the first invocation creates the hook, the
    second finds it. *)
Lemma create_project_hook_idempotent_witness :
  exists w1,
    create_project_hook "https://gitea.example.org" (JStr "a/repo") "tok"
      "https://buildbot.example.org/" "s3cret" (calm []) = (Ok tt, w1)
    /\ creations (trace w1) = 1
    /\ create_project_hook "https://gitea.example.org" (JStr "a/repo") "tok"
         "https://buildbot.example.org/" "s3cret" w1
       = (Ok tt,
          with_trace w1 (LogHookExists (JStr "a/repo")
                         :: ListHooks "https://gitea.example.org" (JStr "a/repo") "tok"
                         :: trace w1)).
Proof.
  eexists. split; [vm_compute; reflexivity |]. split; [reflexivity |].
  apply (create_project_hook_idempotent "https://gitea.example.org" (JStr "a/repo")
           "tok" "https://buildbot.example.org/" "s3cret" (calm [])).
  vm_compute; reflexivity.
Defined.

(** C10. For every [webhook_url], the URL placed in the creation payload
    and the URL an existing hook is compared with are the same string,
    [webhook_url] immediately followed by [change_hook/gitea], with
    nothing in between.  The payload carries it; the comparison on a
    hook succeeds exactly when the hook's URL is that string.  So
    [create_project_hook] creates nothing when an enumerated hook has
    that URL; when the enumeration ends normally and no hook has it, it
    issues the creation request with that payload; and after an
    invocation that returned, the next one finds the hook: the check
    agrees with what creation registers.  A base URL without a trailing
    slash gives the concatenation as it is. *)
Theorem hook_url_is_plain_concatenation :
  forall (webhook_url webhook_secret : string),
    hook_url (hook_data webhook_url webhook_secret)
    = Ok (JStr (webhook_url ++ "change_hook/gitea")%string)
    /\ (forall hook url rest,
           hook_url hook = Ok url ->
           hook_exists webhook_url (hook :: rest)
           = if json_eqb url (JStr (webhook_url ++ "change_hook/gitea")%string)
             then Ok true else hook_exists webhook_url rest)
    /\ (forall rest,
           hook_exists webhook_url (hook_data webhook_url webhook_secret :: rest)
           = Ok true)
    /\ (forall instance repo_name tok w,
           extends (fun ev =>
                      forall i n h d, ev = CreateHook i n h d ->
                        hook_url d = Ok (JStr (webhook_url ++ "change_hook/gitea")%string))
             w (snd (create_project_hook instance repo_name tok
                       webhook_url webhook_secret w)))
    /\ hook_url (hook_data "https://buildbot.example.org" webhook_secret)
       = Ok (JStr "https://buildbot.example.orgchange_hook/gitea")
    /\ (forall instance repo_name tok w before hook after,
           fst (hooks_listing w repo_name) = before ++ hook :: after ->
           Forall (fun h => exists url, hook_url h = Ok url) before ->
           hook_url hook = Ok (JStr (webhook_url ++ "change_hook/gitea")%string) ->
           create_project_hook instance repo_name tok webhook_url webhook_secret w
           = (Ok tt,
              with_trace w (LogHookExists repo_name
                            :: ListHooks instance repo_name tok :: trace w)))
    /\ (forall instance repo_name tok w,
           hooks_error w repo_name = None ->
           Forall (fun h => exists url,
                       hook_url h = Ok url
                       /\ url <> JStr (webhook_url ++ "change_hook/gitea")%string)
             (hooks_on w repo_name) ->
           trace (snd (create_project_hook instance repo_name tok
                         webhook_url webhook_secret w))
           = CreateHook instance repo_name (hook_headers tok)
               (hook_data webhook_url webhook_secret)
             :: ListHooks instance repo_name tok :: trace w)
    /\ (forall instance repo_name tok w w1,
           create_project_hook instance repo_name tok webhook_url webhook_secret w
           = (Ok tt, w1) ->
           create_project_hook instance repo_name tok webhook_url webhook_secret w1
           = (Ok tt,
              with_trace w1 (LogHookExists repo_name
                             :: ListHooks instance repo_name tok :: trace w1))).
Proof.
  intros webhook_url webhook_secret.
  split; [reflexivity |].
  split; [| split; [| split; [| split; [reflexivity |]]]].
  - intros hook url rest Hurl. simpl. unfold hook_url in Hurl.
    destruct (subscript hook "config") as [config | e]; simpl in *; [| discriminate].
    rewrite Hurl. simpl. destruct url; reflexivity.
  - intros rest. apply hook_exists_posted.
  - intros instance repo_name tok.
    set (Q := fun ev : event => forall i n h d, ev = CreateHook i n h d ->
                hook_url d = Ok (JStr (webhook_url ++ "change_hook/gitea")%string)).
    change (preserves (extends Q)
              (create_project_hook instance repo_name tok webhook_url webhook_secret)).
    apply preserves_create_project_hook with (P := Q).
    + apply extends_refl.
    + apply extends_trans.
    + apply extends_emit.
    + apply extends_hooks.
    + intros i n h d H. discriminate.
    + intros i n h d H. discriminate.
    + intros i n h d H. inversion H; subst. reflexivity.
  - split; [| split].
    + intros instance repo_name tok w before hook after.
      apply create_project_hook_found.
    + intros instance repo_name tok w Herr Hnone.
      assert (Hl : hooks_listing w repo_name = (hooks_on w repo_name, None))
        by (unfold hooks_listing; rewrite Herr; reflexivity).
      unfold create_project_hook, list_hooks, post_hook, bind, emit, lift. simpl.
      change (hooks_listing (with_trace w (ListHooks instance repo_name tok :: trace w))
                repo_name) with (hooks_listing w repo_name).
      rewrite Hl. cbn [fst snd]. rewrite (hook_exists_none _ _ Hnone). simpl.
      destruct (create_hook_error w repo_name); reflexivity.
    + intros instance repo_name tok w w1 H.
      apply (create_project_hook_again _ _ _ _ _ _ _ H).
Qed.

(** A base URL without a trailing slash: the hook already registered
    under the URL with a slash is not the wanted one, and the hook
    created carries the concatenation as it is. *)
Lemma hook_url_is_plain_concatenation_witness :
  trace (snd (create_project_hook "https://gitea.example.org" (JStr "a/repo") "tok"
                "https://buildbot.example.org" "s3cret" slash_hook))
  = [CreateHook "https://gitea.example.org" (JStr "a/repo") (hook_headers "tok")
       (hook_data "https://buildbot.example.org" "s3cret");
     ListHooks "https://gitea.example.org" (JStr "a/repo") "tok"]
  /\ hook_url (hook_data "https://buildbot.example.org" "s3cret")
     = Ok (JStr "https://buildbot.example.orgchange_hook/gitea").
Proof.
  destruct (hook_url_is_plain_concatenation "https://buildbot.example.org" "s3cret")
    as (_ & _ & _ & _ & Hexample & _ & Hcreate & _).
  split; [| exact Hexample].
  apply (Hcreate "https://gitea.example.org" (JStr "a/repo") "tok" slash_hook).
  - reflexivity.
  - constructor; [| constructor].
    exists (JStr "https://buildbot.example.org/change_hook/gitea").
    split; [reflexivity | discriminate].
Defined.

(** ** The network half of a reload: enumeration and hooks *)

Lemma same_surroundings_refl (w : world) : same_surroundings w w.
Proof. repeat split. Qed.

Lemma same_surroundings_trans (w1 w2 w3 : world) :
  same_surroundings w1 w2 -> same_surroundings w2 w3 -> same_surroundings w1 w3.
Proof.
  intros (A1 & A2 & A3 & A4 & A5 & A6) (B1 & B2 & B3 & B4 & B5 & B6).
  repeat split; etransitivity; eassumption.
Qed.

Lemma quiet_refl (w : world) : quiet w w.
Proof.
  split; [apply same_files_refl |].
  split; [apply same_surroundings_refl | apply extends_refl].
Qed.

Lemma quiet_trans (w1 w2 w3 : world) : quiet w1 w2 -> quiet w2 w3 -> quiet w1 w3.
Proof.
  intros (A1 & A2 & A3) (B1 & B2 & B3).
  split; [eapply same_files_trans; eassumption |].
  split; [eapply same_surroundings_trans; eassumption |
          eapply extends_trans; eassumption].
Qed.

Lemma quiet_emit (ev : event) (w : world) :
  network_event ev -> quiet w (with_trace w (ev :: trace w)).
Proof.
  intros Hev. split; [reflexivity |].
  split; [repeat split | apply extends_emit, Hev].
Qed.

Lemma quiet_hooks (w : world) (h : list (json * json)) : quiet w (with_hooks w h).
Proof.
  split; [reflexivity |].
  split; [repeat split | apply extends_hooks].
Qed.

Lemma refresh_projects_quiet (config : GiteaConfig) :
  preserves quiet (refresh_projects config).
Proof.
  apply preserves_refresh_projects with (P := network_event);
    try (intros; exact I).
  - apply quiet_refl.
  - apply quiet_trans.
  - apply quiet_emit.
Qed.

Lemma reconcile_hook_quiet (self : ReloadGiteaProjects) (repo : json) :
  preserves quiet (reconcile_hook self repo).
Proof.
  apply preserves_reconcile_hook with (P := network_event).
  - apply quiet_refl.
  - apply quiet_trans.
  - apply quiet_emit.
  - apply quiet_hooks.
  - intros. repeat split.
Qed.

Lemma reconcile_all_quiet (self : ReloadGiteaProjects) (repos : list json) :
  preserves quiet (for_each (reconcile_hook self) repos).
Proof.
  apply preserves_reconcile_all with (P := network_event).
  - apply quiet_refl.
  - apply quiet_trans.
  - apply quiet_emit.
  - apply quiet_hooks.
  - intros. repeat split.
Qed.

(** The three ways a reload ends: in the enumeration, in the hooks, or
    in the write of the snapshot. *)
Lemma reload_projects_inv (self : ReloadGiteaProjects) (w w' : world) (r : result unit) :
  reload_projects self w = (r, w') ->
  (exists e, refresh_projects (step_config self) w = (Raise e, w') /\ r = Raise e)
  \/ (exists repos w1 e,
         refresh_projects (step_config self) w = (Ok repos, w1)
         /\ for_each (reconcile_hook self) repos w1 = (Raise e, w')
         /\ r = Raise e)
  \/ (exists repos w1 w2,
         refresh_projects (step_config self) w = (Ok repos, w1)
         /\ for_each (reconcile_hook self) repos w1 = (Ok tt, w2)
         /\ atomic_write_file (step_project_cache_file self) (JArr repos) w2 = (r, w')).
Proof.
  unfold reload_projects. intros H.
  apply bind_inv in H. destruct H as [(repos & w1 & Hrefresh & H) | (e & Hrefresh & ->)].
  - apply bind_inv in H. destruct H as [(u & w2 & Hhooks & H) | (e & Hhooks & ->)].
    + right. right. exists repos, w1, w2. destruct u. auto.
    + right. left. exists repos, w1, e. auto.
  - left. exists e. auto.
Qed.

Lemma atomic_write_file_run (path : string) (document : json) (w : world) :
  atomic_write_file path document w =
  let w1 := with_trace w (WriteFile path document :: trace w) in
  match write_error w path with
  | Some e => (Raise e, w1)
  | None =>
      (Ok tt, with_files w1 (fun p => if String.eqb p path then Some (Ok document)
                                      else files w p))
  end.
Proof. reflexivity. Qed.

Lemma load_projects_reads_files (self : GiteaBackend) (w w' : world) :
  files w' = files w -> fst (load_projects self w') = fst (load_projects self w).
Proof. intros H. unfold load_projects. rewrite H. destruct (files w _); reflexivity. Qed.

(** C6. Whatever makes the refresh fail, the enumeration, a hook or the
    write itself, the files are exactly what they were before the run,
    so the previous snapshot loads as before.  The write is attempted at
    most once and only as the very last action: a run that fails has
    either not reached it or failed in it, and a run that succeeds ends
    with it. *)
Theorem failed_reload_keeps_snapshot :
  forall (self : ReloadGiteaProjects) (w w' : world) (r : result unit),
    reload_projects self w = (r, w') ->
    exists t,
      Forall network_event t
      /\ match r with
         | Raise e =>
             files w' = files w
             /\ (forall backend,
                    fst (load_projects backend w') = fst (load_projects backend w))
             /\ (trace w' = t ++ trace w
                 \/ exists document,
                     trace w' = WriteFile (step_project_cache_file self) document
                                :: t ++ trace w
                     /\ write_error w (step_project_cache_file self) = Some e)
         | Ok _ =>
             exists document,
               trace w' = WriteFile (step_project_cache_file self) document
                          :: t ++ trace w
               /\ files w' (step_project_cache_file self) = Some (Ok document)
         end.
Proof.
  intros self w w' r H. apply reload_projects_inv in H.
  destruct H as [(e & Hrefresh & ->) | [(repos & w1 & e & Hrefresh & Hhooks & ->)
                                       | (repos & w1 & w2 & Hrefresh & Hhooks & Hwrite)]].
  - pose proof (refresh_projects_quiet (step_config self) w) as Q.
    rewrite Hrefresh in Q. destruct Q as (F & _ & t & Ht & Pt).
    exists t. split; [exact Pt |]. split; [exact F |].
    split; [intros; apply load_projects_reads_files, F | left; exact Ht].
  - pose proof (refresh_projects_quiet (step_config self) w) as Q1.
    rewrite Hrefresh in Q1.
    pose proof (reconcile_all_quiet self repos w1) as Q2.
    rewrite Hhooks in Q2.
    destruct (quiet_trans _ _ _ Q1 Q2) as (F & _ & t & Ht & Pt).
    exists t. split; [exact Pt |]. split; [exact F |].
    split; [intros; apply load_projects_reads_files, F | left; exact Ht].
  - pose proof (refresh_projects_quiet (step_config self) w) as Q1.
    rewrite Hrefresh in Q1.
    pose proof (reconcile_all_quiet self repos w1) as Q2.
    rewrite Hhooks in Q2.
    destruct (quiet_trans _ _ _ Q1 Q2) as (F & S & t & Ht & Pt).
    simpl in F, S, Ht. destruct S as (_ & _ & _ & _ & _ & Swrite).
    exists t. split; [exact Pt |].
    rewrite atomic_write_file_run in Hwrite. cbv zeta in Hwrite.
    destruct (write_error w2 (step_project_cache_file self)) as [e |] eqn:Herr;
      inversion Hwrite; subst; clear Hwrite; simpl.
    + split; [exact F |].
      split; [intros; apply load_projects_reads_files; exact F |].
      right. exists (JArr repos). rewrite Ht, <- Swrite. auto.
    + exists (JArr repos). rewrite Ht, String.eqb_refl. auto.
Qed.

(** An enumeration that breaks off leaves the old snapshot in place. *)
Lemma failed_reload_keeps_snapshot_witness :
  fst (reload_projects sample_step broken_listing) = Raise (mkExn OtherError "HTTP 502")
  /\ files (snd (reload_projects sample_step broken_listing)) = files broken_listing
  /\ fst (load_projects sample_backend (snd (reload_projects sample_step broken_listing)))
     = fst (load_projects sample_backend broken_listing).
Proof.
  split; [reflexivity |].
  destruct (failed_reload_keeps_snapshot sample_step broken_listing
              (snd (reload_projects sample_step broken_listing))
              (Raise (mkExn OtherError "HTTP 502")) eq_refl)
    as [t [_ [F [L _]]]].
  split; [exact F | apply L].
Defined.

(** ** The build step *)

Lemma reload_projects_emits (self : ReloadGiteaProjects) :
  preserves (extends (fun ev => step_event ev = false)) (reload_projects self).
Proof.
  apply preserves_reload_projects with (P := fun ev => step_event ev = false).
  - apply extends_refl.
  - apply extends_trans.
  - apply extends_emit.
  - apply extends_hooks.
  - intros w f. exists []. split; [reflexivity | constructor].
  - intros ev Hev. destruct ev; simpl in *; try reflexivity; contradiction.
  - reflexivity.
Qed.

Lemma filter_none {A : Type} (p : A -> bool) (xs : list A) :
  Forall (fun x => p x = false) xs -> filter p xs = [].
Proof.
  induction 1 as [| x xs Hx _ IH]; simpl; [reflexivity |].
  rewrite Hx. exact IH.
Qed.

(** C5. In every execution of the step, with [t] the events of the run
    (most recent first): SIGHUP is among them exactly when the refresh
    completed without an exception, which is exactly when the step
    returns success; when the refresh raised, the step returns failure,
    no SIGHUP is sent, and the step's own events are one log stream
    named [log] that then receives the failure text once. *)
Theorem reload_signal_iff_success :
  forall (self : ReloadGiteaProjects) (w : world),
    exists t,
      trace (snd (run self w)) = t ++ trace w
      /\ (In Sighup t <-> exists w1, reload_projects self w = (Ok tt, w1))
      /\ (fst (run self w) = Ok SUCCESS
          <-> exists w1, reload_projects self w = (Ok tt, w1))
      /\ (forall e w1,
             reload_projects self w = (Raise e, w1) ->
             fst (run self w) = Ok FAILURE
             /\ ~ In Sighup t
             /\ filter step_event t
                = [AddStderr "log" ("Failed to reload project list: " ++ exn_text e)%string;
                   AddLog "log"]).
Proof.
  intros self w.
  pose proof (reload_projects_emits self w) as [t [Ht Ft]].
  unfold run. destruct (reload_projects self w) as [[[] | e] w1] eqn:H; simpl in *.
  - exists (Sighup :: t). split; [rewrite Ht; reflexivity |].
    split; [split; [eauto | intros _; left; reflexivity] |].
    split; [split; [eauto | reflexivity] |].
    intros e w2 H2. discriminate.
  - exists (AddStderr "log" ("Failed to reload project list: " ++ exn_text e)%string
            :: AddLog "log" :: t).
    assert (Hno : ~ In Sighup t).
    { intros Hin. rewrite Forall_forall in Ft. specialize (Ft _ Hin). discriminate. }
    split; [rewrite Ht; reflexivity |].
    split; [split; [| intros [w2 H2]; discriminate] |].
    { intros [Hin | [Hin | Hin]]; try discriminate. contradiction. }
    split; [split; [discriminate | intros [w2 H2]; discriminate] |].
    intros e' w2 H2. inversion H2; subst. split; [reflexivity |].
    split.
    + intros [Hin | [Hin | Hin]]; try discriminate. contradiction.
    + simpl. rewrite (filter_none _ _ Ft). reflexivity.
Qed.

(** ** What the enumeration collects *)

Lemma refresh_step_inv (config : GiteaConfig) (repos repos' : list json)
  (repo : json) (w w' : world) :
  refresh_step config repos repo w = (Ok repos', w') ->
  repos' = repos
  \/ exists repo' admin login name body topics,
      repos' = repos ++ [repo']
      /\ admin_of repo = Ok admin /\ truthy admin = true
      /\ login_of repo = Ok login /\ subscript repo "name" = Ok name
      /\ topics_of w login name = Ok body
      /\ subscript body "topics" = Ok topics
      /\ assign repo "topics" topics = Ok repo'.
Proof.
  unfold refresh_step, admin_of, login_of, bind, lift, try_except_OSError,
    token, read_secret_file, emit, ret.
  intros H.
  destruct (subscript repo "permissions") as [permissions | e] eqn:E1; simpl in *;
    [| discriminate].
  destruct (subscript permissions "admin") as [admin | e] eqn:E2; simpl in *;
    [| discriminate].
  destruct (truthy admin) eqn:Hadmin; simpl in *.
  2:{ destruct (subscript repo "full_name"); simpl in *; inversion H; subst; auto. }
  destruct (subscript repo "owner") as [owner | e] eqn:E3; simpl in *.
  2:{ destruct (is_OSError e); inversion H; subst; auto. }
  destruct (subscript owner "login") as [login | e] eqn:E4; simpl in *.
  2:{ destruct (is_OSError e); inversion H; subst; auto. }
  destruct (subscript repo "name") as [name | e] eqn:E5; simpl in *.
  2:{ destruct (is_OSError e); inversion H; subst; auto. }
  destruct (secret_files w (token_secret_name config)) as [tok | e]; simpl in *.
  2:{ destruct (is_OSError e); inversion H; subst; auto. }
  destruct (topics_of w login name) as [body | e] eqn:Hbody; simpl in *.
  2:{ destruct (is_OSError e); inversion H; subst; auto. }
  destruct (subscript body "topics") as [topics | e] eqn:Htopics; simpl in *.
  2:{ destruct (is_OSError e); inversion H; subst; auto. }
  destruct (assign repo "topics" topics) as [repo' | e] eqn:Hassign; simpl in *.
  2:{ destruct (is_OSError e); inversion H; subst; auto. }
  inversion H; subst. right.
  exists repo', admin, login, name, body, topics.
  repeat split; auto.
Qed.

Lemma collected_from_surroundings (w w' : world) (items added : list json) :
  topics_of w' = topics_of w ->
  collected_from w' items added -> collected_from w items added.
Proof.
  intros Henv H. induction H.
  - constructor.
  - constructor. assumption.
  - eapply collected_keep; try eassumption. rewrite <- Henv. assumption.
Qed.

Lemma refresh_step_quiet (config : GiteaConfig) (repos : list json) (repo : json) :
  preserves quiet (refresh_step config repos repo).
Proof.
  apply preserves_refresh_step with (P := network_event);
    try (intros; exact I).
  - apply quiet_refl.
  - apply quiet_trans.
  - apply quiet_emit.
Qed.

Lemma for_fold_collects (config : GiteaConfig) (items : list json) :
  forall (acc repos : list json) (w w' : world),
    for_fold (refresh_step config) items acc w = (Ok repos, w') ->
    exists added, repos = acc ++ added /\ collected_from w items added.
Proof.
  induction items as [| repo items IH]; intros acc repos w w' H; simpl in H.
  - inversion H; subst. exists []. split; [symmetry; apply app_nil_r | constructor].
  - apply bind_inv in H. destruct H as [(acc' & w1 & Hstep & H) | (e & _ & He)];
      [| discriminate].
    destruct (IH _ _ _ _ H) as (added & -> & Hadded).
    pose proof (refresh_step_quiet config acc repo w) as Q.
    rewrite Hstep in Q. destruct Q as (_ & (_ & _ & Htopics & _) & _).
    apply (collected_from_surroundings w) in Hadded; [| exact Htopics].
    apply refresh_step_inv in Hstep.
    destruct Hstep as [-> | (repo' & admin & login & name & body & topics & -> & K)].
    + exists added. split; [reflexivity | constructor; exact Hadded].
    + exists (repo' :: added). split; [rewrite <- app_assoc; reflexivity |].
      destruct K as (K1 & K2 & K3 & K4 & K5 & K6 & K7).
      eapply collected_keep; eassumption.
Qed.

Lemma refresh_projects_collects (config : GiteaConfig) (w w' : world) (repos : list json) :
  refresh_projects config w = (Ok repos, w') ->
  collected_from w (fst (user_repos w)) repos /\ snd (user_repos w) = None.
Proof.
  unfold refresh_projects, bind, token, read_secret_file, emit. intros H.
  destruct (secret_files w (token_secret_name config)) as [tok | e]; simpl in H;
    [| discriminate].
  destruct (for_fold (refresh_step config) (fst (user_repos w)) []
              (with_trace w (ListRepos (instance_url config) tok :: trace w)))
    as [[collected | e] w1] eqn:Hloop; [| discriminate].
  apply for_fold_collects in Hloop. destruct Hloop as (added & -> & Hadded).
  simpl in Hadded.
  destruct (snd (user_repos w)) as [e |]; [discriminate |].
  inversion H; subst. split; [| reflexivity].
  apply (collected_from_surroundings w) in Hadded; [exact Hadded | reflexivity].
Qed.

(** ** The snapshot *)

(** C1, as stated, fails: the server lists [b/repo], [a/repo], [c/repo];
    the reload succeeds and the array written to the cache file holds
    them in that order, which is not the order [sorted] gives. *)
Lemma snapshot_is_not_sorted :
  let b := tagged (repo_record "b" "repo" true) ["build-with-buildbot"] in
  let a := tagged (repo_record "a" "repo" true) ["build-with-buildbot"] in
  let c := tagged (repo_record "c" "repo" true) ["build-with-buildbot"] in
  fst (reload_projects sample_step unsorted_listing) = Ok tt
  /\ files (snd (reload_projects sample_step unsorted_listing))
       (project_cache_file sample_config)
     = Some (Ok (JArr [b; a; c]))
  /\ mapR (fun x => subscript x "full_name") [b; a; c]
     = Ok [JStr "b/repo"; JStr "a/repo"; JStr "c/repo"]
  /\ sorted (fun x => subscript x "full_name") [b; a; c] = Ok [a; b; c]
  /\ JArr [b; a; c] <> JArr [a; b; c].
Proof.
  cbv zeta. repeat split; try (vm_compute; reflexivity). discriminate.
Qed.

(** C1, amended.  For every reload that succeeds, the snapshot in the
    cache file is the list [refresh_projects] returned, as it is: the
    records it collected from the enumeration, in the order of the
    enumeration. *)
Theorem snapshot_is_the_collected_list :
  forall (self : ReloadGiteaProjects) (w w' : world),
    reload_projects self w = (Ok tt, w') ->
    exists repos w1,
      refresh_projects (step_config self) w = (Ok repos, w1)
      /\ files w' (step_project_cache_file self) = Some (Ok (JArr repos))
      /\ collected_from w (fst (user_repos w)) repos.
Proof.
  intros self w w' H. apply reload_projects_inv in H.
  destruct H as [(e & _ & He) | [(repos & w1 & e & _ & _ & He)
                                | (repos & w1 & w2 & Hrefresh & Hhooks & Hwrite)]];
    try discriminate.
  exists repos, w1. split; [exact Hrefresh |].
  split; [| apply (refresh_projects_collects _ _ _ _ Hrefresh)].
  rewrite atomic_write_file_run in Hwrite. cbv zeta in Hwrite.
  destruct (write_error w2 (step_project_cache_file self)); inversion Hwrite; subst.
  simpl. rewrite String.eqb_refl. reflexivity.
Qed.

(** The reload of the unsorted listing. *)
Lemma snapshot_is_the_collected_list_witness :
  exists repos w1,
    refresh_projects sample_config unsorted_listing = (Ok repos, w1)
    /\ files (snd (reload_projects sample_step unsorted_listing))
         (project_cache_file sample_config) = Some (Ok (JArr repos))
    /\ collected_from unsorted_listing (fst (user_repos unsorted_listing)) repos.
Proof.
  apply (snapshot_is_the_collected_list sample_step unsorted_listing
           (snd (reload_projects sample_step unsorted_listing))).
  vm_compute. reflexivity.
Defined.

(** C2, as stated, fails: the server lists [a/repo] and [b/repo] and
    refuses the hook on [a/repo]; the reload raises that error, no request
    about the hooks of [b/repo] is made, nothing is written, no cache file
    appears, and the step fails. *)
Lemma hook_failure_aborts_reload :
  fst (reload_projects sample_step refused_hook)
  = Raise (mkExn OSError "connection reset")
  /\ (forall tok,
         ~ In (ListHooks "https://gitea.example.org" (JStr "b/repo") tok)
              (trace (snd (reload_projects sample_step refused_hook))))
  /\ (forall instance headers data,
         ~ In (CreateHook instance (JStr "b/repo") headers data)
              (trace (snd (reload_projects sample_step refused_hook))))
  /\ (forall path document,
         ~ In (WriteFile path document)
              (trace (snd (reload_projects sample_step refused_hook))))
  /\ files (snd (reload_projects sample_step refused_hook))
       (project_cache_file sample_config) = None
  /\ fst (run sample_step refused_hook) = Ok FAILURE.
Proof.
  split; [vm_compute; reflexivity |].
  split; [| split; [| split; [| split; vm_compute; reflexivity]]];
    intros; intros Hin; vm_compute in Hin;
    repeat (destruct Hin as [Hin | Hin]; [discriminate Hin |]); exact Hin.
Qed.

(** C2, amended.  A failure of the reconciliation of one repository's
    hook is not contained: when the hooks of the repositories before it
    were reconciled and its own reconciliation raises, the reload raises
    the same exception in the very world that reconciliation ended in, so
    no later repository is looked at and nothing is written; the files
    are as they were, only network events were emitted, and the step
    reports failure. *)
Theorem hook_failure_propagates :
  forall (self : ReloadGiteaProjects) (w w1 w2 w3 : world)
         (done rest : list json) (repo : json) (e : exn),
    refresh_projects (step_config self) w = (Ok (done ++ repo :: rest), w1) ->
    for_each (reconcile_hook self) done w1 = (Ok tt, w2) ->
    reconcile_hook self repo w2 = (Raise e, w3) ->
    reload_projects self w = (Raise e, w3)
    /\ files w3 = files w
    /\ extends network_event w w3
    /\ fst (run self w) = Ok FAILURE.
Proof.
  intros self w w1 w2 w3 done rest repo e Hrefresh Hdone Hrepo.
  assert (Hreload : reload_projects self w = (Raise e, w3)).
  { unfold reload_projects. rewrite (bind_ok _ _ _ _ _ Hrefresh).
    apply bind_raise. rewrite for_each_app, Hdone. simpl.
    apply bind_raise. exact Hrepo. }
  split; [exact Hreload |].
  pose proof (refresh_projects_quiet (step_config self) w) as Q1.
  rewrite Hrefresh in Q1.
  pose proof (reconcile_all_quiet self done w1) as Q2. rewrite Hdone in Q2.
  pose proof (reconcile_hook_quiet self repo w2) as Q3. rewrite Hrepo in Q3.
  destruct (quiet_trans _ _ _ (quiet_trans _ _ _ Q1 Q2) Q3) as (F & _ & X).
  split; [exact F |]. split; [exact X |].
  unfold run. rewrite Hreload. reflexivity.
Qed.

(** The refused hook on [a/repo]: the reload ends in the world that
    reconciliation left. *)
Lemma hook_failure_propagates_witness :
  reload_projects sample_step refused_hook
  = (Raise (mkExn OSError "connection reset"),
     snd (reconcile_hook sample_step
            (tagged (repo_record "a" "repo" true) ["build-with-buildbot"])
            (snd (refresh_projects sample_config refused_hook))))
  /\ files (snd (reload_projects sample_step refused_hook)) = files refused_hook.
Proof.
  destruct (hook_failure_propagates sample_step refused_hook
              (snd (refresh_projects sample_config refused_hook))
              (snd (refresh_projects sample_config refused_hook))
              (snd (reconcile_hook sample_step
                      (tagged (repo_record "a" "repo" true) ["build-with-buildbot"])
                      (snd (refresh_projects sample_config refused_hook))))
              []
              [tagged (repo_record "b" "repo" true) ["build-with-buildbot"]]
              (tagged (repo_record "a" "repo" true) ["build-with-buildbot"])
              (mkExn OSError "connection reset"))
    as (H & F & _); try (vm_compute; reflexivity).
  split; [exact H |]. rewrite H. exact F.
Defined.

(** ** Records that keep or lose their place in the collected list *)

Lemma dict_get_set (fields : list (string * json)) (key key' : string) (v : json) :
  dict_get (dict_set fields key v) key'
  = if String.eqb key' key then Some v else dict_get fields key'.
Proof.
  induction fields as [| [k old] rest IH]; simpl.
  - rewrite String.eqb_sym. reflexivity.
  - destruct (String.eqb k key) eqn:Hk; simpl.
    + apply String.eqb_eq in Hk. subst k. rewrite (String.eqb_sym key key').
      destruct (String.eqb key' key); reflexivity.
    + destruct (String.eqb k key') eqn:Hk'; [| exact IH].
      apply String.eqb_eq in Hk'. subst k. rewrite Hk. reflexivity.
Qed.

Lemma assign_subscript (repo repo' v : json) (key key' : string) :
  assign repo key v = Ok repo' ->
  subscript repo' key'
  = if String.eqb key' key then Ok v else subscript repo key'.
Proof.
  destruct repo; simpl; try discriminate.
  intros H. inversion H; subst. simpl. rewrite dict_get_set.
  destruct (String.eqb key' key); reflexivity.
Qed.

Lemma assign_topics_keeps_admin (repo repo' topics : json) :
  assign repo "topics" topics = Ok repo' -> admin_of repo' = admin_of repo.
Proof.
  intros H. unfold admin_of. rewrite (assign_subscript _ _ _ _ "permissions" H).
  reflexivity.
Qed.

Lemma collected_from_In (w : world) (items added : list json) (repo' : json) :
  collected_from w items added ->
  In repo' added ->
  exists repo admin login name body topics,
    In repo items
    /\ admin_of repo = Ok admin /\ truthy admin = true
    /\ login_of repo = Ok login /\ subscript repo "name" = Ok name
    /\ topics_of w login name = Ok body
    /\ subscript body "topics" = Ok topics
    /\ assign repo "topics" topics = Ok repo'.
Proof.
  intros H. induction H as [| repo items added _ IH
                            | repo kept admin login name body topics items added
                                H1 H2 H3 H4 H5 H6 H7 _ IH]; intros Hin.
  - contradiction.
  - destruct (IH Hin) as (r & a & l & n & b & t & Hr & K).
    exists r, a, l, n, b, t. split; [right; exact Hr | exact K].
  - destruct Hin as [<- | Hin].
    + exists repo, admin, login, name, body, topics.
      split; [left; reflexivity | repeat split; assumption].
    + destruct (IH Hin) as (r & a & l & n & b & t & Hr & K).
      exists r, a, l, n, b, t. split; [right; exact Hr | exact K].
Qed.

Lemma refresh_loop_quiet (config : GiteaConfig) (items acc : list json) :
  preserves quiet (for_fold (refresh_step config) items acc).
Proof.
  apply preserves_for_fold.
  - apply quiet_refl.
  - apply quiet_trans.
  - intros s x _. apply refresh_step_quiet.
Qed.

Lemma quiet_keeps_events (w w' : world) (ev : event) :
  quiet w w' -> In ev (trace w) -> In ev (trace w').
Proof.
  intros (_ & _ & t & Ht & _) Hin. rewrite Ht. apply in_or_app. right. exact Hin.
Qed.

Lemma refresh_loop_logs_skipped (config : GiteaConfig) (items : list json) :
  forall (acc repos : list json) (w w' : world) (repo admin : json),
    for_fold (refresh_step config) items acc w = (Ok repos, w') ->
    In repo items ->
    admin_of repo = Ok admin -> truthy admin = false ->
    exists name,
      subscript repo "full_name" = Ok name /\ In (LogSkipping name) (trace w').
Proof.
  induction items as [| x items IH]; intros acc repos w w' repo admin H Hin Ha Hf;
    [contradiction |].
  simpl in H. apply bind_inv in H.
  destruct H as [(acc' & w1 & Hstep & H) | (e & _ & He)]; [| discriminate].
  destruct Hin as [-> | Hin]; [| eapply IH; eassumption].
  pose proof (refresh_loop_quiet config items acc' w1) as Q. rewrite H in Q.
  unfold refresh_step, bind, lift, emit, ret in Hstep. unfold admin_of in Ha.
  destruct (subscript repo "permissions") as [permissions | e]; simpl in *;
    [| discriminate].
  rewrite Ha in Hstep. simpl in Hstep. rewrite Hf in Hstep. simpl in Hstep.
  destruct (subscript repo "full_name") as [name | e]; simpl in *; [| discriminate].
  inversion Hstep; subst. exists name. split; [reflexivity |].
  apply (quiet_keeps_events _ _ _ Q). left. reflexivity.
Qed.

Lemma refresh_projects_logs_skipped (config : GiteaConfig) (w w' : world)
  (repos : list json) (repo admin : json) :
  refresh_projects config w = (Ok repos, w') ->
  In repo (fst (user_repos w)) ->
  admin_of repo = Ok admin -> truthy admin = false ->
  exists name,
    subscript repo "full_name" = Ok name /\ In (LogSkipping name) (trace w').
Proof.
  unfold refresh_projects, bind, token, read_secret_file, emit. intros H Hin Ha Hf.
  destruct (secret_files w (token_secret_name config)) as [tok | e]; simpl in H;
    [| discriminate].
  destruct (for_fold (refresh_step config) (fst (user_repos w)) []
              (with_trace w (ListRepos (instance_url config) tok :: trace w)))
    as [[collected | e] w1] eqn:Hloop; [| discriminate].
  destruct (snd (user_repos w)); [discriminate |]. inversion H; subst.
  eapply refresh_loop_logs_skipped; eassumption.
Qed.

Lemma reload_projects_hooks_only_for (self : ReloadGiteaProjects) (w w' : world)
  (r : result unit) :
  reload_projects self w = (r, w') ->
  extends (hooks_only_for (fst (user_repos w))) w w'.
Proof.
  intros H. set (Q := hooks_only_for (fst (user_repos w))).
  assert (Hrefresh : preserves (extends Q) (refresh_projects (step_config self))).
  { apply preserves_refresh_projects with (P := Q);
      try (intros; intros i n h d Hev; discriminate Hev).
    - apply extends_refl.
    - apply extends_trans.
    - apply extends_emit. }
  specialize (Hrefresh w). apply reload_projects_inv in H.
  destruct H as [(e & H1 & _) | [(repos & w1 & e & H1 & H2 & _)
                                | (repos & w1 & w2 & H1 & H2 & H3)]];
    rewrite H1 in Hrefresh; simpl in Hrefresh; [exact Hrefresh | |].
  all: assert (Hhooks : preserves (extends Q) (for_each (reconcile_hook self) repos)).
  1,3: apply preserves_reconcile_all with (P := Q);
    [ apply extends_refl | apply extends_trans | apply extends_emit
    | apply extends_hooks | ];
    intros repo name tok Hin Hname;
    (split; [| split]); try (intros i n h d Hev; discriminate Hev);
    intros i n h d Hev; inversion Hev; subst; clear Hev;
    destruct (refresh_projects_collects _ _ _ _ H1) as [Hc _];
    destruct (collected_from_In _ _ _ _ Hc Hin)
      as (repo0 & admin & login & nm & body & topics & Hin0 & Ha & Ht & _ & _ & _ & _ & Hassign);
    exists repo0, admin; repeat split; try assumption;
    rewrite <- Hname; symmetry;
    apply (assign_subscript _ _ _ _ "full_name" Hassign).
  - specialize (Hhooks w1). rewrite H2 in Hhooks.
    eapply extends_trans; eassumption.
  - specialize (Hhooks w1). rewrite H2 in Hhooks.
    rewrite atomic_write_file_run in H3. cbv zeta in H3.
    assert (Hw : extends Q w2
              (with_trace w2 (WriteFile (step_project_cache_file self) (JArr repos)
                              :: trace w2))).
    { apply extends_emit. intros i n h d Hev. discriminate Hev. }
    destruct (write_error w2 (step_project_cache_file self)); inversion H3; subst;
      eapply extends_trans; try eassumption;
      eapply extends_trans; eassumption.
Qed.

(** C8. For every enumeration: each record [refresh_projects] returns
    comes from a record of the enumeration whose [permissions.admin] is
    true (it holds, so it is not [false]), with a [topics] entry
    assigned and nothing else changed of its admin flag or full name; a
    record of the enumeration whose [permissions.admin] is false is not
    in the output, and a diagnostic with its full name is logged
    instead; and every hook-creation request of a reload is for the full
    name of an enumerated record with [permissions.admin] true. *)
Theorem refresh_excludes_non_admin :
  forall (self : ReloadGiteaProjects) (w : world),
    (forall repos w1,
        refresh_projects (step_config self) w = (Ok repos, w1) ->
        (forall repo',
            In repo' repos ->
            exists repo admin topics,
              In repo (fst (user_repos w))
              /\ admin_of repo = Ok admin /\ truthy admin = true
              /\ admin_of repo' = Ok admin /\ admin <> JBool false
              /\ assign repo "topics" topics = Ok repo'
              /\ subscript repo' "topics" = Ok topics)
        /\ (forall repo admin,
               In repo (fst (user_repos w)) ->
               admin_of repo = Ok admin -> truthy admin = false ->
               ~ In repo repos
               /\ exists name,
                   subscript repo "full_name" = Ok name
                   /\ In (LogSkipping name) (trace w1)))
    /\ (forall r w',
           reload_projects self w = (r, w') ->
           exists t,
             trace w' = t ++ trace w
             /\ forall instance repo_name headers payload,
                 In (CreateHook instance repo_name headers payload) t ->
                 exists repo admin,
                   In repo (fst (user_repos w))
                   /\ admin_of repo = Ok admin /\ truthy admin = true
                   /\ subscript repo "full_name" = Ok repo_name).
Proof.
  intros self w. split.
  - intros repos w1 Hrefresh.
    destruct (refresh_projects_collects _ _ _ _ Hrefresh) as [Hc _].
    assert (Hout : forall repo',
               In repo' repos ->
               exists repo admin topics,
                 In repo (fst (user_repos w))
                 /\ admin_of repo = Ok admin /\ truthy admin = true
                 /\ admin_of repo' = Ok admin /\ admin <> JBool false
                 /\ assign repo "topics" topics = Ok repo'
                 /\ subscript repo' "topics" = Ok topics).
    { intros repo' Hin.
      destruct (collected_from_In _ _ _ _ Hc Hin)
        as (repo & admin & login & name & body & topics
            & Hin0 & Ha & Ht & _ & _ & _ & _ & Hassign).
      exists repo, admin, topics. repeat split; try assumption.
      - rewrite (assign_topics_keeps_admin _ _ _ Hassign). exact Ha.
      - intros ->. discriminate Ht.
      - apply (assign_subscript _ _ _ _ "topics" Hassign). }
    split; [exact Hout |].
    intros repo admin Hin Ha Hf. split.
    + intros Hin'. destruct (Hout repo Hin')
        as (repo0 & admin0 & topics & _ & _ & Ht & Ha' & _).
      rewrite Ha in Ha'. inversion Ha'; subst. rewrite Hf in Ht. discriminate.
    + eapply refresh_projects_logs_skipped; eassumption.
  - intros r w' H.
    destruct (reload_projects_hooks_only_for _ _ _ _ H) as (t & Ht & Ft).
    exists t. split; [exact Ht |].
    intros instance repo_name headers payload Hin.
    rewrite Forall_forall in Ft. exact (Ft _ Hin _ _ _ _ eq_refl).
Qed.

(** [z/repo], not administered, is left out and logged. *)
Lemma refresh_excludes_non_admin_witness :
  exists repos w1,
    refresh_projects sample_config mixed_listing = (Ok repos, w1)
    /\ ~ In (repo_record "z" "repo" false) repos
    /\ exists name,
        subscript (repo_record "z" "repo" false) "full_name" = Ok name
        /\ In (LogSkipping name) (trace w1).
Proof.
  destruct (refresh_projects sample_config mixed_listing) as [[repos | e] w1] eqn:Heq.
  2:{ vm_compute in Heq. discriminate Heq. }
  exists repos, w1. split; [reflexivity |].
  destruct (refresh_excludes_non_admin sample_step mixed_listing) as [H _].
  destruct (H repos w1 Heq) as [_ B].
  apply (B (repo_record "z" "repo" false) (JBool false));
    [right; left; reflexivity | reflexivity | reflexivity].
Defined.

(** ** Runs from worlds that agree *)

Section Agreement.
Variable name : string.

Local Abbreviation respects := (respects name).

Lemma respects_ret {A : Type} (a : A) : respects (ret a).
Proof. intros w1 w2 H. split; [reflexivity | exact H]. Qed.

Lemma respects_raise {A : Type} (e : exn) : respects (@raise A e).
Proof. intros w1 w2 H. split; [reflexivity | exact H]. Qed.

Lemma respects_lift {A : Type} (r : result A) : respects (lift r).
Proof. intros w1 w2 H. split; [reflexivity | exact H]. Qed.

Lemma respects_bind {A B : Type} (m : M A) (k : A -> M B) :
  respects m -> (forall a, respects (k a)) -> respects (bind m k).
Proof.
  intros Hm Hk w1 w2 H. unfold bind. destruct (Hm w1 w2 H) as [Hr Hw].
  destruct (m w1) as [[a1 | e1] w1'], (m w2) as [[a2 | e2] w2']; simpl in *;
    try discriminate.
  - inversion Hr; subst. apply Hk, Hw.
  - inversion Hr; subst. split; [reflexivity | exact Hw].
Qed.

Lemma respects_try {A : Type} (body handler : M A) :
  respects body -> respects handler -> respects (try_except_OSError body handler).
Proof.
  intros Hb Hh w1 w2 H. unfold try_except_OSError. destruct (Hb w1 w2 H) as [Hr Hw].
  destruct (body w1) as [[a1 | e1] w1'], (body w2) as [[a2 | e2] w2']; simpl in *;
    try discriminate.
  - inversion Hr; subst. split; [reflexivity | exact Hw].
  - inversion Hr; subst. destruct (is_OSError e2).
    + apply Hh, Hw.
    + split; [reflexivity | exact Hw].
Qed.

Lemma respects_for_fold {A S : Type} (body : S -> A -> M S) (xs : list A) :
  (forall s x, respects (body s x)) -> forall s, respects (for_fold body xs s).
Proof.
  intros Hbody. induction xs as [| x xs IH]; intros s; simpl.
  - apply respects_ret.
  - apply respects_bind; [apply Hbody | exact IH].
Qed.

Lemma respects_for_each {A : Type} (body : A -> M unit) (xs : list A) :
  (forall x, respects (body x)) -> respects (for_each body xs).
Proof.
  intros Hbody. induction xs as [| x xs IH]; simpl.
  - apply respects_ret.
  - apply respects_bind; [apply Hbody | intros _; exact IH].
Qed.

Lemma respects_emit (ev : event) : respects (emit ev).
Proof. intros w1 w2 H. split; [reflexivity | exact H]. Qed.

Lemma respects_read_secret_file : respects (read_secret_file name).
Proof.
  intros w1 w2 H. split; [| exact H].
  unfold read_secret_file. simpl. apply H.
Qed.

Lemma respects_refresh_step (config : GiteaConfig) (repos : list json) (repo : json) :
  token_secret_name config = name ->
  respects (refresh_step config repos repo).
Proof.
  intros Hname. unfold refresh_step, token. rewrite Hname.
  apply respects_bind; [apply respects_lift | intros permissions].
  apply respects_bind; [apply respects_lift | intros admin].
  destruct (negb (truthy admin)).
  - apply respects_bind; [apply respects_lift | intros nm].
    apply respects_bind; [apply respects_emit | intros _]. apply respects_ret.
  - apply respects_try; [| apply respects_ret].
    apply respects_bind; [apply respects_lift | intros owner].
    apply respects_bind; [apply respects_lift | intros login].
    apply respects_bind; [apply respects_lift | intros nm].
    apply respects_bind; [apply respects_read_secret_file | intros tok].
    apply respects_bind; [apply respects_emit | intros _].
    apply respects_bind.
    { intros w1 w2 H. split; [| exact H]. simpl.
      destruct H as (_ & Htopics & _). rewrite Htopics. reflexivity. }
    intros body.
    apply respects_bind; [apply respects_lift | intros topics].
    apply respects_bind; [apply respects_lift | intros repo'].
    apply respects_ret.
Qed.

Lemma respects_create_project_hook (instance : string) (repo_name : json)
  (tok webhook_url webhook_secret : string) :
  respects (create_project_hook instance repo_name tok webhook_url webhook_secret).
Proof.
  unfold create_project_hook, list_hooks, post_hook.
  apply respects_bind.
  - apply respects_bind; [apply respects_emit | intros _].
    intros w1 w2 H. split; [| exact H]. simpl.
    destruct H as (_ & _ & Herr & _ & _ & Hhooks & _).
    unfold hooks_listing, hooks_on. rewrite Herr, Hhooks. reflexivity.
  - intros listing. cbv zeta.
    apply respects_bind; [apply respects_lift | intros found].
    destruct found; [apply respects_emit |].
    destruct (snd listing); [apply respects_raise |].
    apply respects_bind; [apply respects_emit | intros _].
    intros w1 w2 H. destruct H as (H1 & H2 & H3 & H4 & H5 & H6 & H7).
    rewrite H4. destruct (create_hook_error w2 repo_name); simpl.
    + split; [reflexivity | repeat split; assumption].
    + split; [reflexivity |]. repeat split; try assumption.
      simpl. rewrite H6. reflexivity.
Qed.

Lemma respects_reconcile_hook (self : ReloadGiteaProjects) (repo : json) :
  token_secret_name (step_config self) = name ->
  respects (reconcile_hook self repo).
Proof.
  intros Hname. unfold reconcile_hook, token. rewrite Hname.
  apply respects_bind; [apply respects_lift | intros nm].
  apply respects_bind; [apply respects_read_secret_file | intros tok].
  apply respects_create_project_hook.
Qed.

Lemma respects_atomic_write_file (path : string) (document : json) :
  respects (atomic_write_file path document).
Proof.
  unfold atomic_write_file.
  apply respects_bind; [apply respects_emit | intros _].
  intros w1 w2 H. destruct H as (H1 & H2 & H3 & H4 & H5 & H6 & H7).
  rewrite H5. destruct (write_error w2 path); simpl.
  - split; [reflexivity | repeat split; assumption].
  - split; [reflexivity |]. repeat split; try assumption.
    simpl. rewrite H7. reflexivity.
Qed.
End Agreement.

Lemma agree_refl (name : string) (w : world) : agree name w w.
Proof. repeat split. Qed.

Lemma agree_sym (name : string) (w1 w2 : world) : agree name w1 w2 -> agree name w2 w1.
Proof.
  intros (H1 & H2 & H3 & H4 & H5 & H6 & H7). repeat split; symmetry; assumption.
Qed.

Lemma agree_trans (name : string) (w1 w2 w3 : world) :
  agree name w1 w2 -> agree name w2 w3 -> agree name w1 w3.
Proof.
  intros (A1 & A2 & A3 & A4 & A5 & A6 & A7) (B1 & B2 & B3 & B4 & B5 & B6 & B7).
  repeat split; etransitivity; eassumption.
Qed.

Lemma bind_agrees (name : string) {A B : Type} (m : M A) (k : A -> M B)
  (w1 w2 : world) :
  fst (m w1) = fst (m w2) ->
  agree name (snd (m w1)) (snd (m w2)) ->
  (forall a, respects name (k a)) ->
  fst (bind m k w1) = fst (bind m k w2)
  /\ agree name (snd (bind m k w1)) (snd (bind m k w2)).
Proof.
  intros Hr Hw Hk. unfold bind.
  destruct (m w1) as [[a1 | e1] w1'], (m w2) as [[a2 | e2] w2'];
    simpl in *; try discriminate.
  - inversion Hr; subst. apply Hk, Hw.
  - inversion Hr; subst. split; [reflexivity | exact Hw].
Qed.

(** The continuation of a reload after the enumeration, and the step
    around it, do the same from outcomes that are the same. *)
Lemma reload_projects_agrees (self : ReloadGiteaProjects) (w1 w2 : world) :
  fst (refresh_projects (step_config self) w1)
  = fst (refresh_projects (step_config self) w2) ->
  agree (token_secret_name (step_config self))
    (snd (refresh_projects (step_config self) w1))
    (snd (refresh_projects (step_config self) w2)) ->
  fst (reload_projects self w1) = fst (reload_projects self w2)
  /\ agree (token_secret_name (step_config self))
       (snd (reload_projects self w1)) (snd (reload_projects self w2)).
Proof.
  intros Hr Hw. unfold reload_projects.
  apply bind_agrees; [exact Hr | exact Hw |].
  intros repos. apply respects_bind.
  - apply respects_for_each. intros repo.
    apply respects_reconcile_hook. reflexivity.
  - intros _. apply respects_atomic_write_file.
Qed.

Lemma run_agrees (self : ReloadGiteaProjects) (name : string) (w1 w2 : world) :
  fst (reload_projects self w1) = fst (reload_projects self w2) ->
  agree name (snd (reload_projects self w1)) (snd (reload_projects self w2)) ->
  fst (run self w1) = fst (run self w2)
  /\ agree name (snd (run self w1)) (snd (run self w2)).
Proof.
  intros Hr Hw. unfold run.
  destruct (reload_projects self w1) as [[u1 | e1] w1'],
           (reload_projects self w2) as [[u2 | e2] w2'];
    simpl in *; try discriminate.
  - split; [reflexivity | exact Hw].
  - split; [reflexivity | exact Hw].
Qed.

(** Two enumerations whose loops collect the same give the same refresh. *)
Lemma refresh_projects_from_loops (config : GiteaConfig) (w1 w2 : world) :
  secret_files w1 (token_secret_name config) = secret_files w2 (token_secret_name config) ->
  snd (user_repos w1) = snd (user_repos w2) ->
  (forall tok,
      secret_files w1 (token_secret_name config) = Ok tok ->
      let v1 := with_trace w1 (ListRepos (instance_url config) tok :: trace w1) in
      let v2 := with_trace w2 (ListRepos (instance_url config) tok :: trace w2) in
      fst (for_fold (refresh_step config) (fst (user_repos w1)) [] v1)
      = fst (for_fold (refresh_step config) (fst (user_repos w2)) [] v2)
      /\ agree (token_secret_name config)
           (snd (for_fold (refresh_step config) (fst (user_repos w1)) [] v1))
           (snd (for_fold (refresh_step config) (fst (user_repos w2)) [] v2))) ->
  agree (token_secret_name config) w1 w2 ->
  fst (refresh_projects config w1) = fst (refresh_projects config w2)
  /\ agree (token_secret_name config)
       (snd (refresh_projects config w1)) (snd (refresh_projects config w2)).
Proof.
  intros Hsecret Hending Hloop Hagree.
  unfold refresh_projects, bind, token, read_secret_file, emit. simpl.
  rewrite <- Hsecret.
  destruct (secret_files w1 (token_secret_name config)) as [tok | e] eqn:Htok; simpl.
  2:{ split; [reflexivity | exact Hagree]. }
  specialize (Hloop tok eq_refl). cbv zeta in Hloop. destruct Hloop as [Hr Hw].
  destruct (for_fold (refresh_step config) (fst (user_repos w1)) [] _)
    as [[repos1 | e1] v1'],
    (for_fold (refresh_step config) (fst (user_repos w2)) [] _)
    as [[repos2 | e2] v2']; simpl in *; try discriminate.
  - inversion Hr; subst. rewrite <- Hending.
    destruct (snd (user_repos w1)); simpl; (split; [reflexivity | exact Hw]).
  - inversion Hr; subst. split; [reflexivity | exact Hw].
Qed.

Lemma refresh_projects_agrees (config : GiteaConfig) (w1 w2 : world) :
  agree (token_secret_name config) w1 w2 ->
  user_repos w1 = user_repos w2 ->
  fst (refresh_projects config w1) = fst (refresh_projects config w2)
  /\ agree (token_secret_name config)
       (snd (refresh_projects config w1)) (snd (refresh_projects config w2)).
Proof.
  intros H Hrepos. apply refresh_projects_from_loops; [apply H | | | exact H].
  - rewrite Hrepos. reflexivity.
  - intros tok _. cbv zeta. rewrite Hrepos.
    apply respects_for_fold.
    + intros s x. apply respects_refresh_step. reflexivity.
    + exact H.
Qed.

(** The loop body on a repository whose topics request raises an
    [OSError]: the list is returned as it is. *)
Lemma refresh_step_skips (config : GiteaConfig) (acc : list json)
  (repo admin login name : json) (tok : string) (e : exn) (w : world) :
  admin_of repo = Ok admin -> truthy admin = true ->
  login_of repo = Ok login -> subscript repo "name" = Ok name ->
  secret_files w (token_secret_name config) = Ok tok ->
  topics_of w login name = Raise e -> is_OSError e = true ->
  refresh_step config acc repo w
  = (Ok acc, with_trace w (GetTopics (instance_url config) login name tok :: trace w)).
Proof.
  unfold admin_of, login_of, refresh_step, bind, lift, try_except_OSError,
    token, read_secret_file, emit, ret.
  intros Ha Ht Hl Hn Htok Htopics He.
  destruct (subscript repo "permissions") as [permissions | x]; simpl in *;
    [| discriminate].
  rewrite Ha. simpl. rewrite Ht. simpl.
  destruct (subscript repo "owner") as [owner | x]; simpl in *; [| discriminate].
  rewrite Hl, Hn. simpl. rewrite Htok. simpl. rewrite Htopics. simpl.
  rewrite He. reflexivity.
Qed.

Lemma refresh_loop_skips (config : GiteaConfig) (before after : list json)
  (repo admin login name : json) (tok : string) (e : exn) :
  forall (acc : list json) (w1 w2 : world),
    admin_of repo = Ok admin -> truthy admin = true ->
    login_of repo = Ok login -> subscript repo "name" = Ok name ->
    secret_files w1 (token_secret_name config) = Ok tok ->
    topics_of w1 login name = Raise e -> is_OSError e = true ->
    agree (token_secret_name config) w1 w2 ->
    fst (for_fold (refresh_step config) (before ++ repo :: after) acc w1)
    = fst (for_fold (refresh_step config) (before ++ after) acc w2)
    /\ agree (token_secret_name config)
         (snd (for_fold (refresh_step config) (before ++ repo :: after) acc w1))
         (snd (for_fold (refresh_step config) (before ++ after) acc w2)).
Proof.
  intros acc w1 w2 Ha Ht Hl Hn Htok Htopics He Hagree.
  rewrite !for_fold_app.
  pose proof (respects_for_fold (token_secret_name config) (refresh_step config) before
                (fun s x => respects_refresh_step _ config s x eq_refl) acc w1 w2 Hagree)
    as [Hr Hw].
  pose proof (refresh_loop_quiet config before acc w1) as Q.
  destruct (for_fold (refresh_step config) before acc w1) as [[s1 | e1] v1],
           (for_fold (refresh_step config) before acc w2) as [[s2 | e2] v2];
    simpl in *; try discriminate.
  2:{ inversion Hr; subst. split; [reflexivity | exact Hw]. }
  inversion Hr; subst. clear Hr.
  destruct Q as (_ & (Qs & _ & Qt & _) & _).
  unfold bind.
  rewrite (refresh_step_skips config s2 repo admin login name tok e v1);
    try assumption.
  - apply (respects_for_fold (token_secret_name config) (refresh_step config) after
             (fun s x => respects_refresh_step _ config s x eq_refl)).
    destruct Hw as (H1 & H2 & H3 & H4 & H5 & H6 & H7). repeat split; assumption.
  - rewrite Qs. exact Htok.
  - rewrite Qt. exact Htopics.
Qed.

(** The loop body on a repository whose topics request answers: the
    record, with its topics, goes to the end of the list. *)
Lemma refresh_step_keeps (config : GiteaConfig) (acc : list json)
  (repo repo' admin login name body topics : json) (tok : string) (w : world) :
  admin_of repo = Ok admin -> truthy admin = true ->
  login_of repo = Ok login -> subscript repo "name" = Ok name ->
  secret_files w (token_secret_name config) = Ok tok ->
  topics_of w login name = Ok body ->
  subscript body "topics" = Ok topics ->
  assign repo "topics" topics = Ok repo' ->
  refresh_step config acc repo w
  = (Ok (acc ++ [repo']),
     with_trace w (GetTopics (instance_url config) login name tok :: trace w)).
Proof.
  unfold admin_of, login_of, refresh_step, bind, lift, try_except_OSError,
    token, read_secret_file, emit, ret.
  intros Ha Ht Hl Hn Htok Hbody Htopics Hassign.
  destruct (subscript repo "permissions") as [permissions | x]; simpl in *;
    [| discriminate].
  rewrite Ha. simpl. rewrite Ht. simpl.
  destruct (subscript repo "owner") as [owner | x]; simpl in *; [| discriminate].
  rewrite Hl, Hn. simpl. rewrite Htok. simpl. rewrite Hbody. simpl.
  rewrite Htopics. simpl. rewrite Hassign. reflexivity.
Qed.

Lemma refresh_loop_keeps (config : GiteaConfig) (tok : string)
  (other other' admin login name body topics : json) (items : list json) :
  forall (acc repos : list json) (w w' : world),
    for_fold (refresh_step config) items acc w = (Ok repos, w') ->
    secret_files w (token_secret_name config) = Ok tok ->
    In other items ->
    admin_of other = Ok admin -> truthy admin = true ->
    login_of other = Ok login -> subscript other "name" = Ok name ->
    topics_of w login name = Ok body ->
    subscript body "topics" = Ok topics ->
    assign other "topics" topics = Ok other' ->
    In other' repos.
Proof.
  induction items as [| x items IH];
    intros acc repos w w' H Htok Hin Ha Ht Hl Hn Hbody Htopics Hassign;
    [contradiction |].
  simpl in H. apply bind_inv in H.
  destruct H as [(acc' & w1 & Hstep & H) | (e & _ & He)]; [| discriminate].
  destruct Hin as [-> | Hin].
  - rewrite (refresh_step_keeps config acc other other' admin login name body topics
               tok w Ha Ht Hl Hn Htok Hbody Htopics Hassign) in Hstep.
    inversion Hstep; subst.
    destruct (for_fold_collects _ _ _ _ _ _ H) as (added & -> & _).
    apply in_or_app. left. apply in_or_app. right. left. reflexivity.
  - pose proof (refresh_step_quiet config acc x w) as Q. rewrite Hstep in Q.
    destruct Q as (_ & (Qs & _ & Qt & _) & _). simpl in Qs, Qt.
    eapply (IH acc' repos w1 w' H); try eassumption.
    + rewrite Qs. exact Htok.
    + rewrite Qt. exact Hbody.
Qed.

Lemma refresh_projects_keeps (config : GiteaConfig) (w w' : world) (repos : list json)
  (other other' admin login name body topics : json) :
  refresh_projects config w = (Ok repos, w') ->
  In other (fst (user_repos w)) ->
  admin_of other = Ok admin -> truthy admin = true ->
  login_of other = Ok login -> subscript other "name" = Ok name ->
  topics_of w login name = Ok body ->
  subscript body "topics" = Ok topics ->
  assign other "topics" topics = Ok other' ->
  In other' repos.
Proof.
  unfold refresh_projects, bind, token, read_secret_file, emit.
  intros H Hin Ha Ht Hl Hn Hbody Htopics Hassign.
  destruct (secret_files w (token_secret_name config)) as [tok | e] eqn:Htok;
    simpl in H; [| discriminate].
  destruct (for_fold (refresh_step config) (fst (user_repos w)) []
              (with_trace w (ListRepos (instance_url config) tok :: trace w)))
    as [[collected | e] w1] eqn:Hloop; [| discriminate].
  destruct (snd (user_repos w)); [discriminate |]. inversion H; subst.
  eapply (refresh_loop_keeps config tok other other' admin login name body topics);
    try eassumption.
Qed.


(** C7, as stated, fails: of five repositories the identity administers,
    the topics lookup of the third fails, once with an exception that is
    not an [OSError] and once on an answer without a [topics] entry.
    The refresh raises, no snapshot is written and the step fails. *)
Lemma topic_failure_can_abort_refresh :
  (fst (refresh_projects sample_config
          (five_listing (Raise (mkExn OtherError "request failed"))))
   = Raise (mkExn OtherError "request failed")
   /\ fst (run sample_step (five_listing (Raise (mkExn OtherError "request failed"))))
      = Ok FAILURE
   /\ files (snd (run sample_step
                    (five_listing (Raise (mkExn OtherError "request failed")))))
        (project_cache_file sample_config) = None)
  /\ (fst (refresh_projects sample_config
             (five_listing (Ok (JObj [("message", JStr "not found")]))))
      = Raise (mkExn KeyError "topics")
      /\ fst (run sample_step
                (five_listing (Ok (JObj [("message", JStr "not found")]))))
         = Ok FAILURE
      /\ files (snd (run sample_step
                       (five_listing (Ok (JObj [("message", JStr "not found")])))))
           (project_cache_file sample_config) = None).
Proof. repeat split; vm_compute; reflexivity. Qed.

(** C7, amended.  For every repository of the enumeration that the
    identity administers and whose topics request raises an [OSError],
    only that repository is skipped: the refresh, the step and what they
    leave behind (server hooks, files) are what they would be had the
    repository not been listed at all, so the step succeeds with the
    snapshot of the others whenever it would without it; and when the
    refresh returns, its list holds every other repository whose topics
    request answered, with its topics. *)
Theorem failed_topic_lookup_skips_one_repository :
  forall (self : ReloadGiteaProjects) (w : world) (before after : list json)
         (ending : option exn) (repo admin login name : json) (e : exn),
    user_repos w = (before ++ repo :: after, ending) ->
    admin_of repo = Ok admin -> truthy admin = true ->
    login_of repo = Ok login -> subscript repo "name" = Ok name ->
    topics_of w login name = Raise e -> is_OSError e = true ->
    let w0 := with_user_repos w (before ++ after, ending) in
    fst (refresh_projects (step_config self) w)
    = fst (refresh_projects (step_config self) w0)
    /\ fst (run self w) = fst (run self w0)
    /\ files (snd (run self w)) = files (snd (run self w0))
    /\ hooks (snd (run self w)) = hooks (snd (run self w0))
    /\ (forall repos w1 other other' admin' login' name' body topics,
           refresh_projects (step_config self) w = (Ok repos, w1) ->
           In other (before ++ after) ->
           admin_of other = Ok admin' -> truthy admin' = true ->
           login_of other = Ok login' -> subscript other "name" = Ok name' ->
           topics_of w login' name' = Ok body ->
           subscript body "topics" = Ok topics ->
           assign other "topics" topics = Ok other' ->
           In other' repos).
Proof.
  intros self w before after ending repo admin login name e
    Hrepos Ha Ht Hl Hn Htopics He w0.
  assert (Hagree : agree (token_secret_name (step_config self)) w w0)
    by (repeat split).
  assert (Hrefresh :
            fst (refresh_projects (step_config self) w)
            = fst (refresh_projects (step_config self) w0)
            /\ agree (token_secret_name (step_config self))
                 (snd (refresh_projects (step_config self) w))
                 (snd (refresh_projects (step_config self) w0))).
  { apply refresh_projects_from_loops; [reflexivity | | | exact Hagree].
    - simpl. rewrite Hrepos. reflexivity.
    - intros tok Htok. cbv zeta. simpl (user_repos w0). rewrite Hrepos.
      simpl (fst _).
      eapply refresh_loop_skips; try eassumption; repeat split. }
  destruct Hrefresh as [Hr Hw]. split; [exact Hr |].
  destruct (reload_projects_agrees self w w0 Hr Hw) as [Hr' Hw'].
  destruct (run_agrees self _ w w0 Hr' Hw') as [Hr'' Hw''].
  split; [exact Hr'' |].
  destruct Hw'' as (_ & _ & _ & _ & _ & Hhooks & Hfiles).
  split; [exact Hfiles |]. split; [exact Hhooks |].
  intros repos w1 other other' admin' login' name' body topics
    Hok Hin Ha' Ht' Hl' Hn' Hbody Htopics' Hassign.
  eapply refresh_projects_keeps; try eassumption.
  rewrite Hrepos. simpl. apply in_app_or in Hin. apply in_or_app.
  destruct Hin as [Hin | Hin]; [left; exact Hin | right; right; exact Hin].
Qed.

(** Of five repositories the topics request of the third times out: the
    step succeeds and the snapshot holds the other four. *)
Lemma failed_topic_lookup_skips_one_repository_witness :
  fst (run sample_step (five_listing (Raise (mkExn OSError "timed out")))) = Ok SUCCESS
  /\ files (snd (run sample_step (five_listing (Raise (mkExn OSError "timed out")))))
       (project_cache_file sample_config)
     = Some (Ok (JArr (map (fun r => tagged r ["build-with-buildbot"])
                         [repo_record "o" "one" true; repo_record "o" "two" true;
                          repo_record "o" "four" true; repo_record "o" "five" true]))).
Proof.
  destruct (failed_topic_lookup_skips_one_repository sample_step
              (five_listing (Raise (mkExn OSError "timed out")))
              [repo_record "o" "one" true; repo_record "o" "two" true]
              [repo_record "o" "four" true; repo_record "o" "five" true]
              None (repo_record "o" "three" true) (JBool true) (JStr "o") (JStr "three")
              (mkExn OSError "timed out")
              eq_refl eq_refl eq_refl eq_refl eq_refl eq_refl eq_refl)
    as (_ & Hrun & Hfiles & _).
  split.
  - rewrite Hrun. vm_compute. reflexivity.
  - rewrite Hfiles. vm_compute. reflexivity.
Defined.

(** ** Secrets *)

(** C9, as stated, fails for the API token: with the webhook signing
    secret present and the token absent, the backend is constructed, and
    the refresh run on it then fails on the missing token. *)
Lemma missing_token_fails_at_refresh :
  new_backend sample_config no_token
  = (Ok (mkGiteaBackend sample_config "secret of gitea-webhook-secret"), no_token)
  /\ fst (reload_projects
            (create_reload_builder
               (mkGiteaBackend sample_config "secret of gitea-webhook-secret")
               "https://buildbot.example.org/")
            no_token)
     = Raise (mkExn OSError "gitea-token: no such secret")
  /\ fst (run
            (create_reload_builder
               (mkGiteaBackend sample_config "secret of gitea-webhook-secret")
               "https://buildbot.example.org/")
            no_token)
     = Ok FAILURE.
Proof. repeat split; vm_compute; reflexivity. Qed.

(** C9, amended.  The webhook signing secret is read at construction:
    when it is absent the construction fails with the secret provider's
    exception, and when it is present the construction succeeds without
    reading anything else.  The API token is read when it is used: a
    refresh run with the token absent fails at once with the secret
    provider's exception, before any request.  A refresh reads no other
    secret than the token, so on a constructed backend it never fails
    for want of the webhook signing secret: with any other secret
    directory that answers the same for the token it ends the same. *)
Theorem secrets_are_read_where_used :
  forall (config : GiteaConfig) (w : world),
    (forall e,
        secret_files w (webhook_secret_name config) = Raise e ->
        new_backend config w = (Raise e, w))
    /\ (forall secret,
           secret_files w (webhook_secret_name config) = Ok secret ->
           new_backend config w = (Ok (mkGiteaBackend config secret), w))
    /\ (forall self e,
           step_config self = config ->
           secret_files w (token_secret_name config) = Raise e ->
           reload_projects self w = (Raise e, w)
           /\ fst (run self w) = Ok FAILURE)
    /\ (forall self secrets,
           step_config self = config ->
           secrets (token_secret_name config) = secret_files w (token_secret_name config) ->
           fst (run self (with_secret_files w secrets)) = fst (run self w)
           /\ files (snd (run self (with_secret_files w secrets)))
              = files (snd (run self w))
           /\ hooks (snd (run self (with_secret_files w secrets)))
              = hooks (snd (run self w))).
Proof.
  intros config w. split; [| split; [| split]].
  - intros e H. unfold new_backend, bind, read_secret_file. rewrite H. reflexivity.
  - intros secret H. unfold new_backend, bind, read_secret_file. rewrite H. reflexivity.
  - intros self e <- H.
    assert (Hreload : reload_projects self w = (Raise e, w)).
    { unfold reload_projects, refresh_projects, bind, token, read_secret_file.
      rewrite H. reflexivity. }
    split; [exact Hreload |]. unfold run. rewrite Hreload. reflexivity.
  - intros self secrets <- H.
    assert (Hagree : agree (token_secret_name (step_config self))
                       (with_secret_files w secrets) w)
      by (repeat split; exact H).
    destruct (refresh_projects_agrees (step_config self) _ _ Hagree eq_refl)
      as [Hr Hw].
    destruct (reload_projects_agrees self _ _ Hr Hw) as [Hr' Hw'].
    destruct (run_agrees self _ _ _ Hr' Hw') as [Hr'' Hw''].
    split; [exact Hr'' |].
    destruct Hw'' as (_ & _ & _ & _ & _ & Hhooks & Hfiles).
    split; assumption.
Qed.

(** No webhook secret: no backend.  No token: the reload fails at once.
    Only the token: the step succeeds. *)
Lemma secrets_are_read_where_used_witness :
  new_backend sample_config no_secrets
  = (Raise (mkExn OSError "gitea-webhook-secret: no such secret"), no_secrets)
  /\ reload_projects sample_step no_token
     = (Raise (mkExn OSError "gitea-token: no such secret"), no_token)
  /\ fst (run sample_step
            (with_secret_files (calm [repo_record "a" "repo" true])
               (fun name =>
                  if String.eqb name "gitea-token"
                  then Ok "secret of gitea-token"
                  else Raise (mkExn OSError "no such secret"))))
     = Ok SUCCESS.
Proof.
  split; [| split].
  - apply (secrets_are_read_where_used sample_config no_secrets). reflexivity.
  - destruct (secrets_are_read_where_used sample_config no_token)
      as (_ & _ & H & _).
    apply (H sample_step (mkExn OSError "gitea-token: no such secret") eq_refl eq_refl).
  - destruct (secrets_are_read_where_used sample_config
                (calm [repo_record "a" "repo" true]))
      as (_ & _ & _ & H).
    destruct (H sample_step
                (fun name =>
                   if String.eqb name "gitea-token"
                   then Ok "secret of gitea-token"
                   else Raise (mkExn OSError "no such secret"))
                eq_refl eq_refl) as [Hrun _].
    rewrite Hrun. vm_compute. reflexivity.
Defined.

(** ** Loading the snapshot *)

Lemma string_ltb_leb (s t : string) : String.ltb s t = true -> String.leb s t = true.
Proof.
  unfold String.ltb, String.leb. intros H.
  destruct (String.compare s t); try reflexivity; discriminate H.
Qed.

Lemma string_ltb_false_leb (s t : string) :
  String.ltb s t = false -> String.leb t s = true.
Proof.
  unfold String.ltb, String.leb. rewrite (String.compare_antisym t s). intros H.
  destruct (String.compare s t); simpl; try reflexivity; discriminate H.
Qed.

Lemma insert_by_key_sorts (kx : json * json) (l : list (json * json)) :
  keyed_by_name kx -> Forall keyed_by_name l -> Sorted key_le l ->
  exists l',
    insert_by_key kx l = Ok l'
    /\ Permutation (kx :: l) l'
    /\ Sorted key_le l'
    /\ (forall kz, HdRel key_le kz l -> key_le kz kx -> HdRel key_le kz l').
Proof.
  intros [s [Hs Hs']] Hl Hsorted. induction l as [| ky rest IH]; simpl.
  - exists [kx]. repeat split; auto.
  - inversion Hl as [| ? ? [t [Ht Ht']] Hrest]; subst.
    inversion Hsorted as [| ? ? Hsrest Hhd]; subst.
    rewrite Ht, Hs. simpl.
    destruct (String.ltb t s) eqn:Hlt.
    + destruct (IH Hrest Hsrest) as (rest' & -> & Hperm & Hsorted' & Hhead).
      exists (ky :: rest'). split; [reflexivity |].
      assert (Hyx : key_le ky kx).
      { exists t, s. repeat split; auto. apply string_ltb_leb, Hlt. }
      split; [| split].
      * apply perm_trans with (ky :: kx :: rest); [apply perm_swap |].
        apply perm_skip, Hperm.
      * constructor; [exact Hsorted' | apply Hhead; assumption].
      * intros kz Hz _. inversion Hz; subst. constructor. assumption.
    + exists (kx :: ky :: rest). split; [reflexivity |].
      split; [apply Permutation_refl |].
      split.
      * constructor; [exact Hsorted |]. constructor.
        exists s, t. repeat split; auto. apply string_ltb_false_leb, Hlt.
      * intros kz _ Hzx. constructor. exact Hzx.
Qed.

Lemma sort_decorated_sorts (l : list (json * json)) :
  Forall keyed_by_name l ->
  exists l',
    sort_decorated l = Ok l' /\ Permutation l l' /\ Sorted key_le l'.
Proof.
  induction l as [| kx rest IH]; intros Hl; simpl.
  - exists []. repeat split; auto.
  - inversion Hl as [| ? ? Hkx Hrest]; subst.
    destruct (IH Hrest) as (rest' & -> & Hperm & Hsorted). simpl.
    assert (Hrest' : Forall keyed_by_name rest').
    { rewrite Forall_forall in *. intros x Hx. apply Hrest.
      apply Permutation_sym in Hperm. eapply Permutation_in; eassumption. }
    destruct (insert_by_key_sorts kx rest' Hkx Hrest' Hsorted)
      as (l' & -> & Hperm' & Hsorted' & _).
    exists l'. split; [reflexivity |]. split; [| exact Hsorted'].
    apply perm_trans with (kx :: rest'); [apply perm_skip, Hperm | exact Hperm'].
Qed.

Lemma decorate_by_name (records : list json) :
  Forall (fun r => exists s, subscript r "full_name" = Ok (JStr s)) records ->
  exists decorated,
    mapR (fun x => k <~ subscript x "full_name" ;; Ok (k, x)) records = Ok decorated
    /\ map snd decorated = records
    /\ Forall keyed_by_name decorated.
Proof.
  induction 1 as [| r rest [s Hs] _ (decorated & IH & Hsnd & Hkeyed)]; simpl.
  - exists []. repeat split; auto.
  - rewrite Hs, IH. simpl. exists ((JStr s, r) :: decorated).
    split; [reflexivity |]. split; [simpl; rewrite Hsnd; reflexivity |].
    constructor; [exists s; auto | exact Hkeyed].
Qed.

Lemma Sorted_map_snd (l : list (json * json)) :
  Sorted key_le l -> Sorted name_le (map snd l).
Proof.
  induction 1 as [| kx l _ IH Hhd]; simpl; constructor; [exact IH |].
  destruct Hhd; simpl; constructor. assumption.
Qed.

(** [sorted] by [full_name] on records whose full names are strings: it
    returns, with a permutation of the records in the order of their
    names. *)
Lemma sorted_by_full_name (records : list json) :
  Forall (fun r => exists s, subscript r "full_name" = Ok (JStr s)) records ->
  exists repos,
    sorted (fun x => subscript x "full_name") records = Ok repos
    /\ Permutation records repos
    /\ Sorted name_le repos.
Proof.
  intros H. unfold sorted.
  destruct (decorate_by_name records H) as (decorated & -> & Hsnd & Hkeyed). simpl.
  destruct (sort_decorated_sorts decorated Hkeyed) as (ordered & -> & Hperm & Hsorted).
  simpl. exists (map snd ordered). split; [reflexivity |].
  split; [rewrite <- Hsnd; apply Permutation_map, Hperm | apply Sorted_map_snd, Hsorted].
Qed.

Lemma filterR_without_topic (config : GiteaConfig) (projects : list GiteaProject) :
  topic config = None -> filterR (has_topic config) projects = Ok [].
Proof.
  intros H. induction projects as [| p rest IH]; simpl; [reflexivity |].
  unfold has_topic at 1. rewrite H. simpl. rewrite IH. reflexivity.
Qed.

Lemma filterR_with_topic (config : GiteaConfig) (t : string) (repos : list json) :
  topic config = Some t ->
  Forall snapshot_record repos ->
  filterR (has_topic config) (map (mkGiteaProject config) repos)
  = Ok (map (mkGiteaProject config) (filter (tagged_with t) repos)).
Proof.
  intros H. induction 1 as [| r rest [_ [topics Htopics]] _ IH]; simpl; [reflexivity |].
  unfold has_topic at 1, project_topics, tagged_with. rewrite H. simpl.
  rewrite Htopics. simpl. rewrite IH. simpl.
  destruct (existsb (fun y => eq_str y t) topics); reflexivity.
Qed.

(** On a first run, with no cache file, nothing is loaded. *)
Lemma load_projects_first_run (self : GiteaBackend) (w : world) :
  files w (project_cache_file (backend_config self)) = None ->
  load_projects self w = (Ok [], w).
Proof. intros H. unfold load_projects. rewrite H. reflexivity. Qed.

(** With a required topic, the records of the snapshot are returned
    sorted by [full_name] and restricted to those that carry the topic. *)
Lemma load_projects_with_topic (self : GiteaBackend) (w : world) (t : string)
  (records : list json) :
  topic (backend_config self) = Some t ->
  files w (project_cache_file (backend_config self)) = Some (Ok (JArr records)) ->
  Forall snapshot_record records ->
  exists repos,
    Permutation records repos
    /\ Sorted name_le repos
    /\ load_projects self w
       = (Ok (map (mkGiteaProject (backend_config self))
                (filter (tagged_with t) repos)), w).
Proof.
  intros Htopic Hfile Hrecords.
  destruct (sorted_by_full_name records) as (repos & Hsorted & Hperm & Hord).
  { eapply Forall_impl; [| exact Hrecords]. intros r [Hname _]. exact Hname. }
  exists repos. split; [exact Hperm |]. split; [exact Hord |].
  unfold load_projects. rewrite Hfile. simpl. rewrite Hsorted. simpl.
  rewrite (filterR_with_topic _ t); [reflexivity | exact Htopic |].
  rewrite Forall_forall in *. intros r Hr. apply Hrecords.
  apply Permutation_sym in Hperm. eapply Permutation_in; eassumption.
Qed.

(** The three cached records of the sample, filtered on
    [build-with-buildbot]: the two tagged ones, [a/repo] before
    [b/repo]. *)
Lemma load_projects_sample :
  fst (load_projects sample_backend three_cached)
  = Ok [mkGiteaProject sample_config
          (tagged (repo_record "a" "repo" true) ["nix"; "build-with-buildbot"]);
        mkGiteaProject sample_config
          (tagged (repo_record "b" "repo" true) ["build-with-buildbot"])].
Proof. vm_compute. reflexivity. Qed.

(** C3 holds for a missing file and for a configured topic (the three
    lemmas above) and fails where it says that all records are returned
    when no required topic is configured: for every snapshot of records
    with string full names, a backend whose [topic] is [None] loads
    nothing. *)
Theorem load_projects_without_topic_loads_nothing :
  forall (self : GiteaBackend) (w : world) (records : list json),
    topic (backend_config self) = None ->
    files w (project_cache_file (backend_config self)) = Some (Ok (JArr records)) ->
    Forall (fun r => exists s, subscript r "full_name" = Ok (JStr s)) records ->
    load_projects self w = (Ok [], w).
Proof.
  intros self w records Htopic Hfile Hrecords.
  destruct (sorted_by_full_name records Hrecords) as (repos & Hsorted & _).
  unfold load_projects. rewrite Hfile. simpl. rewrite Hsorted. simpl.
  rewrite filterR_without_topic; [reflexivity | exact Htopic].
Qed.

(** Three records are cached and none is loaded. *)
Lemma load_projects_without_topic_loads_nothing_witness :
  files three_cached (project_cache_file config_without_topic)
  = Some (Ok (JArr [tagged (repo_record "b" "repo" true) ["build-with-buildbot"];
                    tagged (repo_record "c" "repo" true) ["other"];
                    tagged (repo_record "a" "repo" true) ["nix"; "build-with-buildbot"]]))
  /\ load_projects (mkGiteaBackend config_without_topic "s3cret") three_cached
     = (Ok [], three_cached).
Proof.
  split; [reflexivity |].
  apply (load_projects_without_topic_loads_nothing
           (mkGiteaBackend config_without_topic "s3cret") three_cached
           [tagged (repo_record "b" "repo" true) ["build-with-buildbot"];
            tagged (repo_record "c" "repo" true) ["other"];
            tagged (repo_record "a" "repo" true) ["nix"; "build-with-buildbot"]]).
  - reflexivity.
  - reflexivity.
  - repeat constructor; eexists; reflexivity.
Defined.

(** * More of the module *)

(** ** One invocation of the Webhook Reconciler *)

Lemma hook_exists_prefix (webhook_url : string) (xs ys : list json) :
  hook_exists webhook_url xs = Ok true ->
  hook_exists webhook_url (xs ++ ys) = Ok true.
Proof.
  induction xs as [| x xs IH]; simpl; intros H; [discriminate |].
  destruct (subscript x "config") as [config | e]; simpl in *; [| discriminate].
  destruct (subscript config "url") as [url | e]; simpl in *; [| discriminate].
  destruct (eq_str url (webhook_url ++ "change_hook/gitea")%string);
    [reflexivity | apply IH, H].
Qed.

Lemma hooks_on_app (w w' : world) (added : list (json * json)) (repo_name : json) :
  hooks w' = hooks w ++ added ->
  hooks_on w' repo_name
  = hooks_on w repo_name
    ++ map snd (filter (fun rh => json_eqb (fst rh) repo_name) added).
Proof. intros H. unfold hooks_on. rewrite H, filter_app, map_app. reflexivity. Qed.

Lemma has_hook_grows (webhook_url : string) (w w' : world) (repo_name : json) :
  hooks_grow w w' -> has_hook webhook_url w repo_name -> has_hook webhook_url w' repo_name.
Proof.
  intros [Herr [added Hadded]]. unfold has_hook, hooks_listing.
  rewrite Herr, (hooks_on_app w w' added repo_name Hadded).
  destruct (hooks_error w repo_name) as [[n e] |]; simpl.
  - rewrite firstn_app. apply hook_exists_prefix.
  - apply hook_exists_prefix.
Qed.

Lemma hooks_grow_refl (w : world) : hooks_grow w w.
Proof. split; [reflexivity |]. exists []. symmetry. apply app_nil_r. Qed.

Lemma hooks_grow_trans (w1 w2 w3 : world) :
  hooks_grow w1 w2 -> hooks_grow w2 w3 -> hooks_grow w1 w3.
Proof.
  intros [E1 [a1 H1]] [E2 [a2 H2]]. split; [rewrite E2; exact E1 |].
  exists (a1 ++ a2). rewrite H2, H1. symmetry. apply app_assoc.
Qed.

Lemma create_project_hook_grows (instance : string) (repo_name : json)
  (tok webhook_url webhook_secret : string) (w : world) :
  hooks_grow w
    (snd (create_project_hook instance repo_name tok webhook_url webhook_secret w)).
Proof.
  unfold hooks_grow, create_project_hook, list_hooks, post_hook, bind, emit, lift.
  simpl.
  destruct (hook_exists webhook_url _) as [[|] | x]; simpl.
  2: destruct (snd (hooks_listing _ repo_name)); simpl.
  3: destruct (create_hook_error w repo_name); simpl.
  all: split; [reflexivity |].
  all: first [ exists []; symmetry; apply app_nil_r
             | exists [(repo_name, hook_data webhook_url webhook_secret)]; reflexivity ].
Qed.

Lemma create_project_hook_has_hook (instance : string) (repo_name : json)
  (tok webhook_url webhook_secret : string) (w w' : world) :
  create_project_hook instance repo_name tok webhook_url webhook_secret w = (Ok tt, w') ->
  has_hook webhook_url w' repo_name.
Proof.
  intros H.
  destruct (create_project_hook_cases instance repo_name tok webhook_url
              webhook_secret w) as [[H1 Hfound] | [(e & H1 & _) | (H1 & Herr & Hfound)]];
    cbv zeta in H1; rewrite H in H1; try discriminate; inversion H1; subst w'.
  - exact Hfound.
  - unfold has_hook, hooks_listing. simpl. rewrite Herr. simpl.
    match goal with
    | |- context [hooks_on ?v repo_name] =>
        replace (hooks_on v repo_name)
          with (hooks_on w repo_name ++ [hook_data webhook_url webhook_secret])
    end.
    + rewrite (hook_exists_app _ _ _ Hfound). apply hook_exists_posted.
    + symmetry.
      apply (hooks_on_registered
               (with_trace w (CreateHook instance repo_name (hook_headers tok)
                                (hook_data webhook_url webhook_secret)
                              :: ListHooks instance repo_name tok :: trace w))).
Qed.

(** X6. Whenever [create_project_hook] returns, the server's answer to
    the enumeration of the repository's hooks holds a hook with the
    wanted URL: the one found, or the one just created. *)
Theorem create_project_hook_ensures_hook :
  forall (instance : string) (repo_name : json)
         (tok webhook_url webhook_secret : string) (w w' : world),
    create_project_hook instance repo_name tok webhook_url webhook_secret w
    = (Ok tt, w') ->
    has_hook webhook_url w' repo_name
    /\ exists hook,
        In hook (hooks_on w' repo_name)
        /\ hook_url hook = Ok (JStr (webhook_url ++ "change_hook/gitea")%string).
Proof.
  intros instance repo_name tok webhook_url webhook_secret w w' H.
  pose proof (create_project_hook_has_hook _ _ _ _ _ _ _ H) as Hhas.
  split; [exact Hhas |].
  unfold has_hook in Hhas.
  assert (Hin : forall l, hook_exists webhook_url l = Ok true ->
                  exists hook, In hook l
                    /\ hook_url hook = Ok (JStr (webhook_url ++ "change_hook/gitea")%string)).
  { induction l as [| x l IH]; simpl; intros Hl; [discriminate |].
    unfold hook_url.
    destruct (subscript x "config") as [config | e] eqn:Hc; simpl in *; [| discriminate].
    destruct (subscript config "url") as [url | e] eqn:Hu; simpl in *; [| discriminate].
    destruct (eq_str url (webhook_url ++ "change_hook/gitea")%string) eqn:Heq.
    - exists x. split; [left; reflexivity |]. rewrite Hc. simpl. rewrite Hu.
      destruct url; simpl in Heq; try discriminate.
      apply String.eqb_eq in Heq. subst. reflexivity.
    - destruct (IH Hl) as (hook & Hhook & Hurl).
      exists hook. split; [right; exact Hhook | exact Hurl]. }
  destruct (Hin _ Hhas) as (hook & Hhook & Hurl).
  exists hook. split; [| exact Hurl].
  unfold hooks_listing in Hhook.
  destruct (hooks_error w' repo_name) as [[n e] |]; simpl in Hhook.
  - rewrite <- (firstn_skipn n (hooks_on w' repo_name)).
    apply in_or_app. left. exact Hhook.
  - exact Hhook.
Qed.

(** On a server without hooks the invocation returns, and the hook is
    there. *)
Lemma create_project_hook_ensures_hook_witness :
  has_hook "https://buildbot.example.org/"
    (snd (create_project_hook "https://gitea.example.org" (JStr "a/repo") "tok"
            "https://buildbot.example.org/" "s3cret" (calm [])))
    (JStr "a/repo").
Proof.
  apply (create_project_hook_ensures_hook "https://gitea.example.org" (JStr "a/repo")
           "tok" "https://buildbot.example.org/" "s3cret" (calm [])).
  vm_compute. reflexivity.
Defined.

(** X7. However an invocation ends, it never removes or changes a hook:
    the server's hooks are the old ones followed by at most one new hook,
    which is the payload for this repository; the hooks of every other
    repository are listed as before, and no file is touched. *)
Theorem create_project_hook_only_adds :
  forall (instance : string) (repo_name : json)
         (tok webhook_url webhook_secret : string) (w : world),
    let w' := snd (create_project_hook instance repo_name tok
                     webhook_url webhook_secret w) in
    (exists added,
        hooks w' = hooks w ++ added
        /\ length added <= 1
        /\ Forall (fun rh => rh = (repo_name, hook_data webhook_url webhook_secret))
             added)
    /\ (exists extra, hooks_on w' repo_name = hooks_on w repo_name ++ extra)
    /\ (forall other,
           json_eqb repo_name other = false ->
           hooks_on w' other = hooks_on w other)
    /\ files w' = files w.
Proof.
  intros instance repo_name tok webhook_url webhook_secret w w'.
  assert (Hadded : exists added,
             hooks w' = hooks w ++ added
             /\ length added <= 1
             /\ Forall (fun rh => rh = (repo_name, hook_data webhook_url webhook_secret))
                  added).
  { subst w'.
    unfold create_project_hook, list_hooks, post_hook, bind, emit, lift. simpl.
    destruct (hook_exists webhook_url _) as [[|] | x]; simpl.
    2: destruct (snd (hooks_listing _ repo_name)); simpl.
    3: destruct (create_hook_error w repo_name); simpl.
    all: first [ exists []; split; [symmetry; apply app_nil_r |];
                 split; [simpl; lia | constructor]
               | exists [(repo_name, hook_data webhook_url webhook_secret)];
                 split; [reflexivity |]; split; [simpl; lia |];
                 constructor; [reflexivity | constructor] ]. }
  split; [exact Hadded |].
  destruct Hadded as (added & Hhooks & _ & Hall).
  split; [| split].
  - eexists. apply (hooks_on_app w w' added repo_name Hhooks).
  - intros other Hother. rewrite (hooks_on_app w w' added other Hhooks).
    replace (filter (fun rh => json_eqb (fst rh) other) added) with (@nil (json * json)).
    + simpl. apply app_nil_r.
    + clear Hhooks. induction Hall as [| rh rest Hrh _ IH]; simpl; [reflexivity |].
      subst rh. simpl. rewrite Hother. exact IH.
  - pose proof (preserves_create_project_hook same_files same_files_refl
                  same_files_trans (fun _ => True)
                  (fun ev v _ => eq_refl) (fun v h => eq_refl)
                  instance repo_name tok webhook_url webhook_secret I I I w) as F.
    exact F.
Qed.

(** X8. An invocation issues at most one creation request, and issues it
    only after the enumeration of the repository's hooks ended without
    exception and none of them had the wanted URL.  A hook without a
    configured URL met before a match makes the invocation raise that
    lookup's exception, and an enumeration that breaks off before a
    match makes it raise the enumeration's: both without any creation
    request. *)
Theorem hook_created_only_when_absent :
  forall (instance : string) (repo_name : json)
         (tok webhook_url webhook_secret : string) (w : world),
    let call := create_project_hook instance repo_name tok webhook_url webhook_secret in
    (exists t,
        trace (snd (call w)) = t ++ trace w
        /\ (creations t = 0
            \/ (creations t = 1
                /\ hooks_error w repo_name = None
                /\ hook_exists webhook_url (hooks_on w repo_name) = Ok false)))
    /\ (forall e,
           hook_exists webhook_url (fst (hooks_listing w repo_name)) = Raise e ->
           call w = (Raise e, with_trace w (ListHooks instance repo_name tok :: trace w)))
    /\ (forall n e,
           hooks_error w repo_name = Some (n, e) ->
           hook_exists webhook_url (firstn n (hooks_on w repo_name)) = Ok false ->
           call w = (Raise e, with_trace w (ListHooks instance repo_name tok :: trace w))).
Proof.
  intros instance repo_name tok webhook_url webhook_secret w call. subst call.
  split; [| split].
  - destruct (create_project_hook_cases instance repo_name tok webhook_url
                webhook_secret w) as [[H _] | [(e & _ & _) | (H & Herr & Hfound)]];
      cbv zeta in *.
    + rewrite H. exists [LogHookExists repo_name; ListHooks instance repo_name tok].
      split; [reflexivity | left; reflexivity].
    + unfold create_project_hook, list_hooks, post_hook, bind, emit, lift. simpl.
      change (hooks_listing (with_trace w (ListHooks instance repo_name tok :: trace w))
                repo_name) with (hooks_listing w repo_name).
      destruct (hook_exists webhook_url (fst (hooks_listing w repo_name)))
        as [[|] | x] eqn:Hfound; simpl.
      * exists [LogHookExists repo_name; ListHooks instance repo_name tok].
        split; [reflexivity | left; reflexivity].
      * unfold hooks_listing in *.
        destruct (hooks_error w repo_name) as [[n x] |] eqn:Herr; simpl in *.
        { exists [ListHooks instance repo_name tok].
          split; [reflexivity | left; reflexivity]. }
        destruct (create_hook_error w repo_name); simpl;
          exists [CreateHook instance repo_name (hook_headers tok)
                    (hook_data webhook_url webhook_secret);
                  ListHooks instance repo_name tok];
          (split; [reflexivity | right; auto]).
      * exists [ListHooks instance repo_name tok].
        split; [reflexivity | left; reflexivity].
    + rewrite H.
      exists [CreateHook instance repo_name (hook_headers tok)
                (hook_data webhook_url webhook_secret);
              ListHooks instance repo_name tok].
      split; [reflexivity | right; auto].
  - intros e He.
    unfold create_project_hook, list_hooks, bind, emit, lift. simpl.
    change (hooks_listing (with_trace w (ListHooks instance repo_name tok :: trace w))
              repo_name) with (hooks_listing w repo_name).
    rewrite He. reflexivity.
  - intros n e Herr Hfound.
    assert (Hl : hooks_listing w repo_name
                 = (firstn n (hooks_on w repo_name), Some e))
      by (unfold hooks_listing; rewrite Herr; reflexivity).
    unfold create_project_hook, list_hooks, bind, emit, lift. simpl.
    change (hooks_listing (with_trace w (ListHooks instance repo_name tok :: trace w))
              repo_name) with (hooks_listing w repo_name).
    rewrite Hl. cbn [fst snd]. rewrite Hfound. reflexivity.
Qed.

(** ** The hooks after a reload *)

Lemma reconcile_hook_inv (self : ReloadGiteaProjects) (repo : json) (w w' : world) :
  reconcile_hook self repo w = (Ok tt, w') ->
  exists name tok,
    subscript repo "full_name" = Ok name
    /\ secret_files w (token_secret_name (step_config self)) = Ok tok
    /\ create_project_hook (instance_url (step_config self)) name tok
         (step_webhook_url self) (step_webhook_secret self) w = (Ok tt, w').
Proof.
  unfold reconcile_hook, bind, lift, token, read_secret_file. intros H.
  destruct (subscript repo "full_name") as [name | e]; simpl in H; [| discriminate].
  destruct (secret_files w (token_secret_name (step_config self))) as [tok | e];
    simpl in H; [| discriminate].
  exists name, tok. auto.
Qed.

Lemma reconcile_hook_grows (self : ReloadGiteaProjects) (repo : json) :
  preserves hooks_grow (reconcile_hook self repo).
Proof.
  intros w. unfold reconcile_hook, bind, lift, token, read_secret_file.
  destruct (subscript repo "full_name") as [name | e]; simpl;
    [| apply hooks_grow_refl].
  destruct (secret_files w (token_secret_name (step_config self))) as [tok | e];
    simpl; [apply create_project_hook_grows | apply hooks_grow_refl].
Qed.

Lemma reconcile_all_grows (self : ReloadGiteaProjects) (repos : list json) :
  preserves hooks_grow (for_each (reconcile_hook self) repos).
Proof.
  apply preserves_for_each.
  - apply hooks_grow_refl.
  - apply hooks_grow_trans.
  - intros repo _. apply reconcile_hook_grows.
Qed.

Lemma reconcile_all_has_hooks (self : ReloadGiteaProjects) (repos : list json) :
  forall (w w' : world),
    for_each (reconcile_hook self) repos w = (Ok tt, w') ->
    forall repo,
      In repo repos ->
      exists name,
        subscript repo "full_name" = Ok name
        /\ has_hook (step_webhook_url self) w' name.
Proof.
  induction repos as [| x repos IH]; intros w w' H repo Hin; [contradiction |].
  simpl in H. apply bind_inv in H.
  destruct H as [([] & w1 & Hx & Hrest) | (e & _ & He)]; [| discriminate].
  destruct Hin as [<- | Hin]; [| eapply IH; eassumption].
  destruct (reconcile_hook_inv _ _ _ _ Hx) as (name & tok & Hname & _ & Hcall).
  exists name. split; [exact Hname |].
  pose proof (reconcile_all_grows self repos w1) as G. rewrite Hrest in G.
  apply (has_hook_grows _ w1 w' name G).
  apply (create_project_hook_has_hook _ _ _ _ _ _ _ Hcall).
Qed.

(** A reload that succeeds: the list collected, the world after the
    enumeration, the world after the hooks, and the write. *)
Lemma reload_projects_success (self : ReloadGiteaProjects) (w w' : world) :
  reload_projects self w = (Ok tt, w') ->
  exists repos w1 w2,
    refresh_projects (step_config self) w = (Ok repos, w1)
    /\ for_each (reconcile_hook self) repos w1 = (Ok tt, w2)
    /\ write_error w2 (step_project_cache_file self) = None
    /\ w' = with_files
              (with_trace w2 (WriteFile (step_project_cache_file self) (JArr repos)
                              :: trace w2))
              (fun p => if String.eqb p (step_project_cache_file self)
                        then Some (Ok (JArr repos)) else files w2 p).
Proof.
  intros H. apply reload_projects_inv in H.
  destruct H as [(e & _ & He) | [(repos & w1 & e & _ & _ & He)
                                | (repos & w1 & w2 & H1 & H2 & H3)]];
    try discriminate.
  exists repos, w1, w2. split; [exact H1 |]. split; [exact H2 |].
  rewrite atomic_write_file_run in H3. cbv zeta in H3.
  destruct (write_error w2 (step_project_cache_file self)); inversion H3; subst.
  split; reflexivity.
Qed.

(** X9. After a reload that succeeded, every repository of the snapshot
    written has a full name, and the server's answer to the enumeration
    of its hooks holds a hook with the wanted URL. *)
Theorem reload_registers_every_hook :
  forall (self : ReloadGiteaProjects) (w w' : world),
    reload_projects self w = (Ok tt, w') ->
    exists repos,
      files w' (step_project_cache_file self) = Some (Ok (JArr repos))
      /\ forall repo,
          In repo repos ->
          exists name,
            subscript repo "full_name" = Ok name
            /\ has_hook (step_webhook_url self) w' name.
Proof.
  intros self w w' H.
  destruct (reload_projects_success _ _ _ H) as (repos & w1 & w2 & _ & H2 & _ & ->).
  exists repos. split; [simpl; rewrite String.eqb_refl; reflexivity |].
  intros repo Hin.
  destruct (reconcile_all_has_hooks self repos w1 w2 H2 repo Hin) as (name & Hn & Hh).
  exists name. split; [exact Hn | exact Hh].
Qed.

(** The reload of the unsorted listing leaves a hook on [c/repo]. *)
Lemma reload_registers_every_hook_witness :
  exists repos,
    files (snd (reload_projects sample_step unsorted_listing))
      (project_cache_file sample_config) = Some (Ok (JArr repos))
    /\ forall repo,
        In repo repos ->
        exists name,
          subscript repo "full_name" = Ok name
          /\ has_hook "https://buildbot.example.org/"
               (snd (reload_projects sample_step unsorted_listing)) name.
Proof.
  apply (reload_registers_every_hook sample_step unsorted_listing
           (snd (reload_projects sample_step unsorted_listing))).
  vm_compute. reflexivity.
Defined.

(** ** A second reload *)

Lemma refresh_step_determined (config : GiteaConfig) (acc : list json) (repo : json)
  (w1 w2 : world) :
  secret_files w1 = secret_files w2 -> topics_of w1 = topics_of w2 ->
  fst (refresh_step config acc repo w1) = fst (refresh_step config acc repo w2).
Proof.
  intros Hs Ht.
  unfold refresh_step, bind, lift, try_except_OSError, token, read_secret_file,
    emit, ret.
  destruct (subscript repo "permissions") as [permissions | e]; simpl; [| reflexivity].
  destruct (subscript permissions "admin") as [admin | e]; simpl; [| reflexivity].
  destruct (negb (truthy admin)); simpl.
  { destruct (subscript repo "full_name"); reflexivity. }
  destruct (subscript repo "owner") as [owner | e]; simpl.
  2:{ destruct (is_OSError e); reflexivity. }
  destruct (subscript owner "login") as [login | e]; simpl.
  2:{ destruct (is_OSError e); reflexivity. }
  destruct (subscript repo "name") as [name | e]; simpl.
  2:{ destruct (is_OSError e); reflexivity. }
  rewrite Hs.
  destruct (secret_files w2 (token_secret_name config)) as [tok | e]; simpl.
  2:{ destruct (is_OSError e); reflexivity. }
  rewrite Ht.
  destruct (topics_of w2 login name) as [body | e]; simpl.
  2:{ destruct (is_OSError e); reflexivity. }
  destruct (subscript body "topics") as [topics | e]; simpl.
  2:{ destruct (is_OSError e); reflexivity. }
  destruct (assign repo "topics" topics) as [repo' | e]; simpl.
  2:{ destruct (is_OSError e); reflexivity. }
  reflexivity.
Qed.

Lemma refresh_loop_determined (config : GiteaConfig) (items : list json) :
  forall (acc : list json) (w1 w2 : world),
    secret_files w1 = secret_files w2 -> topics_of w1 = topics_of w2 ->
    fst (for_fold (refresh_step config) items acc w1)
    = fst (for_fold (refresh_step config) items acc w2).
Proof.
  induction items as [| x items IH]; intros acc w1 w2 Hs Ht; simpl; [reflexivity |].
  unfold bind.
  pose proof (refresh_step_determined config acc x w1 w2 Hs Ht) as Hstep.
  pose proof (refresh_step_quiet config acc x w1) as Q1.
  pose proof (refresh_step_quiet config acc x w2) as Q2.
  destruct (refresh_step config acc x w1) as [[s1 | e1] v1],
           (refresh_step config acc x w2) as [[s2 | e2] v2];
    simpl in *; try discriminate.
  - inversion Hstep; subst.
    destruct Q1 as (_ & (A1 & _ & A3 & _) & _), Q2 as (_ & (B1 & _ & B3 & _) & _).
    apply IH; congruence.
  - exact Hstep.
Qed.

Lemma refresh_projects_determined (config : GiteaConfig) (w1 w2 : world) :
  secret_files w1 = secret_files w2 -> topics_of w1 = topics_of w2 ->
  user_repos w1 = user_repos w2 ->
  fst (refresh_projects config w1) = fst (refresh_projects config w2).
Proof.
  intros Hs Ht Hu. unfold refresh_projects, bind, token, read_secret_file, emit.
  simpl. rewrite Hs, Hu.
  destruct (secret_files w2 (token_secret_name config)) as [tok | e]; simpl;
    [| reflexivity].
  pose proof (refresh_loop_determined config (fst (user_repos w2)) []
                (with_trace w1 (ListRepos (instance_url config) tok :: trace w1))
                (with_trace w2 (ListRepos (instance_url config) tok :: trace w2))
                Hs Ht) as Hloop.
  destruct (for_fold (refresh_step config) (fst (user_repos w2)) []
              (with_trace w1 _)) as [[r1 | e1] v1],
           (for_fold (refresh_step config) (fst (user_repos w2)) []
              (with_trace w2 _)) as [[r2 | e2] v2];
    simpl in *; try discriminate.
  - inversion Hloop; subst. destruct (snd (user_repos w2)); reflexivity.
  - exact Hloop.
Qed.

Lemma refresh_projects_read_token (config : GiteaConfig) (w w' : world)
  (repos : list json) :
  refresh_projects config w = (Ok repos, w') ->
  exists tok, secret_files w (token_secret_name config) = Ok tok.
Proof.
  unfold refresh_projects, bind, token, read_secret_file. intros H.
  destruct (secret_files w (token_secret_name config)) as [tok | e];
    [exists tok; reflexivity | discriminate].
Qed.

Lemma create_project_hook_noop (instance : string) (repo_name : json)
  (tok webhook_url webhook_secret : string) (w : world) :
  has_hook webhook_url w repo_name ->
  create_project_hook instance repo_name tok webhook_url webhook_secret w
  = (Ok tt,
     with_trace w (LogHookExists repo_name
                   :: ListHooks instance repo_name tok :: trace w)).
Proof.
  unfold has_hook. intros H.
  unfold create_project_hook, list_hooks, bind, emit, lift. simpl.
  change (hooks_listing (with_trace w (ListHooks instance repo_name tok :: trace w))
            repo_name) with (hooks_listing w repo_name).
  rewrite H. reflexivity.
Qed.

Lemma reconcile_all_noop (self : ReloadGiteaProjects) (tok : string)
  (repos : list json) :
  forall w,
    secret_files w (token_secret_name (step_config self)) = Ok tok ->
    (forall repo,
        In repo repos ->
        exists name,
          subscript repo "full_name" = Ok name
          /\ has_hook (step_webhook_url self) w name) ->
    exists t,
      for_each (reconcile_hook self) repos w = (Ok tt, with_trace w (t ++ trace w))
      /\ creations t = 0
      /\ Forall network_event t.
Proof.
  induction repos as [| x repos IH]; intros w Htok Hall.
  - exists []. simpl. destruct w. repeat split. constructor.
  - destruct (Hall x (or_introl eq_refl)) as (name & Hname & Hhas).
    set (w1 := with_trace w
                 (LogHookExists name
                  :: ListHooks (instance_url (step_config self)) name tok :: trace w)).
    assert (Hx : reconcile_hook self x w = (Ok tt, w1)).
    { unfold reconcile_hook, bind, lift, token, read_secret_file.
      rewrite Hname. simpl. rewrite Htok. simpl.
      apply create_project_hook_noop, Hhas. }
    destruct (IH w1 Htok) as (t & Hrest & Hc & Hn).
    { intros repo Hin. destruct (Hall repo (or_intror Hin)) as (n & Hn & Hh).
      exists n. split; [exact Hn | exact Hh]. }
    exists (t ++ [LogHookExists name;
                  ListHooks (instance_url (step_config self)) name tok]).
    split; [| split].
    + simpl. unfold bind. rewrite Hx, Hrest. subst w1. simpl.
      rewrite <- app_assoc. reflexivity.
    + clear - Hc. induction t as [| ev t IHt]; [reflexivity |].
      destruct ev; simpl in *; try discriminate; apply IHt; exact Hc.
    + apply Forall_app. split; [exact Hn |].
      constructor; [exact I |]. constructor; [exact I | constructor].
Qed.

Lemma read_only_refl (w : world) : read_only w w.
Proof.
  split; [reflexivity |]. split; [reflexivity |].
  split; [apply same_surroundings_refl | apply extends_refl].
Qed.

Lemma read_only_trans (w1 w2 w3 : world) :
  read_only w1 w2 -> read_only w2 w3 -> read_only w1 w3.
Proof.
  intros (A1 & A2 & A3 & A4) (B1 & B2 & B3 & B4).
  split; [congruence |]. split; [congruence |].
  split; [eapply same_surroundings_trans; eassumption
         | eapply extends_trans; eassumption].
Qed.

Lemma refresh_projects_read_only (config : GiteaConfig) :
  preserves read_only (refresh_projects config).
Proof.
  apply preserves_refresh_projects with (P := refresh_event);
    try (intros; exact I).
  - apply read_only_refl.
  - apply read_only_trans.
  - intros ev w Hev. split; [reflexivity |]. split; [reflexivity |].
    split; [repeat split | apply extends_emit, Hev].
Qed.

Lemma refresh_events_create_nothing (t : list event) :
  Forall refresh_event t -> creations t = 0.
Proof.
  induction 1 as [| ev t Hev _ IH]; [reflexivity |].
  destruct ev; simpl in *; try contradiction; exact IH.
Qed.

(** X1. [refresh_projects] only reads: however it ends, the server's
    hooks and the files are what they were, and the events of the call
    are requests for the list of repositories, requests for topics and
    skip diagnostics, so no hook-creation request, no write and no
    reload signal. *)
Theorem refresh_projects_only_reads :
  forall (config : GiteaConfig) (w : world),
    hooks (snd (refresh_projects config w)) = hooks w
    /\ files (snd (refresh_projects config w)) = files w
    /\ exists t,
        trace (snd (refresh_projects config w)) = t ++ trace w
        /\ Forall refresh_event t
        /\ creations t = 0.
Proof.
  intros config w.
  destruct (refresh_projects_read_only config w) as (H1 & H2 & _ & t & Ht & Ft).
  split; [exact H1 |]. split; [exact H2 |].
  exists t. split; [exact Ht |]. split; [exact Ft |].
  apply refresh_events_create_nothing, Ft.
Qed.

(** X10. A reload that follows a reload that succeeded succeeds as well,
    issues no hook-creation request, leaves the server's hooks as they
    are and writes the same snapshot again; the step run then reports
    success. *)
Theorem second_reload_creates_nothing :
  forall (self : ReloadGiteaProjects) (w w1 : world),
    reload_projects self w = (Ok tt, w1) ->
    exists w2 t,
      reload_projects self w1 = (Ok tt, w2)
      /\ trace w2 = t ++ trace w1
      /\ creations t = 0
      /\ hooks w2 = hooks w1
      /\ (forall p, files w2 p = files w1 p)
      /\ fst (run self w1) = Ok SUCCESS.
Proof.
  intros self w w1 H.
  destruct (reload_projects_success _ _ _ H) as (repos & v1 & v2 & Hr & Hf & Hw & Hw1).
  pose proof (refresh_projects_read_only (step_config self) w) as Q1.
  rewrite Hr in Q1. destruct Q1 as (_ & _ & S1 & _). simpl in S1.
  pose proof (reconcile_all_quiet self repos v1) as Q2.
  rewrite Hf in Q2. destruct Q2 as (_ & S2 & _). simpl in S2.
  pose proof (same_surroundings_trans _ _ _ S1 S2) as (A1 & A2 & A3 & A4 & A5 & A6).
  destruct (refresh_projects_read_token _ _ _ _ Hr) as [tok Htok].
  (* the second enumeration *)
  pose proof (refresh_projects_determined (step_config self) w1 w) as Hsame.
  pose proof (refresh_projects_read_only (step_config self) w1) as Q3.
  destruct (refresh_projects (step_config self) w1) as [r3 u1] eqn:Hr3.
  assert (Hr3' : r3 = Ok repos).
  { simpl in Hsame. rewrite Hr in Hsame. simpl in Hsame. apply Hsame;
      subst w1; simpl; assumption. }
  subst r3. destruct Q3 as (B1 & B2 & (C1 & C2 & C3 & C4 & C5 & C6) & t0 & Ht0 & Ft0).
  simpl in B1, B2, C1, C4, C6, Ht0.
  (* the hooks are there *)
  assert (Hall : forall repo,
             In repo repos ->
             exists name,
               subscript repo "full_name" = Ok name
               /\ has_hook (step_webhook_url self) u1 name).
  { intros repo Hin.
    destruct (reconcile_all_has_hooks self repos v1 v2 Hf repo Hin) as (name & Hn & Hh).
    exists name. split; [exact Hn |].
    apply (has_hook_grows _ v2 u1 name); [| exact Hh].
    split.
    - rewrite C4. subst w1. reflexivity.
    - exists []. rewrite B1. subst w1. simpl. symmetry. apply app_nil_r. }
  assert (Htok1 : secret_files u1 (token_secret_name (step_config self)) = Ok tok).
  { rewrite C1. subst w1. simpl. rewrite A1. exact Htok. }
  destruct (reconcile_all_noop self tok repos u1 Htok1 Hall) as (t & Hnoop & Hc & _).
  assert (Hwrite : write_error u1 (step_project_cache_file self) = None).
  { rewrite C6. subst w1. exact Hw. }
  eexists. exists (WriteFile (step_project_cache_file self) (JArr repos) :: t ++ t0).
  assert (Hreload : reload_projects self w1
            = (Ok tt,
               with_files
                 (with_trace u1
                    (WriteFile (step_project_cache_file self) (JArr repos)
                     :: t ++ trace u1))
                 (fun p => if String.eqb p (step_project_cache_file self)
                           then Some (Ok (JArr repos)) else files u1 p))).
  { unfold reload_projects. rewrite (bind_ok _ _ _ _ _ Hr3).
    rewrite (bind_ok _ _ _ _ _ Hnoop). rewrite atomic_write_file_run. cbv zeta.
    simpl. rewrite Hwrite. reflexivity. }
  split; [exact Hreload |].
  split; [simpl; rewrite Ht0, <- app_assoc; reflexivity |].
  split.
  { simpl. clear - Hc Ft0. induction t as [| ev t IHt]; simpl.
    - apply refresh_events_create_nothing, Ft0.
    - destruct ev; simpl in *; try discriminate; apply IHt; exact Hc. }
  split; [simpl; exact B1 |].
  split.
  - intros p. simpl. rewrite B2. subst w1. simpl.
    destruct (String.eqb p (step_project_cache_file self)); reflexivity.
  - unfold run. rewrite Hreload. reflexivity.
Qed.

(** The reload of the unsorted listing, run twice. *)
Lemma second_reload_creates_nothing_witness :
  exists w2 t,
    reload_projects sample_step (snd (reload_projects sample_step unsorted_listing))
    = (Ok tt, w2)
    /\ trace w2 = t ++ trace (snd (reload_projects sample_step unsorted_listing))
    /\ creations t = 0.
Proof.
  destruct (second_reload_creates_nothing sample_step unsorted_listing
              (snd (reload_projects sample_step unsorted_listing)))
    as (w2 & t & H1 & H2 & H3 & _).
  - vm_compute. reflexivity.
  - exists w2, t. auto.
Defined.

(** ** More on the enumeration *)

Lemma subscript_not_OSError (x : json) (key : string) (e : exn) :
  subscript x key = Raise e -> is_OSError e = false.
Proof.
  destruct x; simpl; try (intros H; inversion H; reflexivity).
  destruct (dict_get fields key); intros H; inversion H. reflexivity.
Qed.

(** What one turn of the loop adds to the trace. *)
Lemma refresh_step_events (config : GiteaConfig) (acc : list json) (repo : json)
  (w : world) :
  let w' := snd (refresh_step config acc repo w) in
  trace w' = trace w
  \/ (exists name, trace w' = LogSkipping name :: trace w)
  \/ (exists admin login name tok,
         trace w' = GetTopics (instance_url config) login name tok :: trace w
         /\ admin_of repo = Ok admin /\ truthy admin = true
         /\ login_of repo = Ok login /\ subscript repo "name" = Ok name
         /\ secret_files w (token_secret_name config) = Ok tok).
Proof.
  cbv zeta.
  unfold refresh_step, admin_of, login_of, bind, lift, try_except_OSError,
    token, read_secret_file, emit, ret.
  destruct (subscript repo "permissions") as [permissions | e]; simpl; [| auto].
  destruct (subscript permissions "admin") as [admin | e]; simpl; [| auto].
  destruct (truthy admin) eqn:Hadmin; simpl.
  2:{ destruct (subscript repo "full_name") as [name | e]; simpl; [| auto].
      right. left. exists name. reflexivity. }
  destruct (subscript repo "owner") as [owner | e]; simpl.
  2:{ destruct (is_OSError e); auto. }
  destruct (subscript owner "login") as [login | e]; simpl.
  2:{ destruct (is_OSError e); auto. }
  destruct (subscript repo "name") as [name | e]; simpl.
  2:{ destruct (is_OSError e); auto. }
  destruct (secret_files w (token_secret_name config)) as [tok | e] eqn:Htok; simpl.
  2:{ destruct (is_OSError e); auto. }
  assert (Hthird : forall v : world,
             trace v = GetTopics (instance_url config) login name tok :: trace w ->
             trace v = trace w
             \/ (exists n, trace v = LogSkipping n :: trace w)
             \/ (exists a l n t,
                    trace v = GetTopics (instance_url config) l n t :: trace w
                    /\ Ok admin = Ok a /\ truthy a = true
                    /\ Ok login = Ok l /\ Ok name = Ok n
                    /\ Ok tok = Ok t)).
  { intros v Hv. right. right. exists admin, login, name, tok. auto 10. }
  destruct (topics_of w login name) as [body | e]; simpl.
  2:{ destruct (is_OSError e); apply (Hthird (with_trace w (GetTopics (instance_url config) login name tok
                                     :: trace w))); reflexivity. }
  destruct (subscript body "topics") as [topics | e]; simpl.
  2:{ destruct (is_OSError e); apply (Hthird (with_trace w (GetTopics (instance_url config) login name tok
                                     :: trace w))); reflexivity. }
  destruct (assign repo "topics" topics) as [repo' | e]; simpl.
  2:{ destruct (is_OSError e); apply (Hthird (with_trace w (GetTopics (instance_url config) login name tok
                                     :: trace w))); reflexivity. }
  apply (Hthird (with_trace w (GetTopics (instance_url config) login name tok
                                     :: trace w))); reflexivity.
Qed.

Lemma refresh_loop_requests (config : GiteaConfig) (w0 : world) (items : list json) :
  forall (xs acc : list json) (w : world),
    (forall x, In x xs -> In x items) ->
    secret_files w = secret_files w0 ->
    extends (topics_request_for config w0 items) w
      (snd (for_fold (refresh_step config) xs acc w)).
Proof.
  induction xs as [| x xs IH]; intros acc w Hsub Hsecret; simpl.
  - apply extends_refl.
  - unfold bind.
    pose proof (refresh_step_events config acc x w) as Hev.
    pose proof (refresh_step_quiet config acc x w) as Q.
    cbv zeta in Hev.
    assert (Hstep : extends (topics_request_for config w0 items) w
                      (snd (refresh_step config acc x w))).
    { destruct Hev as [Hev | [(name & Hev) | (admin & login & name & tok & Hev & K)]].
      - exists []. split; [exact Hev | constructor].
      - exists [LogSkipping name]. split; [exact Hev |].
        constructor; [| constructor]. intros i o n t Heq. discriminate Heq.
      - exists [GetTopics (instance_url config) login name tok]. split; [exact Hev |].
        constructor; [| constructor]. intros i o n t Heq. inversion Heq; subst.
        destruct K as (K1 & K2 & K3 & K4 & K5).
        split; [reflexivity |]. split; [rewrite <- Hsecret; exact K5 |].
        exists x, admin. split; [apply Hsub; left; reflexivity | auto]. }
    destruct (refresh_step config acc x w) as [[s | e] w1]; simpl in *;
      [| exact Hstep].
    eapply extends_trans; [exact Hstep |].
    apply IH.
    + intros y Hy. apply Hsub. right. exact Hy.
    + destruct Q as (_ & (Qs & _) & _). rewrite Qs. exact Hsecret.
Qed.

(** X2. Every request for topics that [refresh_projects] makes is for
    the owner and name of an enumerated record whose admin flag holds,
    goes to the configured instance and carries the API token: no topics
    are requested for a repository the identity does not administer. *)
Theorem topics_requested_for_admin_only :
  forall (config : GiteaConfig) (w : world),
    exists t,
      trace (snd (refresh_projects config w)) = t ++ trace w
      /\ forall instance owner name tok,
          In (GetTopics instance owner name tok) t ->
          instance = instance_url config
          /\ secret_files w (token_secret_name config) = Ok tok
          /\ exists repo admin,
              In repo (fst (user_repos w))
              /\ admin_of repo = Ok admin /\ truthy admin = true
              /\ login_of repo = Ok owner /\ subscript repo "name" = Ok name.
Proof.
  intros config w.
  assert (H : extends (topics_request_for config w (fst (user_repos w))) w
                (snd (refresh_projects config w))).
  { unfold refresh_projects, bind, token, read_secret_file, emit. simpl.
    destruct (secret_files w (token_secret_name config)) as [tok | e]; simpl;
      [| apply extends_refl].
    eapply extends_trans.
    { apply (extends_emit _ (ListRepos (instance_url config) tok)).
      intros i o n t Heq. discriminate Heq. }
    pose proof (refresh_loop_requests config w (fst (user_repos w))
                  (fst (user_repos w)) []
                  (with_trace w (ListRepos (instance_url config) tok :: trace w))
                  (fun x Hx => Hx) eq_refl) as Hloop.
    destruct (for_fold (refresh_step config) (fst (user_repos w)) [] _)
      as [[repos | e] w1]; simpl in *; [| exact Hloop].
    destruct (snd (user_repos w)); exact Hloop. }
  destruct H as (t & Ht & Ft). exists t. split; [exact Ht |].
  intros instance owner name tok Hin.
  rewrite Forall_forall in Ft. exact (Ft _ Hin _ _ _ _ eq_refl).
Qed.

Lemma refresh_step_readable (config : GiteaConfig) (acc acc' : list json)
  (repo : json) (w w' : world) :
  refresh_step config acc repo w = (Ok acc', w') -> readable_record repo.
Proof.
  unfold readable_record, refresh_step, admin_of, login_of, bind, lift,
    try_except_OSError, token, read_secret_file, emit, ret.
  intros H.
  destruct (subscript repo "permissions") as [permissions | e]; simpl in *;
    [| discriminate].
  destruct (subscript permissions "admin") as [admin | e]; simpl in *;
    [| discriminate].
  exists admin. split; [reflexivity |].
  destruct (truthy admin); simpl in *.
  2:{ destruct (subscript repo "full_name") as [name | e]; simpl in *;
        [exists name; reflexivity | discriminate]. }
  destruct (subscript repo "owner") as [owner | e] eqn:Ho; simpl in *.
  2:{ rewrite (subscript_not_OSError _ _ _ Ho) in H. discriminate. }
  destruct (subscript owner "login") as [login | e] eqn:Hl; simpl in *.
  2:{ rewrite (subscript_not_OSError _ _ _ Hl) in H. discriminate. }
  destruct (subscript repo "name") as [name | e] eqn:Hn; simpl in *.
  2:{ rewrite (subscript_not_OSError _ _ _ Hn) in H. discriminate. }
  exists login, name. split; reflexivity.
Qed.

Lemma refresh_loop_readable (config : GiteaConfig) (items : list json) :
  forall (acc repos : list json) (w w' : world),
    for_fold (refresh_step config) items acc w = (Ok repos, w') ->
    Forall readable_record items.
Proof.
  induction items as [| x items IH]; intros acc repos w w' H; [constructor |].
  simpl in H. apply bind_inv in H.
  destruct H as [(acc' & w1 & Hstep & H) | (e & _ & He)]; [| discriminate].
  constructor; [eapply refresh_step_readable; eassumption | eapply IH; eassumption].
Qed.

(** X4. [refresh_projects] returns a list only if every enumerated
    record could be read: each has [permissions.admin], a skipped one its
    [full_name], a kept one its owner's login and its name.  So a single
    record without an admin flag makes the whole refresh raise. *)
Theorem refresh_needs_readable_records :
  forall (config : GiteaConfig) (w : world),
    (forall repos w',
        refresh_projects config w = (Ok repos, w') ->
        Forall readable_record (fst (user_repos w)))
    /\ (forall repo e,
           In repo (fst (user_repos w)) ->
           admin_of repo = Raise e ->
           exists e', fst (refresh_projects config w) = Raise e').
Proof.
  intros config w.
  assert (Hfirst : forall repos w',
             refresh_projects config w = (Ok repos, w') ->
             Forall readable_record (fst (user_repos w))).
  { unfold refresh_projects, bind, token, read_secret_file, emit. intros repos w' H.
    destruct (secret_files w (token_secret_name config)) as [tok | e]; simpl in H;
      [| discriminate].
    destruct (for_fold (refresh_step config) (fst (user_repos w)) []
                (with_trace w (ListRepos (instance_url config) tok :: trace w)))
      as [[collected | e] w1] eqn:Hloop; [| discriminate].
    eapply refresh_loop_readable. exact Hloop. }
  split; [exact Hfirst |].
  intros repo e Hin Hadmin.
  destruct (refresh_projects config w) as [[repos | e'] w'] eqn:H.
  - specialize (Hfirst repos w' eq_refl). rewrite Forall_forall in Hfirst.
    destruct (Hfirst repo Hin) as (admin & Ha & _). rewrite Hadmin in Ha. discriminate.
  - exists e'. reflexivity.
Qed.

(** X3. When the enumeration of the repositories ends with an exception,
    whatever its class and however many records it yielded before,
    [refresh_projects] raises: no partial list is returned, the reload
    raises the same exception, the step fails and the files stay what
    they were. *)
Theorem broken_enumeration_is_never_saved :
  forall (self : ReloadGiteaProjects) (w : world) (items : list json) (e : exn),
    user_repos w = (items, Some e) ->
    exists e',
      fst (refresh_projects (step_config self) w) = Raise e'
      /\ fst (reload_projects self w) = Raise e'
      /\ fst (run self w) = Ok FAILURE
      /\ files (snd (run self w)) = files w.
Proof.
  intros self w items e Hrepos.
  destruct (refresh_projects (step_config self) w) as [[repos | e'] w1] eqn:H.
  - destruct (refresh_projects_collects _ _ _ _ H) as [_ Hnone].
    rewrite Hrepos in Hnone. discriminate.
  - exists e'. split; [reflexivity |].
    assert (Hreload : reload_projects self w = (Raise e', w1)).
    { unfold reload_projects. apply bind_raise. exact H. }
    rewrite Hreload. split; [reflexivity |].
    unfold run. rewrite Hreload. simpl. split; [reflexivity |].
    pose proof (refresh_projects_quiet (step_config self) w) as Q.
    rewrite H in Q. destruct Q as (F & _). exact F.
Qed.

(** The listing that breaks off after one record. *)
Lemma broken_enumeration_is_never_saved_witness :
  exists e',
    fst (refresh_projects sample_config broken_listing) = Raise e'
    /\ fst (reload_projects sample_step broken_listing) = Raise e'
    /\ fst (run sample_step broken_listing) = Ok FAILURE
    /\ files (snd (run sample_step broken_listing)) = files broken_listing.
Proof.
  apply (broken_enumeration_is_never_saved sample_step broken_listing
           [repo_record "a" "repo" true] (mkExn OtherError "HTTP 502")).
  reflexivity.
Defined.

(** X5. A record that [refresh_projects] returns is a record of the
    enumeration in which only the entry [topics] was set: it carries the
    [topics] of the answer to the request for that record's own owner
    and name, and under every other key it holds what the enumerated
    record held. *)
Theorem refresh_changes_only_topics :
  forall (config : GiteaConfig) (w w' : world) (repos : list json),
    refresh_projects config w = (Ok repos, w') ->
    forall repo',
      In repo' repos ->
      exists repo login name body topics,
        In repo (fst (user_repos w))
        /\ login_of repo = Ok login /\ subscript repo "name" = Ok name
        /\ topics_of w login name = Ok body
        /\ subscript body "topics" = Ok topics
        /\ subscript repo' "topics" = Ok topics
        /\ forall key, key <> "topics" -> subscript repo' key = subscript repo key.
Proof.
  intros config w w' repos H repo' Hin.
  destruct (refresh_projects_collects _ _ _ _ H) as [Hc _].
  destruct (collected_from_In _ _ _ _ Hc Hin)
    as (repo & admin & login & name & body & topics
        & Hin0 & _ & _ & Hl & Hn & Hb & Ht & Hassign).
  exists repo, login, name, body, topics.
  repeat split; try assumption.
  - apply (assign_subscript _ _ _ _ "topics" Hassign).
  - intros key Hkey. rewrite (assign_subscript _ _ _ _ key Hassign).
    destruct (String.eqb key "topics") eqn:Heq; [| reflexivity].
    apply String.eqb_eq in Heq. contradiction.
Qed.

(** The unsorted listing: [b/repo] comes back with its topics and its
    other entries as listed. *)
Lemma refresh_changes_only_topics_witness :
  exists repo login name body topics,
    In repo (fst (user_repos unsorted_listing))
    /\ login_of repo = Ok login /\ subscript repo "name" = Ok name
    /\ topics_of unsorted_listing login name = Ok body
    /\ subscript body "topics" = Ok topics
    /\ subscript (tagged (repo_record "b" "repo" true) ["build-with-buildbot"]) "topics"
       = Ok topics
    /\ forall key,
        key <> "topics" ->
        subscript (tagged (repo_record "b" "repo" true) ["build-with-buildbot"]) key
        = subscript repo key.
Proof.
  apply (refresh_changes_only_topics sample_config unsorted_listing
           (snd (refresh_projects sample_config unsorted_listing))
           [tagged (repo_record "b" "repo" true) ["build-with-buildbot"];
            tagged (repo_record "a" "repo" true) ["build-with-buildbot"];
            tagged (repo_record "c" "repo" true) ["build-with-buildbot"]]).
  - vm_compute. reflexivity.
  - left. reflexivity.
Defined.

(** The calm server with a record of each kind: both are readable. *)
Lemma refresh_needs_readable_records_witness :
  Forall readable_record (fst (user_repos mixed_listing)).
Proof.
  apply (proj1 (refresh_needs_readable_records sample_config mixed_listing)
           [tagged (repo_record "a" "repo" true) ["build-with-buildbot"]]
           (snd (refresh_projects sample_config mixed_listing))).
  vm_compute. reflexivity.
Defined.

(** ** The order of full names *)

Lemma string_leb_trans (a b c : string) :
  String.leb a b = true -> String.leb b c = true -> String.leb a c = true.
Proof.
  unfold String.leb. revert b c.
  induction a as [| x a IH]; intros [| y b] [| z c]; simpl; try reflexivity;
    try discriminate.
  destruct (Ascii.compare x y) eqn:Exy; try discriminate.
  - apply Ascii.compare_eq_iff in Exy. subst y.
    destruct (Ascii.compare x z); try reflexivity; try discriminate. apply IH.
  - intros _. destruct (Ascii.compare y z) eqn:Eyz; try discriminate.
    + apply Ascii.compare_eq_iff in Eyz. subst z. rewrite Exy. reflexivity.
    + intros _. unfold Ascii.compare in *.
      apply N.compare_lt_iff in Exy. apply N.compare_lt_iff in Eyz.
      pose proof (N.lt_trans _ _ _ Exy Eyz) as H.
      apply N.compare_lt_iff in H. rewrite H. reflexivity.
Qed.

Lemma name_le_trans (a b c : json) : name_le a b -> name_le b c -> name_le a c.
Proof.
  intros (s & t & Hs & Ht & Hst) (t' & u & Ht' & Hu & Htu).
  rewrite Ht in Ht'. inversion Ht'; subst t'.
  exists s, u. repeat split; try assumption.
  eapply string_leb_trans; eassumption.
Qed.

Lemma Sorted_filter (keep : json -> bool) (l : list json) :
  Sorted name_le l -> Sorted name_le (filter keep l).
Proof.
  intros H. apply StronglySorted_Sorted.
  apply Sorted_StronglySorted in H; [| intros a b c; apply name_le_trans].
  induction H as [| x l _ IH Hall]; simpl; [constructor |].
  destruct (keep x); [| exact IH].
  constructor; [exact IH |].
  rewrite Forall_forall in *. intros y Hy. apply Hall.
  apply filter_In in Hy. apply Hy.
Qed.

(** ** Loading, more closely *)

Lemma Permutation_filter_records (keep : json -> bool) (l l' : list json) :
  Permutation l l' -> Permutation (filter keep l) (filter keep l').
Proof.
  induction 1 as [| x l l' _ IH | x y l | l l' l'' _ IH1 _ IH2]; simpl.
  - constructor.
  - destruct (keep x); [apply perm_skip |]; exact IH.
  - destruct (keep x), (keep y); try apply Permutation_refl. apply perm_swap.
  - eapply perm_trans; eassumption.
Qed.

Lemma load_projects_tagged_sorted (self : GiteaBackend) (w : world) (t : string)
  (records : list json) :
  topic (backend_config self) = Some t ->
  files w (project_cache_file (backend_config self)) = Some (Ok (JArr records)) ->
  Forall snapshot_record records ->
  exists projects,
    load_projects self w = (Ok projects, w)
    /\ Sorted name_le (map data projects)
    /\ (forall repo,
           In repo (map data projects)
           <-> In repo records /\ tagged_with t repo = true)
    /\ Forall (fun p => project_config p = backend_config self) projects
    /\ projects = map (mkGiteaProject (backend_config self)) (map data projects)
    /\ Permutation (map data projects) (filter (tagged_with t) records).
Proof.
  intros Htopic Hfile Hrecords.
  destruct (load_projects_with_topic self w t records Htopic Hfile Hrecords)
    as (repos & Hperm & Hsorted & Hload).
  eexists. split; [exact Hload |].
  rewrite map_map. simpl. rewrite map_id.
  split; [apply Sorted_filter, Hsorted |]. split; [| split; [| split]].
  - intros repo. rewrite filter_In. split; intros [Hin Htag]; (split; [| exact Htag]).
    + apply Permutation_sym in Hperm. eapply Permutation_in; eassumption.
    + eapply Permutation_in; eassumption.
  - apply Forall_forall. intros p Hp. apply in_map_iff in Hp.
    destruct Hp as (r & <- & _). reflexivity.
  - reflexivity.
  - apply Permutation_filter_records, Permutation_sym, Hperm.
Qed.

(** X12. With a required topic configured and a cache file holding
    records with string full names and lists of topics,
    [load_projects] returns, leaves the world as it is, and its projects
    are exactly the cached records that carry the topic, each as often
    as the cache holds it, in the order of their full names, each with
    the backend's configuration. *)
Theorem load_projects_returns_tagged_sorted :
  forall (self : GiteaBackend) (w : world) (t : string) (records : list json),
    topic (backend_config self) = Some t ->
    files w (project_cache_file (backend_config self)) = Some (Ok (JArr records)) ->
    Forall snapshot_record records ->
    exists projects,
      load_projects self w = (Ok projects, w)
      /\ Sorted name_le (map data projects)
      /\ (forall repo,
             In repo (map data projects)
             <-> In repo records /\ tagged_with t repo = true)
      /\ Forall (fun p => project_config p = backend_config self) projects
      /\ Forall (fun p => exists topics,
                     project_topics p = Ok (JArr topics)
                     /\ existsb (fun y => eq_str y t) topics = true) projects
      /\ projects = map (mkGiteaProject (backend_config self)) (map data projects)
      /\ Permutation (map data projects) (filter (tagged_with t) records).
Proof.
  intros self w t records Htopic Hfile Hrecords.
  destruct (load_projects_tagged_sorted self w t records Htopic Hfile Hrecords)
    as (projects & Hload & Hsorted & Hin & Hconfig & Hexact & Hperm).
  exists projects. split; [exact Hload |]. split; [exact Hsorted |].
  split; [exact Hin |]. split; [exact Hconfig |].
  split; [| split; [exact Hexact | exact Hperm]].
  apply Forall_forall. intros p Hp.
  assert (Hdata : In (data p) (map data projects)) by (apply in_map; exact Hp).
  apply Hin in Hdata. destruct Hdata as [_ Htag].
  unfold tagged_with in Htag. unfold project_topics.
  destruct (subscript (data p) "topics") as [[| | | | topics |] | e];
    try discriminate.
  exists topics. split; [reflexivity | exact Htag].
Qed.

(** The three cached records: two carry the topic. *)
Lemma load_projects_returns_tagged_sorted_witness :
  exists projects,
    load_projects sample_backend three_cached = (Ok projects, three_cached)
    /\ Sorted name_le (map data projects)
    /\ Permutation (map data projects)
         [tagged (repo_record "b" "repo" true) ["build-with-buildbot"];
          tagged (repo_record "a" "repo" true) ["nix"; "build-with-buildbot"]].
Proof.
  destruct (load_projects_returns_tagged_sorted sample_backend three_cached
              "build-with-buildbot"
              [tagged (repo_record "b" "repo" true) ["build-with-buildbot"];
               tagged (repo_record "c" "repo" true) ["other"];
               tagged (repo_record "a" "repo" true) ["nix"; "build-with-buildbot"]]
              eq_refl eq_refl)
    as (projects & H1 & H2 & _ & _ & _ & _ & H3).
  - repeat constructor; eexists; reflexivity.
  - exists projects. split; [exact H1 |]. split; [exact H2 | exact H3].
Defined.

Lemma mapR_raises {A B : Type} (f : A -> result B) (before after : list A)
  (x : A) (e : exn) :
  Forall (fun y => exists b, f y = Ok b) before ->
  f x = Raise e ->
  mapR f (before ++ x :: after) = Raise e.
Proof.
  intros Hbefore Hx. induction Hbefore as [| y ys [b Hy] _ IH]; simpl.
  - rewrite Hx. reflexivity.
  - rewrite Hy. simpl. rewrite IH. reflexivity.
Qed.

Lemma filterR_raises {A : Type} (p : A -> result bool) (xs : list A) (x : A) (e : exn) :
  In x xs -> p x = Raise e -> exists e', filterR p xs = Raise e'.
Proof.
  induction xs as [| y ys IH]; intros Hin Hx; [contradiction |]. simpl.
  destruct (p y) as [keep | e0] eqn:Hy; simpl; [| exists e0; reflexivity].
  destruct Hin as [-> | Hin]; [rewrite Hx in Hy; discriminate |].
  destruct (IH Hin Hx) as [e' He']. rewrite He'. exists e'. reflexivity.
Qed.

(** X13. A cache file that cannot be read as the code expects makes
    [load_projects] raise, with the world untouched: the exception of
    reading or parsing the file; the [KeyError] of the first record
    without [full_name], whatever the topic filter and whether or not the
    record would pass it; and, when a topic is required, an exception as
    soon as one record has no [topics]. *)
Theorem load_projects_fails_on_malformed_cache :
  forall (self : GiteaBackend) (w : world),
    (forall e,
        files w (project_cache_file (backend_config self)) = Some (Raise e) ->
        load_projects self w = (Raise e, w))
    /\ (forall before repo after e,
           files w (project_cache_file (backend_config self))
           = Some (Ok (JArr (before ++ repo :: after))) ->
           Forall (fun r => exists name, subscript r "full_name" = Ok name) before ->
           subscript repo "full_name" = Raise e ->
           load_projects self w = (Raise e, w))
    /\ (forall records repo t e,
           topic (backend_config self) = Some t ->
           files w (project_cache_file (backend_config self))
           = Some (Ok (JArr records)) ->
           Forall has_string_name records ->
           In repo records ->
           subscript repo "topics" = Raise e ->
           exists e', load_projects self w = (Raise e', w)).
Proof.
  intros self w. split; [| split].
  - intros e H. unfold load_projects. rewrite H. reflexivity.
  - intros before repo after e H Hbefore Hrepo. unfold load_projects. rewrite H.
    simpl. unfold sorted.
    rewrite (mapR_raises _ before after repo e); [reflexivity | | rewrite Hrepo; reflexivity].
    eapply Forall_impl; [| exact Hbefore].
    intros r [name Hname]. rewrite Hname. simpl. eexists. reflexivity.
  - intros records repo t e Htopic H Hnames Hin Htopics.
    destruct (sorted_by_full_name records Hnames) as (repos & Hsorted & Hperm & _).
    destruct (filterR_raises (has_topic (backend_config self))
                (map (mkGiteaProject (backend_config self)) repos)
                (mkGiteaProject (backend_config self) repo) e)
      as [e' He'].
    + apply in_map. eapply Permutation_in; eassumption.
    + unfold has_topic, project_topics. rewrite Htopic. simpl. rewrite Htopics.
      reflexivity.
    + exists e'. unfold load_projects. rewrite H. simpl. rewrite Hsorted. simpl.
      rewrite He'. reflexivity.
Qed.

(** A cache whose second record has no [full_name]. *)
Lemma load_projects_fails_on_malformed_cache_witness :
  load_projects sample_backend
    (with_snapshot (calm []) (project_cache_file sample_config)
       (JArr [tagged (repo_record "a" "repo" true) ["build-with-buildbot"];
              JObj [("name", JStr "nameless")]]))
  = (Raise (mkExn KeyError "full_name"),
     with_snapshot (calm []) (project_cache_file sample_config)
       (JArr [tagged (repo_record "a" "repo" true) ["build-with-buildbot"];
              JObj [("name", JStr "nameless")]])).
Proof.
  destruct (load_projects_fails_on_malformed_cache sample_backend
              (with_snapshot (calm []) (project_cache_file sample_config)
                 (JArr [tagged (repo_record "a" "repo" true) ["build-with-buildbot"];
                        JObj [("name", JStr "nameless")]])))
    as (_ & H & _).
  apply (H [tagged (repo_record "a" "repo" true) ["build-with-buildbot"]]
           (JObj [("name", JStr "nameless")]) []).
  - reflexivity.
  - repeat constructor. eexists. reflexivity.
  - reflexivity.
Defined.

(** ** The step, the snapshot and the change hook *)

(** X15. When the step returns success, the reload signal is the last
    event of the run and the write of the snapshot the one before it:
    the controller is signalled only once the cache file holds the new
    snapshot, and between the start of the run and that write only
    requests and diagnostics took place. *)
Theorem reload_signal_follows_write :
  forall (self : ReloadGiteaProjects) (w w' : world),
    run self w = (Ok SUCCESS, w') ->
    exists repos t,
      trace w'
      = Sighup :: WriteFile (step_project_cache_file self) (JArr repos) :: t ++ trace w
      /\ Forall network_event t
      /\ files w' (step_project_cache_file self) = Some (Ok (JArr repos))
      /\ refresh_projects (step_config self) w
         = (Ok repos, snd (refresh_projects (step_config self) w)).
Proof.
  intros self w w' H. unfold run in H.
  destruct (reload_projects self w) as [[[] | e] v] eqn:Hreload;
    [| simpl in H; inversion H].
  destruct (reload_projects_success _ _ _ Hreload)
    as (repos & v1 & v2 & Hr & Hf & _ & Hv).
  pose proof (refresh_projects_quiet (step_config self) w) as Q1. rewrite Hr in Q1.
  pose proof (reconcile_all_quiet self repos v1) as Q2. rewrite Hf in Q2.
  destruct (quiet_trans _ _ _ Q1 Q2) as (_ & _ & t & Ht & Ft). simpl in Ht.
  exists repos, t. simpl in H. inversion H; subst. simpl.
  rewrite Ht, String.eqb_refl, Hr. auto.
Qed.

(** The reload of the unsorted listing ends with the write, then the
    signal. *)
Lemma reload_signal_follows_write_witness :
  exists repos t,
    trace (snd (run sample_step unsorted_listing))
    = Sighup :: WriteFile (project_cache_file sample_config) (JArr repos)
      :: t ++ trace unsorted_listing
    /\ Forall network_event t.
Proof.
  destruct (reload_signal_follows_write sample_step unsorted_listing
              (snd (run sample_step unsorted_listing)))
    as (repos & t & H1 & H2 & _).
  - vm_compute. reflexivity.
  - exists repos, t. auto.
Defined.

(** X16. The hooks that the step of [create_reload_builder] registers
    agree with the change hook of the same backend: every creation
    request of a run goes to the configured instance and its payload
    carries the URL made of the base URL, [change_hook/] and
    [change_hook_name], the secret that [create_change_hook] gives, and
    the events [push] and [pull_request]. *)
Theorem registered_hook_matches_change_hook :
  forall (self : GiteaBackend) (base_url : string) (w : world),
    exists t,
      trace (snd (run (create_reload_builder self base_url) w)) = t ++ trace w
      /\ forall instance repo_name headers payload,
          In (CreateHook instance repo_name headers payload) t ->
          instance = instance_url (backend_config self)
          /\ hook_url payload
             = Ok (JStr (base_url ++ "change_hook/" ++ change_hook_name self)%string)
          /\ (config <~ subscript payload "config" ;; subscript config "secret")
             = subscript (create_change_hook self) "secret"
          /\ subscript payload "events" = Ok (JArr [JStr "push"; JStr "pull_request"]).
Proof.
  intros self base_url w.
  set (Q := fun ev : event =>
              forall instance repo_name headers payload,
                ev = CreateHook instance repo_name headers payload ->
                instance = instance_url (backend_config self)
                /\ hook_url payload
                   = Ok (JStr (base_url ++ "change_hook/" ++ change_hook_name self)%string)
                /\ (config <~ subscript payload "config" ;; subscript config "secret")
                   = subscript (create_change_hook self) "secret"
                /\ subscript payload "events"
                   = Ok (JArr [JStr "push"; JStr "pull_request"])).
  assert (Hreload : preserves (extends Q)
                      (reload_projects (create_reload_builder self base_url))).
  { unfold reload_projects. apply preserves_bind.
    - apply extends_trans.
    - apply preserves_refresh_projects with (P := Q);
        try (intros; intros i n h d Heq; discriminate Heq).
      + apply extends_refl.
      + apply extends_trans.
      + apply extends_emit.
    - intros repos. apply preserves_bind; [apply extends_trans | |].
      + apply preserves_reconcile_all with (P := Q).
        * apply extends_refl.
        * apply extends_trans.
        * apply extends_emit.
        * apply extends_hooks.
        * intros repo name tok _ _.
          split; [| split]; intros i n h d Heq; try discriminate Heq.
          inversion Heq; subst. repeat split.
      + intros _. apply preserves_atomic_write_file with (P := Q).
        * apply extends_refl.
        * apply extends_trans.
        * apply extends_emit.
        * intros v f. exists []. split; [reflexivity | constructor].
        * intros i n h d Heq. discriminate Heq. }
  assert (Hrun : extends Q w (snd (run (create_reload_builder self base_url) w))).
  { specialize (Hreload w). unfold run.
    destruct (reload_projects (create_reload_builder self base_url) w)
      as [[u | e] v]; simpl in *.
    - eapply extends_trans; [exact Hreload |].
      apply extends_emit. intros i n h d Heq. discriminate Heq.
    - eapply extends_trans; [exact Hreload |].
      eapply extends_trans; apply extends_emit; intros i n h d Heq; discriminate Heq. }
  destruct Hrun as (t & Ht & Ft). exists t. split; [exact Ht |].
  intros instance repo_name headers payload Hin.
  rewrite Forall_forall in Ft. exact (Ft _ Hin _ _ _ _ eq_refl).
Qed.

(** X11. Reload, then load.  When a reload through the step of
    [create_reload_builder] succeeded, on a server whose full names are
    strings and whose topics are lists, the backend finds its projects
    cached, and [load_projects] with a required topic returns exactly the
    records the refresh collected that carry the topic, each as often as
    it was collected, in the order of their full names. *)
Theorem reload_then_load :
  forall (self : GiteaBackend) (base_url : string) (w w' : world) (t : string),
    topic (backend_config self) = Some t ->
    reload_projects (create_reload_builder self base_url) w = (Ok tt, w') ->
    (forall repo name,
        In repo (fst (user_repos w)) ->
        subscript repo "full_name" = Ok name -> exists s, name = JStr s) ->
    (forall login name body topics,
        topics_of w login name = Ok body ->
        subscript body "topics" = Ok topics -> exists l, topics = JArr l) ->
    exists repos projects,
      fst (refresh_projects (backend_config self) w) = Ok repos
      /\ are_projects_cached self w' = true
      /\ load_projects self w' = (Ok projects, w')
      /\ Sorted name_le (map data projects)
      /\ (forall repo,
             In repo (map data projects)
             <-> In repo repos /\ tagged_with t repo = true)
      /\ projects = map (mkGiteaProject (backend_config self)) (map data projects)
      /\ Permutation (map data projects) (filter (tagged_with t) repos).
Proof.
  intros self base_url w w' t Htopic Hreload Hnames Htopics.
  destruct (reload_projects_success _ _ _ Hreload)
    as (repos & v1 & v2 & Hr & Hf & _ & Hw').
  simpl in Hr, Hw'.
  assert (Hfile : files w' (project_cache_file (backend_config self))
                  = Some (Ok (JArr repos))).
  { subst w'. simpl. rewrite String.eqb_refl. reflexivity. }
  assert (Hrecords : Forall snapshot_record repos).
  { apply Forall_forall. intros repo' Hin.
    destruct (refresh_projects_collects _ _ _ _ Hr) as [Hc _].
    destruct (collected_from_In _ _ _ _ Hc Hin)
      as (repo & admin & login & name & body & topics
          & Hin0 & _ & _ & _ & _ & Hb & Ht & Hassign).
    destruct (reconcile_all_has_hooks _ repos v1 v2 Hf repo' Hin) as (fn & Hfn & _).
    split.
    - pose proof (assign_subscript _ _ _ _ "full_name" Hassign) as Hsame.
      simpl in Hsame. rewrite Hfn in Hsame. symmetry in Hsame.
      destruct (Hnames repo fn Hin0 Hsame) as [s ->]. exists s. exact Hfn.
    - destruct (Htopics login name body topics Hb Ht) as [l ->].
      exists l. apply (assign_subscript _ _ _ _ "topics" Hassign). }
  destruct (load_projects_tagged_sorted self w' t repos Htopic Hfile Hrecords)
    as (projects & Hload & Hsorted & Hin & _ & Hexact & Hperm).
  exists repos, projects. rewrite Hr.
  split; [reflexivity |].
  split; [unfold are_projects_cached; rewrite Hfile; reflexivity |].
  split; [exact Hload |]. split; [exact Hsorted |].
  split; [exact Hin |]. split; [exact Hexact | exact Hperm].
Qed.

(** The unsorted listing, reloaded and loaded. *)
Lemma reload_then_load_witness :
  exists repos projects,
    fst (refresh_projects sample_config unsorted_listing) = Ok repos
    /\ are_projects_cached sample_backend
         (snd (reload_projects sample_step unsorted_listing)) = true
    /\ load_projects sample_backend (snd (reload_projects sample_step unsorted_listing))
       = (Ok projects, snd (reload_projects sample_step unsorted_listing))
    /\ Sorted name_le (map data projects)
    /\ Permutation (map data projects)
         (filter (tagged_with "build-with-buildbot") repos).
Proof.
  destruct (reload_then_load sample_backend "https://buildbot.example.org/"
              unsorted_listing (snd (reload_projects sample_step unsorted_listing))
              "build-with-buildbot" eq_refl)
    as (repos & projects & H1 & H2 & H3 & H4 & _ & _ & H5).
  - vm_compute. reflexivity.
  - intros repo name [<- | [<- | [<- | []]]] H; vm_compute in H; inversion H;
      eexists; reflexivity.
  - intros login name body topics H1 H2. vm_compute in H1. inversion H1; subst.
    vm_compute in H2. inversion H2. eexists. reflexivity.
  - exists repos, projects. auto 6.
Defined.

(** ** The order of the records in the cache file *)

Lemma NoDup_map_injective {A B : Type} (f : A -> B) (l : list A) :
  NoDup (map f l) ->
  forall a b, In a l -> In b l -> f a = f b -> a = b.
Proof.
  induction l as [| x l IH]; intros Hnd a b Ha Hb Hf; [contradiction |].
  simpl in Hnd. inversion Hnd as [| ? ? Hx Hl]; subst.
  destruct Ha as [<- | Ha], Hb as [<- | Hb].
  - reflexivity.
  - exfalso. apply Hx. rewrite Hf. apply in_map, Hb.
  - exfalso. apply Hx. rewrite <- Hf. apply in_map, Ha.
  - apply IH; assumption.
Qed.

Lemma sorted_permutation_unique (l1 : list json) :
  forall l2,
    StronglySorted name_le l1 -> StronglySorted name_le l2 ->
    Permutation l1 l2 ->
    (forall a b, In a l1 -> In b l1 -> name_le a b -> name_le b a -> a = b) ->
    l1 = l2.
Proof.
  induction l1 as [| a l1 IH]; intros l2 H1 H2 Hperm Hanti.
  - apply Permutation_nil in Hperm. symmetry. exact Hperm.
  - destruct l2 as [| b l2].
    { apply Permutation_sym, Permutation_nil in Hperm. discriminate. }
    inversion H1 as [| ? ? H1' Ha]; subst. inversion H2 as [| ? ? H2' Hb]; subst.
    assert (Hab : a = b).
    { assert (Hina : In a (b :: l2))
        by (eapply Permutation_in; [exact Hperm | left; reflexivity]).
      assert (Hinb : In b (a :: l1))
        by (eapply Permutation_in;
            [apply Permutation_sym; exact Hperm | left; reflexivity]).
      destruct Hina as [Heq | Hina]; [symmetry; exact Heq |].
      destruct Hinb as [Heq | Hinb]; [exact Heq |].
      rewrite Forall_forall in Ha, Hb.
      apply Hanti; [left; reflexivity | right; exact Hinb | apply Ha, Hinb
                   | apply Hb, Hina]. }
    subst b. f_equal. apply IH; try assumption.
    + eapply Permutation_cons_inv. exact Hperm.
    + intros x y Hx Hy. apply Hanti; right; assumption.
Qed.

(** X14. [load_projects] does not depend on the order of the records in
    the cache file: two cache files that hold the same records with
    string full names, no two of them equal, in any two orders, load to
    the same result. *)
Theorem load_projects_ignores_cache_order :
  forall (self : GiteaBackend) (w1 w2 : world) (records1 records2 : list json),
    files w1 (project_cache_file (backend_config self)) = Some (Ok (JArr records1)) ->
    files w2 (project_cache_file (backend_config self)) = Some (Ok (JArr records2)) ->
    Permutation records1 records2 ->
    Forall has_string_name records1 ->
    NoDup (map (fun r => subscript r "full_name") records1) ->
    fst (load_projects self w1) = fst (load_projects self w2).
Proof.
  intros self w1 w2 records1 records2 H1 H2 Hperm Hnames Hnodup.
  assert (Hnames2 : Forall has_string_name records2).
  { rewrite Forall_forall in *. intros r Hr. apply Hnames.
    eapply Permutation_in; [apply Permutation_sym; exact Hperm | exact Hr]. }
  destruct (sorted_by_full_name records1 Hnames) as (l1 & Hs1 & Hp1 & Ho1).
  destruct (sorted_by_full_name records2 Hnames2) as (l2 & Hs2 & Hp2 & Ho2).
  assert (Heq : l1 = l2).
  { apply sorted_permutation_unique.
    - apply Sorted_StronglySorted; [intros a b c; apply name_le_trans | exact Ho1].
    - apply Sorted_StronglySorted; [intros a b c; apply name_le_trans | exact Ho2].
    - eapply perm_trans; [apply Permutation_sym; exact Hp1 |].
      eapply perm_trans; [exact Hperm | exact Hp2].
    - intros a b Ha Hb (s & t & Hs & Ht & Hst) (t' & s' & Ht' & Hs'' & Hts).
      rewrite Ht in Ht'. inversion Ht'; subst t'.
      rewrite Hs in Hs''. inversion Hs''; subst s'.
      assert (s = t) by (apply String.leb_antisym; assumption). subst t.
      apply (NoDup_map_injective (fun r => subscript r "full_name") records1 Hnodup).
      + eapply Permutation_in; [apply Permutation_sym; exact Hp1 | exact Ha].
      + eapply Permutation_in; [apply Permutation_sym; exact Hp1 | exact Hb].
      + simpl. rewrite Hs, Ht. reflexivity. }
  unfold load_projects. rewrite H1, H2. simpl. rewrite Hs1, Hs2, Heq. reflexivity.
Qed.

(** The snapshot as the reload wrote it, [b], [a], [c], and the same
    records in the order [a], [b], [c]. *)
Lemma load_projects_ignores_cache_order_witness :
  fst (load_projects sample_backend
         (with_snapshot (calm []) (project_cache_file sample_config)
            (JArr [tagged (repo_record "b" "repo" true) ["build-with-buildbot"];
                   tagged (repo_record "a" "repo" true) ["build-with-buildbot"];
                   tagged (repo_record "c" "repo" true) ["build-with-buildbot"]])))
  = fst (load_projects sample_backend
           (with_snapshot (calm []) (project_cache_file sample_config)
              (JArr [tagged (repo_record "a" "repo" true) ["build-with-buildbot"];
                     tagged (repo_record "b" "repo" true) ["build-with-buildbot"];
                     tagged (repo_record "c" "repo" true) ["build-with-buildbot"]]))).
Proof.
  apply (load_projects_ignores_cache_order sample_backend _ _
           [tagged (repo_record "b" "repo" true) ["build-with-buildbot"];
            tagged (repo_record "a" "repo" true) ["build-with-buildbot"];
            tagged (repo_record "c" "repo" true) ["build-with-buildbot"]]
           [tagged (repo_record "a" "repo" true) ["build-with-buildbot"];
            tagged (repo_record "b" "repo" true) ["build-with-buildbot"];
            tagged (repo_record "c" "repo" true) ["build-with-buildbot"]]).
  - reflexivity.
  - reflexivity.
  - apply perm_swap.
  - repeat constructor; eexists; reflexivity.
  - vm_compute. repeat constructor; simpl; intuition discriminate.
Defined.

(** ** When every record is passed over *)

Lemma refresh_step_passes_over (config : GiteaConfig) (acc : list json) (repo : json)
  (tok : string) (w : world) :
  secret_files w (token_secret_name config) = Ok tok ->
  passed_over w repo ->
  fst (refresh_step config acc repo w) = Ok acc.
Proof.
  intros Htok (admin & Ha & Hrest).
  destruct (truthy admin) eqn:Ht.
  - destruct Hrest as (login & name & e & Hl & Hn & Htopics & He).
    rewrite (refresh_step_skips config acc repo admin login name tok e w); auto.
  - destruct Hrest as (name & Hname).
    unfold refresh_step, bind, lift, emit, ret. unfold admin_of in Ha.
    destruct (subscript repo "permissions") as [permissions | x]; simpl in *;
      [| discriminate].
    rewrite Ha. simpl. rewrite Ht. simpl. rewrite Hname. reflexivity.
Qed.

Lemma refresh_loop_passes_over (config : GiteaConfig) (tok : string) (w0 : world)
  (items : list json) :
  forall (acc : list json) (w : world),
    secret_files w = secret_files w0 -> topics_of w = topics_of w0 ->
    secret_files w0 (token_secret_name config) = Ok tok ->
    Forall (passed_over w0) items ->
    fst (for_fold (refresh_step config) items acc w) = Ok acc.
Proof.
  induction items as [| x items IH]; intros acc w Hs Ht Htok Hall; [reflexivity |].
  inversion Hall as [| ? ? Hx Hrest]; subst. simpl. unfold bind.
  assert (Hx' : passed_over w x).
  { destruct Hx as (admin & Ha & K). exists admin. split; [exact Ha |].
    destruct (truthy admin); [| exact K]. rewrite Ht. exact K. }
  pose proof (refresh_step_passes_over config acc x tok w) as Hstep.
  rewrite Hs in Hstep. specialize (Hstep Htok Hx').
  pose proof (refresh_step_quiet config acc x w) as Q.
  destruct (refresh_step config acc x w) as [[s | e] w1]; simpl in *;
    [| discriminate].
  inversion Hstep; subst s.
  destruct Q as (_ & (Qs & _ & Qt & _) & _).
  apply IH; try assumption; congruence.
Qed.

(** X17. When the enumeration ends normally and every record is passed
    over (the identity does not administer it, or its topics request
    raises an [OSError]), [refresh_projects] returns the empty list; if
    the write does not fail, the reload then replaces the snapshot on
    disk by the empty array, creates no hook, and the step reports
    success.  The empty enumeration is the first case. *)
Theorem passed_over_records_empty_the_snapshot :
  forall (self : ReloadGiteaProjects) (w : world) (items : list json) (tok : string),
    user_repos w = (items, None) ->
    secret_files w (token_secret_name (step_config self)) = Ok tok ->
    Forall (passed_over w) items ->
    write_error w (step_project_cache_file self) = None ->
    fst (refresh_projects (step_config self) w) = Ok []
    /\ fst (run self w) = Ok SUCCESS
    /\ files (snd (run self w)) (step_project_cache_file self) = Some (Ok (JArr []))
    /\ hooks (snd (run self w)) = hooks w.
Proof.
  intros self w items tok Hrepos Htok Hall Hwrite.
  assert (Hrefresh : fst (refresh_projects (step_config self) w) = Ok []).
  { unfold refresh_projects, bind, token, read_secret_file, emit. rewrite Htok.
    simpl. rewrite Hrepos. simpl.
    pose proof (refresh_loop_passes_over (step_config self) tok w items []
                  (with_trace w (ListRepos (instance_url (step_config self)) tok
                                 :: trace w))
                  eq_refl eq_refl Htok Hall) as Hloop.
    destruct (for_fold (refresh_step (step_config self)) items [] _)
      as [[repos | e] w1]; simpl in *; [| discriminate].
    inversion Hloop; subst. reflexivity. }
  split; [exact Hrefresh |].
  pose proof (refresh_projects_read_only (step_config self) w) as Q.
  destruct (refresh_projects (step_config self) w) as [r w1] eqn:Hr.
  simpl in Hrefresh. subst r.
  destruct Q as (Hhooks & Hfiles & (_ & _ & _ & _ & _ & Hwerr) & _).
  simpl in Hhooks, Hfiles, Hwerr.
  assert (Hreload : reload_projects self w
            = (Ok tt,
               with_files
                 (with_trace w1 (WriteFile (step_project_cache_file self) (JArr [])
                                 :: trace w1))
                 (fun p => if String.eqb p (step_project_cache_file self)
                           then Some (Ok (JArr [])) else files w1 p))).
  { unfold reload_projects. rewrite (bind_ok _ _ _ _ _ Hr). simpl.
    unfold bind, ret. rewrite atomic_write_file_run. cbv zeta.
    rewrite Hwerr, Hwrite. reflexivity. }
  unfold run. rewrite Hreload. simpl. rewrite String.eqb_refl. auto.
Qed.

(** During an outage of the topics endpoint the old snapshot is replaced
    by the empty one. *)
Lemma passed_over_records_empty_the_snapshot_witness :
  files topics_outage (project_cache_file sample_config) = Some (Ok old_snapshot)
  /\ fst (run sample_step topics_outage) = Ok SUCCESS
  /\ files (snd (run sample_step topics_outage)) (project_cache_file sample_config)
     = Some (Ok (JArr [])).
Proof.
  split; [reflexivity |].
  destruct (passed_over_records_empty_the_snapshot sample_step topics_outage
              [repo_record "a" "repo" true; repo_record "z" "repo" false;
               repo_record "b" "repo" true]
              "secret of gitea-token" eq_refl eq_refl)
    as (_ & H1 & H2 & _).
  - repeat constructor.
    + exists (JBool true). split; [reflexivity |]. simpl.
      exists (JStr "a"), (JStr "repo"), (mkExn OSError "timed out"). auto.
    + exists (JBool false). split; [reflexivity |]. simpl.
      exists (JStr "z/repo"). reflexivity.
    + exists (JBool true). split; [reflexivity |]. simpl.
      exists (JStr "b"), (JStr "repo"), (mkExn OSError "timed out"). auto.
  - reflexivity.
  - split; assumption.
Defined.
